(** * cifra-rust: [ci_scripts/get_version.py]

    A shallow embedding of the version extractor used by the CI scripts,
    together with the part of CPython's [configparser] it runs through
    ([ConfigParser()] with its default options, [read], [_read],
    [__getitem__] on the parser and on a section proxy, [get] and
    [BasicInterpolation]).

    Conventions.
    - A Python [str] is a [string]; its characters are read as code
      points below 256.
    - The file system is a finite map from path to file; a path that is
      not in the map cannot be opened ([open] raises [OSError]). A
      file is given by what reading it in text mode yields: its text
      or, when its bytes are not valid in the encoding of the locale,
      the text decoded before [UnicodeDecodeError] is raised.
    - An exception is a value of [exn]; code that may raise lives in the
      [result] monad. *)

From Stdlib Require Import String Ascii ZArith List Lia Bool.
From stdpp Require Import base option gmap strings.
From Equations Require Import Equations.

Local Open Scope string_scope.

(** ** Python string primitives *)

Module PyStr.

(** [str.isspace] on one character, which is also what [str.strip]
    and the regular-expression classes [\s] and [\S] test. *)
Definition isspace (c : ascii) : bool :=
  let n := nat_of_ascii c in
  (((9 <=? n) && (n <=? 13)) || ((28 <=? n) && (n <=? 32))
   || (n =? 133) || (n =? 160))%nat.

Definition lower_char (c : ascii) : ascii :=
  let n := nat_of_ascii c in
  if (((65 <=? n) && (n <=? 90))
      || ((192 <=? n) && (n <=? 222) && negb (n =? 215)))%nat
  then ascii_of_nat (n + 32) else c.

(** [s.lower()] *)
Fixpoint lower (s : string) : string :=
  match s with
  | EmptyString => EmptyString
  | String c s' => String (lower_char c) (lower s')
  end.

(** [s.lstrip()] *)
Fixpoint lstrip (s : string) : string :=
  match s with
  | EmptyString => EmptyString
  | String c s' => if isspace c then lstrip s' else s
  end.

(** [s.rstrip()] *)
Fixpoint rstrip (s : string) : string :=
  match s with
  | EmptyString => EmptyString
  | String c s' =>
      match rstrip s' with
      | EmptyString => if isspace c then EmptyString else String c EmptyString
      | r => String c r
      end
  end.

(** [s.strip()] *)
Definition strip (s : string) : string := rstrip (lstrip s).

(** [s.startswith(p)] *)
Definition startswith (s p : string) : bool := String.prefix p s.

(** [c in s] for a one-character [c] *)
Fixpoint contains (c : ascii) (s : string) : bool :=
  match s with
  | EmptyString => false
  | String d s' => Ascii.eqb c d || contains c s'
  end.

(** [s.find(c)] for a one-character [c]; [None] stands for [-1]. *)
Fixpoint find (c : ascii) (s : string) : option nat :=
  match s with
  | EmptyString => None
  | String d s' => if Ascii.eqb c d then Some 0 else S <$> find c s'
  end.

(** [s.rfind(c)] for a one-character [c]; [None] stands for [-1]. *)
Fixpoint rfind (c : ascii) (s : string) : option nat :=
  match s with
  | EmptyString => None
  | String d s' =>
      match rfind c s' with
      | Some i => Some (S i)
      | None => if Ascii.eqb c d then Some 0 else None
      end
  end.

(** How Python brings one bound of a slice into [0 .. len]; an
    omitted bound is given by [dflt]. *)
Definition adjust (len : Z) (dflt : Z) (i : option Z) : Z :=
  match i with
  | None => dflt
  | Some i =>
      if (i <? 0)%Z then (if (i + len <? 0)%Z then 0 else i + len)%Z
      else if (len <=? i)%Z then len else i
  end.

(** [s[start:stop]] *)
Definition slice (start stop : option Z) (s : string) : string :=
  let len := Z.of_nat (String.length s) in
  let lo := adjust len 0%Z start in
  let hi := adjust len len stop in
  substring (Z.to_nat lo) (Z.to_nat (hi - lo)) s.

(** [sep.join(l)] *)
Fixpoint join (sep : string) (l : list string) : string :=
  match l with
  | [] => ""
  | [x] => x
  | x :: l' => x ++ sep ++ join sep l'
  end.

(** [s[n:]] for [n >= 0] *)
Fixpoint drop (n : nat) (s : string) : string :=
  match n, s with
  | O, _ => s
  | S n', String _ s' => drop n' s'
  | S _, EmptyString => EmptyString
  end.

(** [s[:n]] for [n >= 0] *)
Definition take (n : nat) (s : string) : string := substring 0 n s.

(** [c.isprintable()] *)
Definition isprintable (c : ascii) : bool :=
  let n := nat_of_ascii c in
  (((32 <=? n) && (n <=? 126)) || ((161 <=? n) && negb (n =? 173)))%nat.

(** The characters that [repr] writes in a special way. *)
Definition squote : ascii := ascii_of_nat 39.
Definition dquote : ascii := ascii_of_nat 34.
Definition backslash : ascii := ascii_of_nat 92.

Definition hexdigit (n : nat) : ascii :=
  nth n (list_ascii_of_string "0123456789abcdef") "0"%char.

(** How [repr] writes one character between quotes [quote]. *)
Definition repr_char (quote c : ascii) : string :=
  let n := nat_of_ascii c in
  if Ascii.eqb c quote || Ascii.eqb c backslash then
    String backslash (String c "")
  else if (n =? 9)%nat then String backslash "t"
  else if (n =? 10)%nat then String backslash "n"
  else if (n =? 13)%nat then String backslash "r"
  else if isprintable c then String c ""
  else String backslash
         (String "x" (String (hexdigit (n / 16)) (String (hexdigit (n mod 16)) ""))).

Fixpoint repr_chars (quote : ascii) (s : string) : string :=
  match s with
  | EmptyString => EmptyString
  | String c s' => repr_char quote c ++ repr_chars quote s'
  end.

(** [repr(s)]: between single quotes, unless [s] holds a single quote
    and no double quote. *)
Definition repr (s : string) : string :=
  let quote :=
    if contains squote s && negb (contains dquote s) then dquote
    else squote in
  String quote (repr_chars quote s ++ String quote "").

End PyStr.

(** ** Exceptions and the monad of code that may raise *)

Inductive exn : Type :=
  | OSError (filename : string)
  | KeyError (key : string)
  | NoSectionError (section : string)
  | NoOptionError (option section : string)
  | DuplicateSectionError (section source : string) (lineno : nat)
  | DuplicateOptionError (section : option string) (option source : string)
      (lineno : nat)
  | ParsingError (source : string) (errors : list (nat * string))
  | MissingSectionHeaderError (filename : string) (lineno : nat)
      (line : string)
  | InterpolationSyntaxError (option section rest : string)
  | InterpolationMissingOptionError (option section rawval reference : string)
  | InterpolationDepthError (option section rawval : string)
  | AttributeError (name : string)
  | UnicodeDecodeError.

Inductive result (A : Type) : Type :=
  | Return (a : A)
  | Raise (e : exn).
Arguments Return {A} a.
Arguments Raise {A} e.

(** [result] is a monad in stdpp's sense, so code that may raise is
    written with [x ← c; k] and [c;; k]. *)
#[global] Instance result_ret : MRet result := fun A a => Return a.
#[global] Instance result_bind : MBind result := fun A B k c =>
  match c with
  | Return a => k a
  | Raise e => Raise e
  end.

(** ** Text files *)

Definition LF : ascii := ascii_of_nat 10.
Definition CR : ascii := ascii_of_nat 13.
Definition nl : string := String LF "".

(** The lines a text file yields when it is iterated over. The file is
    opened with [newline=None]: a carriage return, with or without a
    line feed after it, ends a line like a line feed does, and every
    line but possibly the last ends in one line feed. [cur] is the
    line read so far. *)
Fixpoint readlines_from (cur text : string) : list string :=
  match text with
  | EmptyString => match cur with EmptyString => [] | _ => [cur] end
  | String c rest =>
      if Ascii.eqb c LF then (cur ++ nl) :: readlines_from "" rest
      else if Ascii.eqb c CR then
        match rest with
        | String d rest' =>
            if Ascii.eqb d LF then (cur ++ nl) :: readlines_from "" rest'
            else (cur ++ nl) :: readlines_from "" rest
        | EmptyString => (cur ++ nl) :: readlines_from "" rest
        end
      else readlines_from (cur ++ String c "") rest
  end.

Definition readlines (text : string) : list string := readlines_from "" text.

(** [enumerate(l, start)] *)
Fixpoint enumerate {A : Type} (l : list A) (start : nat) : list (nat * A) :=
  match l with
  | [] => []
  | x :: l' => (start, x) :: enumerate l' (S start)
  end.

(** ** Input and output *)

(** A file, by what reading it in text mode yields: the text of the
    file or, for a file whose bytes are not valid in the encoding of
    the locale, the text decoded before the decoder raises
    [UnicodeDecodeError]. *)
Inductive file : Type :=
  | text_file (content : string)
  | undecodable (before : string).

(** A file object open for reading in text mode: the lines its
    iteration yields and the exception, if any, that ends the
    iteration. *)
Record TextIO : Type := mkTextIO {
  io_lines : list string;
  io_error : option exn;
}.

Definition reader (f : file) : TextIO :=
  match f with
  | text_file content => mkTextIO (readlines content) None
  | undecodable before => mkTextIO (readlines before) (Some UnicodeDecodeError)
  end.

(** The world a process runs in: the files it can open, by path, and
    what it has written to its standard output. *)
Record world : Type := mkWorld {
  files : gmap string file;
  stdout : string;
}.

(** Code that reads files or prints: it may raise, and it passes the
    world on. *)
Definition IO (A : Type) : Type := world -> result A * world.

#[global] Instance IO_ret : MRet IO := fun A a w => (Return a, w).
#[global] Instance IO_bind : MBind IO := fun A B k c w =>
  match c w with
  | (Return a, w') => k a w'
  | (Raise err, w') => (Raise err, w')
  end.

(** Code that touches no file and prints nothing. *)
Definition pure {A : Type} (r : result A) : IO A := fun w => (r, w).

(** [open(filename)], read-only and in text mode. *)
Definition open (filename : string) : IO TextIO := fun w =>
  match files w !! filename with
  | Some f => (Return (reader f), w)
  | None => (Raise (OSError filename), w)
  end.

(** [print(s)] *)
Definition print (s : string) : IO unit := fun w =>
  (Return tt, mkWorld (files w) (stdout w ++ s ++ nl)).

(** ** [configparser] *)

Module configparser.

Local Open Scope list_scope.

Definition DEFAULTSECT : string := "DEFAULT".
Definition MAX_INTERPOLATION_DEPTH : nat := 10.

(** *** Regular expressions

    Each is matched against one stripped line of the file (or, for
    [_KEYCRE], against the rest of a value), from its first
    character on, as [re.match] does. A stripped line holds no line
    feed, so [.] stands for any character in [SECTCRE] and
    [OPTCRE]. *)

(** [SECTCRE] is "\[(?P<header>.+)\]": the greedy [.+] runs to the last
    closing bracket and keeps at least one character. The result is
    the group [header]. *)
Definition SECTCRE_match (value : string) : option string :=
  match value with
  | String "["%char rest =>
      match PyStr.rfind "]"%char rest with
      | Some (S k) => Some (PyStr.take (S k) rest)
      | _ => None
      end
  | _ => None
  end.

(** Index of the first delimiter, [=] or [:]. *)
Fixpoint find_delimiter (s : string) : option nat :=
  match s with
  | EmptyString => None
  | String c s' =>
      if Ascii.eqb c "="%char || Ascii.eqb c ":"%char then Some 0
      else S <$> find_delimiter s'
  end.

(** [OPTCRE], the pattern [_OPT_TMPL] with the delimiters [=] and [:]:
    a lazy group [option], white space, the delimiter, white space and
    the group [value], which runs to the end of the line. The lazy
    group stops before the white space in front of the first
    delimiter. The result is the groups [option] and [value]. *)
Definition OPTCRE_match (value : string) : option (string * string) :=
  match find_delimiter value with
  | Some d =>
      Some (PyStr.rstrip (PyStr.take d value),
            PyStr.lstrip (PyStr.drop (S d) value))
  | None => None
  end.

(** [NONSPACECRE] is "\S", searched: where the first character that is
    not white space stands. *)
Fixpoint NONSPACECRE_search (line : string) : option nat :=
  match line with
  | EmptyString => None
  | String c rest =>
      if PyStr.isspace c then S <$> NONSPACECRE_search rest else Some 0
  end.

(** [_KEYCRE] is "%\(([^)]+)\)s": the result is group 1 and [m.end()]. *)
Definition _KEYCRE_match (rest : string) : option (string * nat) :=
  match rest with
  | String "%"%char (String "("%char r) =>
      match PyStr.find ")"%char r with
      | Some (S k) =>
          match PyStr.drop (S (S k)) r with
          | String "s"%char _ => Some (PyStr.take (S k) r, S k + 4)
          | _ => None
          end
      | _ => None
      end
  | _ => None
  end.


(** *** The parser object

    [_sections] maps a section name to the options of the section,
    [_defaults] holds the options of the [DEFAULT] section. Outside
    of [_read] an option's value is a [str]; while a file is being
    read, the value of an option of that file is the [list] of its
    lines. *)

Inductive str_or_list : Type :=
  | Str (s : string)
  | List (l : list string).

Record RawConfigParser (V : Type) : Type := mkParser {
  _sections : gmap string (gmap string V);
  _defaults : gmap string V;
}.
Arguments mkParser {V} _ _.
Arguments _sections {V} _.
Arguments _defaults {V} _.

(** [ConfigParser()]: all arguments at their defaults, that is
    [delimiters=('=', ':')], [comment_prefixes=('#', ';')],
    [inline_comment_prefixes=None], [strict=True],
    [empty_lines_in_values=True], [allow_no_value=False],
    [default_section=DEFAULTSECT] and [BasicInterpolation]. *)
Definition ConfigParser : RawConfigParser string := mkParser ∅ ∅.

Definition _comment_prefixes : list string := ["#"; ";"].
Definition default_section : string := DEFAULTSECT.

(** [optionxform] *)
Definition optionxform (optionstr : string) : string := PyStr.lower optionstr.

(** [has_section] *)
Definition has_section {V} (self : RawConfigParser V) (section : string)
  : bool :=
  bool_decide (is_Some (_sections self !! section)).

(** *** Reading a file *)

(** What [cursect] refers to: the dictionary [_defaults], or the
    dictionary of a section in [_sections]. *)
Inductive dict_ref : Type :=
  | the_defaults
  | the_section (name : string).

Definition deref {V} (self : RawConfigParser V) (r : dict_ref)
  : gmap string V :=
  match r with
  | the_defaults => _defaults self
  | the_section name => default ∅ (_sections self !! name)
  end.

Definition assign {V} (self : RawConfigParser V) (r : dict_ref)
    (d : gmap string V) : RawConfigParser V :=
  match r with
  | the_defaults => mkParser (_sections self) d
  | the_section name => mkParser (<[name := d]> (_sections self)) (_defaults self)
  end.

(** [cursect[optname] = v] *)
Definition setitem {V} (self : RawConfigParser V) (cursect : dict_ref)
    (optname : string) (v : V) : RawConfigParser V :=
  assign self cursect (<[optname := v]> (deref self cursect)).

(** [cursect[optname].append(line)] *)
Definition append (self : RawConfigParser str_or_list) (cursect : dict_ref)
    (optname line : string) : result (RawConfigParser str_or_list) :=
  match deref self cursect !! optname with
  | None => Raise (KeyError optname)
  | Some (Str _) => Raise (AttributeError "append")
  | Some (List l) => Return (setitem self cursect optname (List (l ++ [line])))
  end.

(** The local variables of [_read]. [elements_added] holds section
    names and pairs [(sectname, optname)]; [e] is [None] or the
    [ParsingError] under construction, kept as its list [errors] of
    pairs of a line number and the [repr] of a line. *)
Record locals : Type := mkLocals {
  elements_added : gset (string + option string * string);
  cursect : option dict_ref;
  sectname : option string;
  optname : option string;
  indent_level : nat;
  e : option (list (nat * string));
}.

(** Truth value of a [str] and of a variable that is [None] or a
    [str]. *)
Definition truthy (s : string) : bool :=
  match s with EmptyString => false | _ => true end.
Definition truthy_opt (o : option string) : bool :=
  match o with Some s => truthy s | None => false end.

(** [_handle_error]: [exc.append(lineno, repr(line))], on a new
    [ParsingError] if there is none yet. *)
Definition _handle_error (exc : option (list (nat * string)))
    (lineno : nat) (line : string) : option (list (nat * string)) :=
  match exc with
  | None => Some [(lineno, PyStr.repr line)]
  | Some errors => Some (errors ++ [(lineno, PyStr.repr line)])
  end.

(** A value together with the equation that names it, for a loop
    whose termination depends on what a call returned. *)
Definition inspect {A : Type} (a : A) : {b : A | a = b} := exist _ a eq_refl.

(** A [for] loop whose body may raise. *)
Fixpoint for_each {S A : Type} (body : S -> A -> result S) (l : list A)
    (s : S) : result S :=
  match l with
  | [] => Return s
  | x :: l' => s' ← body s x; for_each body l' s'
  end.

(** The [else] branch of [_read]'s test for a continuation line: the
    line is a section header, an option header, or an error. *)
Definition _read_header (fpname : string) (lineno : nat) (line value : string)
    (cur_indent_level : nat) (self : RawConfigParser str_or_list) (loc : locals)
  : result (RawConfigParser str_or_list * locals) :=
  let indent_level := cur_indent_level in
  (* is it a section header? *)
  match SECTCRE_match value with
  | Some header =>
      let sectname := header in
      if has_section self sectname then
        if bool_decide (inl sectname ∈ elements_added loc)
        then Raise (DuplicateSectionError sectname fpname lineno)
        else
          Return (self,
                  mkLocals ({[inl sectname]} ∪ elements_added loc)
                    (Some (the_section sectname)) (Some sectname) None
                    indent_level (e loc))
      else if String.eqb sectname default_section then
        Return (self,
                mkLocals (elements_added loc) (Some the_defaults)
                  (Some sectname) None indent_level (e loc))
      else
        Return (mkParser (<[sectname := ∅]> (_sections self)) (_defaults self),
                mkLocals ({[inl sectname]} ∪ elements_added loc)
                  (Some (the_section sectname)) (Some sectname) None
                  indent_level (e loc))
  | None =>
      match cursect loc with
      (* no section header in the file? *)
      | None => Raise (MissingSectionHeaderError fpname lineno line)
      (* an option line? *)
      | Some cur =>
          match OPTCRE_match value with
          | Some (optname, optval) =>
              let e :=
                if negb (truthy optname)
                then _handle_error (e loc) lineno line else e loc in
              let optname := optionxform (PyStr.rstrip optname) in
              if bool_decide (inr (sectname loc, optname) ∈ elements_added loc)
              then Raise (DuplicateOptionError (sectname loc) optname fpname
                            lineno)
              else
                let optval := PyStr.strip optval in
                Return (setitem self cur optname (List [optval]),
                        mkLocals
                          ({[inr (sectname loc, optname)]} ∪ elements_added loc)
                          (cursect loc) (sectname loc) (Some optname)
                          indent_level e)
          | None =>
              (* a non-fatal parsing error: it is raised at the end of
                 the file *)
              Return (self,
                      mkLocals (elements_added loc) (cursect loc)
                        (sectname loc) (optname loc) indent_level
                        (_handle_error (e loc) lineno line))
          end
      end
  end.

(** One turn of [for lineno, line in enumerate(fp, start=1)] in
    [_read]; [continue] is [Return]. There are no inline comment
    prefixes, so [comment_start] is [0] on a full-line comment and
    [None] elsewhere. *)
Definition _read_line (fpname : string) (st : RawConfigParser str_or_list * locals)
    (item : nat * string) : result (RawConfigParser str_or_list * locals) :=
  let '(self, loc) := st in
  let '(lineno, line) := item in
  let comment_start : option Z :=
    if existsb (PyStr.startswith (PyStr.strip line)) _comment_prefixes
    then Some 0%Z else None in
  let value := PyStr.strip (PyStr.slice None comment_start line) in
  if negb (truthy value) then
    (* an empty line is added to the value read, unless the line
       held a comment *)
    match comment_start, cursect loc with
    | None, Some cur =>
        if truthy_opt (optname loc) then
          self ← append self cur (default "" (optname loc)) "";
          Return (self, loc)
        else Return (self, loc)
    | _, _ => Return (self, loc)
    end
  else
    (* continuation line? *)
    let cur_indent_level := default 0 (NONSPACECRE_search line) in
    match cursect loc with
    | Some cur =>
        if truthy_opt (optname loc) && (indent_level loc <? cur_indent_level)%nat
        then
          self ← append self cur (default "" (optname loc)) value;
          Return (self, loc)
        else _read_header fpname lineno line value cur_indent_level self loc
    | None => _read_header fpname lineno line value cur_indent_level self loc
    end.

(** [_join_multiline_values]; [before_read] changes nothing. *)
Definition _join_multiline_values (self : RawConfigParser str_or_list)
  : RawConfigParser string :=
  let joined (val : str_or_list) : string :=
    match val with
    | List l => PyStr.rstrip (PyStr.join nl l)
    | Str s => s
    end in
  mkParser ((fun options : gmap string str_or_list => joined <$> options)
              <$> _sections self)
    (joined <$> _defaults self).

(** [_read]. The loop runs over the lines that [fp] yields; if the
    iteration ends on an exception of the decoder, [_read] ends on
    it. *)
Definition _read (self : RawConfigParser string) (fp : TextIO)
    (fpname : string) : result (RawConfigParser string) :=
  let self : RawConfigParser str_or_list :=
    mkParser ((fun options : gmap string string => Str <$> options)
                <$> _sections self)
      (Str <$> _defaults self) in
  st ← for_each (_read_line fpname) (enumerate (io_lines fp) 1)
         (self, mkLocals ∅ None None None 0 None);
  match io_error fp with
  | Some err => Raise err
  | None =>
      let self := _join_multiline_values st.1 in
      (* if any parsing errors occurred, raise an exception *)
      match e st.2 with
      | Some errors => Raise (ParsingError fpname errors)
      | None => Return self
      end
  end.

(** *** Looking a value up *)

(** [_unify_values] with [vars=None]. The [_ChainMap] looks an option
    up in the section first and in the defaults next, as the union
    does. *)
Definition _unify_values (self : RawConfigParser string) (section : string)
  : result (gmap string string) :=
  match _sections self !! section with
  | Some sectiondict => Return (sectiondict ∪ _defaults self)
  | None =>
      if negb (String.eqb section default_section)
      then Raise (NoSectionError section)
      else Return (∅ ∪ _defaults self)
  end.

(** The class [Interpolation], by its method [before_get], whose
    arguments are [parser], [section], [option], [value] and
    [defaults]. *)
Record Interpolation : Type := mkInterpolation {
  before_get :
    RawConfigParser string -> string -> string -> string ->
    gmap string string -> result string;
}.

(** The base class: the value is returned as it is. *)
Definition Interpolation_base : Interpolation :=
  mkInterpolation (fun parser section opt value defaults => Return value).

(** [get(section, option, raw=..., vars=None, fallback=...)]; a
    [fallback] of [None] stands for [_UNSET]. *)
Definition get (_interpolation : Interpolation)
    (self : RawConfigParser string) (section opt : string) (raw : bool)
    (fallback : option string) : result string :=
  match _unify_values self section with
  | Raise (NoSectionError s) =>
      match fallback with
      | None => Raise (NoSectionError s)
      | Some f => Return f
      end
  | Raise err => Raise err
  | Return d =>
      let opt := optionxform opt in
      match d !! opt with
      | None =>
          match fallback with
          | None => Raise (NoOptionError opt section)
          | Some f => Return f
          end
      | Some value =>
          if raw then Return value
          else before_get _interpolation self section opt value d
      end
  end.

(** [has_option] *)
Definition has_option (self : RawConfigParser string) (section opt : string)
  : bool :=
  if negb (truthy section) || String.eqb section default_section then
    let opt := optionxform opt in
    bool_decide (is_Some (_defaults self !! opt))
  else if negb (bool_decide (is_Some (_sections self !! section))) then
    false
  else
    let opt := optionxform opt in
    bool_decide (is_Some (default ∅ (_sections self !! section) !! opt))
    || bool_decide (is_Some (_defaults self !! opt)).

(** *** [BasicInterpolation] *)

(** How one turn of [while rest:] in [_interpolate_some] ends: the loop
    goes on with a shorter [rest], or the function returns. *)
Inductive turn : Type :=
  | next_turn (accum : list string) (rest : string)
  | returned (accum : list string).

Section interpolate_some.

Context (opt section rawval : string) (map : gmap string string).

(** [_interpolate_some] at [depth + 1], which the loop calls on a
    value that holds a percent sign. *)
Context (deeper : list string -> string -> result (list string)).

(** The body of the loop; [accum] is the list the pieces are appended
    to. *)
Definition while_body (accum : list string) (rest : string) : result turn :=
  match PyStr.find "%"%char rest with
  | None => Return (returned (accum ++ [rest]))
  | Some p =>
      let accum := if (0 <? p)%nat then accum ++ [PyStr.take p rest] else accum in
      let rest := if (0 <? p)%nat then PyStr.drop p rest else rest in
      let c := PyStr.slice (Some 1%Z) (Some 2%Z) rest in
      if String.eqb c "%" then
        Return (next_turn (accum ++ ["%"]) (PyStr.drop 2 rest))
      else if String.eqb c "(" then
        match _KEYCRE_match rest with
        | None => Raise (InterpolationSyntaxError opt section rest)
        | Some (group1, m_end) =>
            let var := optionxform group1 in
            let rest := PyStr.drop m_end rest in
            match map !! var with
            | None =>
                Raise (InterpolationMissingOptionError opt section rawval var)
            | Some v =>
                if PyStr.contains "%"%char v then
                  accum ← deeper accum v; Return (next_turn accum rest)
                else Return (next_turn (accum ++ [v]) rest)
            end
        end
      else Raise (InterpolationSyntaxError opt section rest)
  end.

(** A turn that goes on leaves a shorter [rest]: the loop ends. *)
Lemma length_drop (n : nat) (s : string) :
  String.length (PyStr.drop n s) = String.length s - n.
Proof. revert s; induction n as [|n IH]; intros [|c s]; simpl; auto. Qed.

Lemma find_drop (c : ascii) (s : string) (p : nat) :
  PyStr.find c s = Some p -> exists s', PyStr.drop p s = String c s'.
Proof.
  revert p; induction s as [|d s IH]; intros p; simpl; [discriminate|].
  destruct (Ascii.eqb_spec c d) as [->|Hne].
  - intros [= <-]. eauto.
  - destruct (PyStr.find c s) as [q|]; simpl; [|discriminate].
    intros [= <-]. simpl. eauto.
Qed.

Lemma while_body_shorter (accum accum' : list string) (rest rest' : string) :
  while_body accum rest = Return (next_turn accum' rest') ->
  String.length rest' < String.length rest.
Proof.
  unfold while_body.
  destruct (PyStr.find "%"%char rest) as [p|] eqn:Hfind; [|discriminate].
  destruct (find_drop _ _ _ Hfind) as [tl Htl].
  assert (Hlen : String.length (PyStr.drop p rest) <= String.length rest)
    by (rewrite length_drop; lia).
  assert (Hrest1 : exists tl1,
             (if (0 <? p)%nat then PyStr.drop p rest else rest) = String "%"%char tl1
             /\ String.length tl1 < String.length rest).
  { destruct p as [|p]; simpl (0 <? _)%nat; cbv iota.
    - simpl in Htl. exists tl. rewrite Htl. simpl. split; [done|lia].
    - exists tl. split; [done|]. rewrite Htl in Hlen. simpl in Hlen. lia. }
  destruct Hrest1 as (tl1 & -> & Hlt).
  cbv zeta.
  assert (Hdrop : forall n, String.length (PyStr.drop n tl1) <= String.length tl1)
    by (intros n; rewrite length_drop; lia).
  destruct (String.eqb _ "%").
  - intros [= _ <-]. specialize (Hdrop 1). simpl in Hdrop |- *. lia.
  - destruct (String.eqb _ "("); [|discriminate].
    destruct (_KEYCRE_match _) as [[group1 m_end]|] eqn:Hm; [|discriminate].
    assert (exists n, m_end = S n) as [n ->].
    { unfold _KEYCRE_match in Hm.
      destruct tl1 as [|a tl2]; [discriminate|].
      destruct a as [[] [] [] [] [] [] [] []]; try discriminate.
      destruct (PyStr.find _ tl2) as [[|k]|]; try discriminate.
      destruct (PyStr.drop _ tl2) as [|b tl3]; [discriminate|].
      destruct b as [[] [] [] [] [] [] [] []]; try discriminate.
      injection Hm as _ <-. eauto. }
    specialize (Hdrop n).
    destruct (map !! _) as [v|]; [|discriminate].
    destruct (PyStr.contains _ v).
    + destruct (deeper _ v); simpl; [|discriminate].
      intros [= _ <-]. simpl. lia.
    + intros [= _ <-]. simpl. lia.
Qed.

(** [while rest:] *)
Equations while_rest (accum : list string) (rest : string)
  : result (list string) by wf (String.length rest) lt :=
while_rest accum rest with truthy rest := {
  | false => Return accum
  | true with inspect (while_body accum rest) := {
      | exist _ (Raise err) _ => Raise err
      | exist _ (Return (returned accum')) _ => Return accum'
      | exist _ (Return (next_turn accum' rest')) Hturn => while_rest accum' rest'
    }
}.
Next Obligation. eapply while_body_shorter; eassumption. Qed.

End interpolate_some.

(** [_interpolate_some]. The depth is counted down: [left] is
    [MAX_INTERPOLATION_DEPTH + 1 - depth], so that
    [depth > MAX_INTERPOLATION_DEPTH] reads [left = 0]. *)
Fixpoint _interpolate_some (left : nat) (parser : RawConfigParser string)
    (opt : string) (accum : list string) (rest section : string)
    (map : gmap string string) : result (list string) :=
  rawval ← get Interpolation_base parser section opt true (Some rest);
  match left with
  | O => Raise (InterpolationDepthError opt section rawval)
  | S left' =>
      while_rest opt section rawval map
        (fun accum v => _interpolate_some left' parser opt accum v section map)
        accum rest
  end.

Definition BasicInterpolation : Interpolation :=
  mkInterpolation (fun parser section opt value defaults =>
    L ← _interpolate_some MAX_INTERPOLATION_DEPTH parser opt [] value section
          defaults;
    Return (PyStr.join "" L)).

(** *** Mapping access *)

(** A section proxy: the parser and the name of the section. *)
Record SectionProxy : Type := mkProxy {
  _parser : RawConfigParser string;
  _name : string;
}.

(** [RawConfigParser.__getitem__]: [self._proxies[key]] is the proxy
    of [key] in [self]. *)
Definition __getitem__ (self : RawConfigParser string) (key : string)
  : result SectionProxy :=
  if negb (String.eqb key default_section) && negb (has_section self key)
  then Raise (KeyError key)
  else Return (mkProxy self key).

(** [SectionProxy.__getitem__], on a proxy of a [ConfigParser()]. *)
Definition SectionProxy__getitem__ (self : SectionProxy) (key : string)
  : result string :=
  if negb (has_option (_parser self) (_name self) key)
  then Raise (KeyError key)
  else get BasicInterpolation (_parser self) (_name self) key false None.

(** *** [read]

    [read(filenames)] for a [filenames] that is one [str]: the loop
    over [[filenames]] has one turn. Only [open] can raise the
    [OSError] that [except OSError: continue] catches, see
    [_read_raises]. The result is the parser after the call and the
    list [read_ok]. *)
Definition read (self : RawConfigParser string) (filenames : string)
  : IO (RawConfigParser string * list string) := fun w =>
  let filename := filenames in
  match open filename w with
  | (Raise (OSError _), w) => (Return (self, []), w)
  | (Raise err, w) => (Raise err, w)
  | (Return fp, w) =>
      match _read self fp filename with
      | Raise err => (Raise err, w)
      | Return self => (Return (self, [filename]), w)
      end
  end.

End configparser.

(** ** [get_version.py] *)

Definition CONFIG_FILE : string := "Cargo.toml".

(** [get_version(config_file)]; a call without argument passes
    [CONFIG_FILE]. *)
Definition get_version (config_file : string) : IO string :=
  let config := configparser.ConfigParser in
  r ← configparser.read config CONFIG_FILE;
  let config := r.1 in
  pure (package ← configparser.__getitem__ config "package";
        configparser.SectionProxy__getitem__ package "version").

(** The body of [if __name__ == "__main__":], with [sys.argv] as
    [argv]. *)
Definition main (argv : list string) : IO unit :=
  let version := "" in
  version ←
    (if (1 <? length argv)%nat then
       let config_file_path := nth 1 argv "" in
       get_version config_file_path
     else get_version CONFIG_FILE);
  (* Remove quotes before printing. *)
  let version := PyStr.slice (Some 1%Z) (Some (-1)%Z) version in
  print version.

(** What a run of the script leaves behind: what it wrote to its
    standard output, its exit status, and the exception it died of, if
    any (its traceback goes to the standard error). *)
Record completed : Type := mkCompleted {
  output : string;
  returncode : Z;
  uncaught : option exn;
}.

(** [python3 get_version.py ...] in a directory whose files are [fs]:
    an exception nobody caught ends the process with status 1. *)
Definition run (argv : list string) (fs : gmap string file) : completed :=
  match main argv (mkWorld fs "") with
  | (Return _, w) => mkCompleted (stdout w) 0 None
  | (Raise err, w) => mkCompleted (stdout w) 1 (Some err)
  end.

(** ** Manifests to run the script on *)

(** The double quote, and a text between double quotes. *)
Definition dq : string := String (ascii_of_nat 34) "".
Definition quoted (s : string) : string := dq ++ s ++ dq.

(** The text whose lines are [l], each ended by a line feed. *)
Definition unlines (l : list string) : string :=
  fold_right (fun line text => line ++ nl ++ text) "" l.

(** A manifest with a [[package]] section that holds a name and a
    version, the raw value of the version being [raw]. *)
Definition manifest (raw : string) : string :=
  "[package]" ++ nl ++ "name = " ++ quoted "cifra" ++ nl
  ++ "version = " ++ raw ++ nl.

(** The configuration that the manifest with the raw version [raw]
    parses to. *)
Definition parsed_manifest (raw : string)
  : configparser.RawConfigParser string :=
  configparser.mkParser
    {[ "package" := {[ "name" := quoted "cifra"; "version" := raw ]} ]} ∅.

(** The version the configuration [config] gives:
    [config["package"]["version"]]. *)
Definition package_version (config : configparser.RawConfigParser string)
  : result string :=
  package ← configparser.__getitem__ config "package";
  configparser.SectionProxy__getitem__ package "version".

(** What [config.read(CONFIG_FILE)] makes of the text of the file, on
    the fresh parser of [get_version]. *)
Definition parse (text : string)
  : result (configparser.RawConfigParser string) :=
  configparser._read configparser.ConfigParser (reader (text_file text))
    CONFIG_FILE.

(** The exceptions with which [_read] reports a file that it cannot
    parse: [ParsingError], its subclass [MissingSectionHeaderError],
    [DuplicateSectionError] and [DuplicateOptionError]. *)
Definition parse_error (err : exn) : bool :=
  match err with
  | ParsingError _ _ | MissingSectionHeaderError _ _ _
  | DuplicateSectionError _ _ _ | DuplicateOptionError _ _ _ _ => true
  | _ => false
  end.

(** ** The invariant of [_read]

    While a file is read, the option that a continuation line would
    extend is an option of the current section, and its value is a
    list: [append] finds it. *)

Definition reader_ok
    (st : configparser.RawConfigParser configparser.str_or_list
          * configparser.locals) : Prop :=
  forall o : string,
    configparser.optname st.2 = Some o ->
    configparser.truthy o = true ->
    exists cur l,
      configparser.cursect st.2 = Some cur
      /\ configparser.deref st.1 cur !! o = Some (configparser.List l).


(** ** Which exceptions are which *)

(** The exceptions of [BasicInterpolation]. *)
Definition interpolation_error (err : exn) : bool :=
  match err with
  | InterpolationSyntaxError _ _ _ | InterpolationMissingOptionError _ _ _ _
  | InterpolationDepthError _ _ _ => true
  | _ => false
  end.

(** The exceptions a run of the script can end with: the [KeyError] of
    the section or of the option, an exception of the parser, the
    exception of the decoder, or an exception of the interpolation of
    the value. *)
Definition script_error (err : exn) : bool :=
  match err with
  | KeyError key => String.eqb key "package" || String.eqb key "version"
  | UnicodeDecodeError => true
  | _ => parse_error err || interpolation_error err
  end.

(** ** Manifests, line by line *)

(** [p] holds of every character of [s]. *)
Fixpoint all_chars (p : ascii -> bool) (s : string) : bool :=
  match s with
  | EmptyString => true
  | String c s' => p c && all_chars p s'
  end.

(** A text that fits on one line: it holds neither a line feed nor a
    carriage return. *)
Definition one_line (s : string) : bool :=
  negb (PyStr.contains LF s) && negb (PyStr.contains CR s).

(** The text whose lines are [l], each ended by [eol]. *)
Definition lines_with (eol : string) (l : list string) : string :=
  fold_right (fun line text => line ++ eol ++ text) "" l.

(** One line of the body of a section: an option with its value,
    written [key = value], or a line that the parser passes over. *)
Inductive entry : Type :=
  | assign (key value : string)
  | ignored (line : string).

Definition entry_line (en : entry) : string :=
  match en with
  | assign key value => key ++ " = " ++ value
  | ignored line => line
  end.

(** The lines of a section: its header and its body. *)
Definition section_lines (s : string * list entry) : list string :=
  ("[" ++ s.1 ++ "]") :: map entry_line s.2.

(** The lines of a manifest: what stands before the first section, and
    the sections. *)
Definition manifest_lines (preamble : list string)
    (sections : list (string * list entry)) : list string :=
  (preamble ++ flat_map section_lines sections)%list.

(** The text of a manifest. *)
Definition render (preamble : list string)
    (sections : list (string * list entry)) : string :=
  unlines (manifest_lines preamble sections).

(** A full-line comment, as [_read] tells it. *)
Definition is_comment (line : string) : bool :=
  existsb (PyStr.startswith (PyStr.strip line)) configparser._comment_prefixes.

(** A line that the parser passes over: it is empty but for white
    space, or a comment. *)
Definition ignorable (line : string) : bool :=
  one_line line
  && (negb (configparser.truthy (PyStr.strip line)) || is_comment line).

(** The keys of the manifests described here: not empty, without white
    space and delimiter, and not opening like a header or a comment. *)
Definition key_char (c : ascii) : bool :=
  negb (PyStr.isspace c) && negb (Ascii.eqb c "=") && negb (Ascii.eqb c ":").

Definition key_ok (key : string) : bool :=
  match key with
  | EmptyString => false
  | String c _ =>
      all_chars key_char key
      && negb (Ascii.eqb c "[") && negb (Ascii.eqb c "#")
      && negb (Ascii.eqb c ";")
  end.

(** The names of their sections: not empty, on one line, and not the
    name of the default section. *)
Definition name_ok (name : string) : bool :=
  configparser.truthy name && one_line name
  && negb (String.eqb name configparser.DEFAULTSECT).

Definition entry_ok (en : entry) : bool :=
  match en with
  | assign key value => key_ok key && one_line value
  | ignored line => ignorable line
  end.

(** No text occurs twice in [l]. *)
Fixpoint distinct (l : list string) : bool :=
  match l with
  | [] => true
  | x :: l' => negb (existsb (String.eqb x) l') && distinct l'
  end.

(** The options that the body of a section sets, as the parser keeps
    them: the key in lower case, the value stripped. *)
Definition assignments (es : list entry) : list (string * string) :=
  flat_map (fun en =>
              match en with
              | assign key value =>
                  [(configparser.optionxform key, PyStr.strip value)]
              | ignored _ => []
              end) es.

Definition section_ok (s : string * list entry) : bool :=
  name_ok s.1 && forallb entry_ok s.2 && distinct (assignments s.2).*1.

(** A manifest that the parser reads without complaint: no section
    and, within a section, no option is set twice. *)
Definition manifest_ok (preamble : list string)
    (sections : list (string * list entry)) : bool :=
  forallb ignorable preamble && forallb section_ok sections
  && distinct sections.*1.

(** What the manifest means. *)
Definition options_of (es : list entry) : gmap string string :=
  list_to_map (assignments es).

Definition config_of (sections : list (string * list entry))
  : configparser.RawConfigParser string :=
  configparser.mkParser
    (list_to_map (map (fun s => (s.1, options_of s.2)) sections)) ∅.

(** The state of [_read] after the sections [sections], the last of
    which is being read. *)
Definition added (sections : list (string * list entry))
  : gset (string + option string * string) :=
  list_to_set
    (flat_map (fun s => inl s.1
                        :: map (fun kv => inr (Some s.1, kv.1))
                             (assignments s.2))
       sections).

Definition reads_as (sections : list (string * list entry))
    (st : configparser.RawConfigParser configparser.str_or_list
          * configparser.locals) : Prop :=
  configparser._join_multiline_values st.1 = config_of sections
  /\ reader_ok st
  /\ configparser.elements_added st.2 = added sections
  /\ configparser.cursect st.2
     = (fun s => configparser.the_section s.1) <$> last sections
  /\ configparser.sectname st.2 = fst <$> last sections
  /\ configparser.e st.2 = None.

(** What [_join_multiline_values] makes of the value of an option. *)
Definition joined (val : configparser.str_or_list) : string :=
  match val with
  | configparser.List l => PyStr.rstrip (PyStr.join nl l)
  | configparser.Str s => s
  end.

(** The lines as [_read] gets them from the file, numbered from
    [start]. *)
Definition numbered (start : nat) (lines : list string)
  : list (nat * string) :=
  enumerate (map (fun line => line ++ nl) lines) start.

(** The state in which [_read] starts on the parser of [get_version]. *)
Definition fresh_reader
  : configparser.RawConfigParser configparser.str_or_list
    * configparser.locals :=
  (configparser.mkParser ∅ ∅, configparser.mkLocals ∅ None None None 0 None).

(** ** Two runs of [_read] side by side *)

(** Two states of [_read] that differ at most in the errors recorded so
    far, of which there are some in both or none in both. *)
Definition same_but_errors
    (st1 st2 : configparser.RawConfigParser configparser.str_or_list
               * configparser.locals) : Prop :=
  st1.1 = st2.1
  /\ configparser.elements_added st1.2 = configparser.elements_added st2.2
  /\ configparser.cursect st1.2 = configparser.cursect st2.2
  /\ configparser.sectname st1.2 = configparser.sectname st2.2
  /\ configparser.optname st1.2 = configparser.optname st2.2
  /\ configparser.indent_level st1.2 = configparser.indent_level st2.2
  /\ (configparser.e st1.2 = None <-> configparser.e st2.2 = None).

(** Two results that are both an exception, or both a value, the
    values being related by [R]. *)
Definition agree {A : Type} (R : A -> A -> Prop) (r1 r2 : result A) : Prop :=
  match r1, r2 with
  | Return a1, Return a2 => R a1 a2
  | Raise _, Raise _ => True
  | _, _ => False
  end.

(** Two lines in which [_read] sees the same: the same text once
    stripped, at the same indentation. *)
Definition same_line (line1 line2 : string) : Prop :=
  PyStr.strip line1 = PyStr.strip line2
  /\ (configparser.truthy (PyStr.strip line1) = true ->
      configparser.NONSPACECRE_search line1
      = configparser.NONSPACECRE_search line2).

(** What [_read] does once the lines are read. *)
Definition end_of_read (fpname : string)
    (st : configparser.RawConfigParser configparser.str_or_list
          * configparser.locals)
  : result (configparser.RawConfigParser string) :=
  match configparser.e st.2 with
  | Some errors => Raise (ParsingError fpname errors)
  | None => Return (configparser._join_multiline_values st.1)
  end.

(** ** Values with percent signs *)

(** The text [s] with every percent sign doubled. *)
Fixpoint escape (s : string) : string :=
  match s with
  | EmptyString => EmptyString
  | String c s' =>
      if Ascii.eqb c "%" then String "%" (String "%" (escape s'))
      else String c (escape s')
  end.

(** ** Manifests that the parser cannot read *)

(** A line that is neither a header, nor an option, nor the rest of a
    value: it starts at the margin, with a character that opens
    neither a header nor a comment, and holds no delimiter. *)
Definition unreadable (line : string) : bool :=
  match line with
  | EmptyString => false
  | String c _ =>
      negb (PyStr.isspace c) && negb (Ascii.eqb c "#")
      && negb (Ascii.eqb c ";") && negb (Ascii.eqb c "[")
      && negb (bool_decide (is_Some (configparser.find_delimiter line)))
  end.

(** The first line that is neither empty nor a comment is not the
    header of a section. *)
Fixpoint headless (lines : list string) : bool :=
  match lines with
  | [] => false
  | line :: lines' =>
      if ignorable line then headless lines'
      else negb (bool_decide
                   (is_Some (configparser.SECTCRE_match (PyStr.strip line))))
  end.

(** A manifest with a line of one of these two kinds. *)
Definition malformed (lines : list string) : bool :=
  existsb unreadable lines || headless lines.

(** * Checks of the model on small inputs *)

Example bind_ex : (x ← Return 1; Return (x + 1)) = Return 2.
Proof. reflexivity. Qed.

Example readlines_ex :
  readlines ("a" ++ String CR nl ++ "b" ++ String CR "c" ++ nl ++ "d")
  = ["a" ++ nl; "b" ++ nl; "c" ++ nl; "d"].
Proof. reflexivity. Qed.

Example SECTCRE_ex1 : configparser.SECTCRE_match "[package]" = Some "package".
Proof. reflexivity. Qed.

Example SECTCRE_ex3 : configparser.SECTCRE_match "[]" = None.
Proof. reflexivity. Qed.

Example KEYCRE_ex1 :
  configparser._KEYCRE_match "%(home)s/x" = Some ("home", 8).
Proof. reflexivity. Qed.

Example SECTCRE_ex2 : configparser.SECTCRE_match "[[bin]] # x" = Some "[bin]".
Proof. reflexivity. Qed.

Example OPTCRE_ex1 :
  configparser.OPTCRE_match "name  =  a = b" = Some ("name", "a = b").
Proof. reflexivity. Qed.

Example strip_ex : PyStr.strip "  a b  " = "a b".
Proof. reflexivity. Qed.

Example slice_ex : PyStr.slice (Some 1%Z) (Some (-1)%Z) "abcd" = "bc".
Proof. reflexivity. Qed.

Example run_ex1 :
  run ["get_version.py"]
    {[ "Cargo.toml" := text_file (manifest (quoted "1.0.0")) ]}
  = mkCompleted ("1.0.0" ++ nl) 0 None.
Proof. vm_compute. reflexivity. Qed.

Example run_ex2 :
  run ["get_version.py"] ∅ = mkCompleted "" 1 (Some (KeyError "package")).
Proof. vm_compute. reflexivity. Qed.

(** ** The script on some manifests *)

(** A value goes on over the lines that are indented deeper than its
    first line. *)
Example run_continuation :
  run ["get_version.py"]
    {[ CONFIG_FILE :=
         text_file (unlines ["[package]"; "authors = ["; "  " ++ quoted "Dante" ++ ",";
                  "  ]"; "version = " ++ quoted "1.2.3"]) ]}
  = mkCompleted ("1.2.3" ++ nl) 0 None.
Proof. vm_compute. reflexivity. Qed.

(** A closing bracket at the margin is neither a header nor an option. *)
Example run_bracket_at_margin :
  run ["get_version.py"]
    {[ CONFIG_FILE :=
         text_file (unlines ["[package]"; "authors = ["; "  " ++ quoted "Dante" ++ ",";
                  "]"; "version = " ++ quoted "1.2.3"]) ]}
  = mkCompleted "" 1 (Some (ParsingError CONFIG_FILE [(4, "']\n'")])).
Proof. vm_compute. reflexivity. Qed.

(** Comment lines are skipped, the delimiter may be a colon, and the
    name of an option is put in lower case. *)
Example run_comments_and_case :
  run ["get_version.py"]
    {[ CONFIG_FILE :=
         text_file (unlines ["# manifest"; "[package]"; "; the version";
                  "VERSION : " ++ quoted "2.0"]) ]}
  = mkCompleted ("2.0" ++ nl) 0 None.
Proof. vm_compute. reflexivity. Qed.

(** Lines may end in a carriage return and a line feed. *)
Example run_crlf :
  run ["get_version.py"]
    {[ CONFIG_FILE :=
         text_file ("[package]" ++ String CR nl ++ "version = " ++ quoted "1.2.3"
         ++ String CR nl) ]}
  = mkCompleted ("1.2.3" ++ nl) 0 None.
Proof. vm_compute. reflexivity. Qed.

(** A reference to another option of the section is replaced by the
    value of that option. *)
Example run_reference :
  run ["get_version.py"]
    {[ CONFIG_FILE :=
         text_file (unlines ["[package]"; "name = cifra";
                  "version = " ++ quoted "%(name)s-1"]) ]}
  = mkCompleted ("cifra-1" ++ nl) 0 None.
Proof. vm_compute. reflexivity. Qed.

(** A percent sign that opens neither a reference nor a doubled
    percent sign is an error. *)
Example run_lone_percent :
  run ["get_version.py"]
    {[ CONFIG_FILE :=
         text_file (unlines ["[package]"; "version = " ++ quoted "50%"]) ]}
  = mkCompleted "" 1
      (Some (InterpolationSyntaxError "version" "package" ("%" ++ dq))).
Proof. vm_compute. reflexivity. Qed.

(** A value that refers to itself is given up after ten steps. *)
Example run_self_reference :
  run ["get_version.py"]
    {[ CONFIG_FILE :=
         text_file (unlines ["[package]"; "version = %(version)s"]) ]}
  = mkCompleted "" 1
      (Some (InterpolationDepthError "version" "package" "%(version)s")).
Proof. vm_compute. reflexivity. Qed.

Example run_missing_reference :
  run ["get_version.py"]
    {[ CONFIG_FILE :=
         text_file (unlines ["[package]"; "version = " ++ quoted "%(nowhere)s"]) ]}
  = mkCompleted "" 1
      (Some (InterpolationMissingOptionError "version" "package"
               (quoted "%(nowhere)s") "nowhere")).
Proof. vm_compute. reflexivity. Qed.

Example run_duplicate_option :
  run ["get_version.py"]
    {[ CONFIG_FILE :=
         text_file (unlines ["[package]"; "version = " ++ quoted "1";
                  "Version = " ++ quoted "2"]) ]}
  = mkCompleted "" 1
      (Some (DuplicateOptionError (Some "package") "version" CONFIG_FILE 3)).
Proof. vm_compute. reflexivity. Qed.

(** Two tables of one array are two sections of one name. *)
Example run_array_of_tables :
  run ["get_version.py"]
    {[ CONFIG_FILE :=
         text_file (unlines ["[package]"; "version = " ++ quoted "1";
                  "[[bin]]"; "name = " ++ quoted "a";
                  "[[bin]]"; "name = " ++ quoted "b"]) ]}
  = mkCompleted "" 1 (Some (DuplicateSectionError "[bin]" CONFIG_FILE 5)).
Proof. vm_compute. reflexivity. Qed.

Example run_no_header :
  run ["get_version.py"]
    {[ CONFIG_FILE := text_file (unlines ["version = " ++ quoted "1"]) ]}
  = mkCompleted "" 1
      (Some (MissingSectionHeaderError CONFIG_FILE 1
               ("version = " ++ quoted "1" ++ nl))).
Proof. vm_compute. reflexivity. Qed.

(** A file that cannot be decoded: the lines decoded before the bytes
    at fault are read, then the decoder raises. *)
Example run_undecodable :
  run ["get_version.py"]
    {[ CONFIG_FILE :=
         undecodable (unlines ["[package]"; "version = " ++ quoted "1"]) ]}
  = mkCompleted "" 1 (Some UnicodeDecodeError).
Proof. vm_compute. reflexivity. Qed.

Example repr_ex :
  PyStr.repr ("] }" ++ String (ascii_of_nat 9) (String (ascii_of_nat 160) nl))
  = "'] }\t\xa0\n'".
Proof. vm_compute. reflexivity. Qed.

Example parse_manifest :
  parse (manifest (quoted "1.0.0")) = Return (parsed_manifest (quoted "1.0.0")).
Proof. vm_compute. reflexivity. Qed.

(** ** The lines of a file

    A line of a file, once stripped, holds no line feed: this is what
    the regular expressions of [_read] are matched against. *)

Lemma contains_app (c : ascii) (s t : string) :
  PyStr.contains c (s ++ t) = PyStr.contains c s || PyStr.contains c t.
Proof.
  induction s as [|d s IH]; simpl; [reflexivity|].
  rewrite IH. apply orb_assoc.
Qed.

Lemma contains_lstrip (c : ascii) (s : string) :
  PyStr.contains c s = false -> PyStr.contains c (PyStr.lstrip s) = false.
Proof.
  induction s as [|d s IH]; simpl; [reflexivity|].
  intros H. destruct (PyStr.isspace d); [|exact H].
  apply IH. apply orb_false_elim in H. apply H.
Qed.

Lemma contains_rstrip (c : ascii) (s : string) :
  PyStr.contains c s = false -> PyStr.contains c (PyStr.rstrip s) = false.
Proof.
  induction s as [|d s IH]; simpl; [reflexivity|].
  intros H. apply orb_false_elim in H. destruct H as [Hd Hs].
  specialize (IH Hs).
  destruct (PyStr.rstrip s) as [|r rs].
  - destruct (PyStr.isspace d); simpl; [reflexivity|].
    rewrite Hd. reflexivity.
  - simpl in *. rewrite Hd. exact IH.
Qed.

Lemma rstrip_app_nl (s : string) :
  PyStr.rstrip (s ++ nl) = PyStr.rstrip s.
Proof.
  induction s as [|d s IH]; simpl; [reflexivity|].
  rewrite IH. reflexivity.
Qed.

Lemma lstrip_app (s t : string) :
  PyStr.lstrip (s ++ t)
  = match PyStr.lstrip s with
    | EmptyString => PyStr.lstrip t
    | s' => s' ++ t
    end.
Proof.
  induction s as [|d s IH]; simpl; [reflexivity|].
  destruct (PyStr.isspace d); [exact IH|reflexivity].
Qed.

Lemma strip_line_no_LF (body : string) :
  PyStr.contains LF body = false ->
  PyStr.contains LF (PyStr.strip body) = false
  /\ PyStr.contains LF (PyStr.strip (body ++ nl)) = false.
Proof.
  intros Hbody. unfold PyStr.strip. split.
  - apply contains_rstrip, contains_lstrip, Hbody.
  - rewrite lstrip_app.
    pose proof (contains_lstrip LF body Hbody) as Hl.
    destruct (PyStr.lstrip body) as [|d s'] eqn:Heq.
    + reflexivity.
    + rewrite rstrip_app_nl. apply contains_rstrip. exact Hl.
Qed.

Lemma readlines_from_no_LF (text cur line : string) :
  PyStr.contains LF cur = false ->
  In line (readlines_from cur text) ->
  PyStr.contains LF (PyStr.strip line) = false.
Proof.
  revert cur. induction text as [|c rest IH]; intros cur Hcur; simpl.
  - destruct cur; simpl; [tauto|].
    intros [<-|[]]. apply strip_line_no_LF. exact Hcur.
  - destruct (Ascii.eqb c LF) eqn:HLF.
    + intros [<-|Hin]; [apply strip_line_no_LF; exact Hcur|].
      apply (IH ""); [reflexivity|exact Hin].
    + destruct (Ascii.eqb c CR).
      * destruct rest as [|d rest'].
        -- intros [<-|Hin]; [apply strip_line_no_LF; exact Hcur|].
           apply (IH ""); [reflexivity|exact Hin].
        -- destruct (Ascii.eqb d LF) eqn:HdLF.
           ++ intros [<-|Hin]; [apply strip_line_no_LF; exact Hcur|].
              specialize (IH "" eq_refl). simpl in IH. rewrite HdLF in IH.
              apply IH. right. exact Hin.
           ++ intros [<-|Hin]; [apply strip_line_no_LF; exact Hcur|].
              apply (IH ""); [reflexivity|exact Hin].
      * apply IH. rewrite contains_app, Hcur.
        change (PyStr.contains LF (String c "")) with (Ascii.eqb LF c || false).
        rewrite Ascii.eqb_sym, HLF. reflexivity.
Qed.

Lemma readlines_no_LF (text line : string) :
  In line (readlines text) ->
  PyStr.contains LF (PyStr.strip line) = false.
Proof. apply readlines_from_no_LF. reflexivity. Qed.

(** * The extractor *)

Lemma get_version_eq (config_file : string) (w : world) :
  get_version config_file w =
  match files w !! CONFIG_FILE with
  | None => (package_version configparser.ConfigParser, w)
  | Some f =>
      match configparser._read configparser.ConfigParser (reader f)
              CONFIG_FILE with
      | Raise err => (Raise err, w)
      | Return config => (package_version config, w)
      end
  end.
Proof.
  unfold get_version, package_version, mbind, IO_bind,
    configparser.read, open, pure.
  destruct (files w !! CONFIG_FILE) as [f|]; [|reflexivity].
  destruct (configparser._read _ _ _); reflexivity.
Qed.

Lemma get_version_independent (p q : string) (w : world) :
  get_version p w = get_version q w.
Proof. rewrite !get_version_eq. reflexivity. Qed.

Lemma get_version_readonly (p : string) (w : world) :
  (get_version p w).2 = w.
Proof.
  rewrite get_version_eq.
  destruct (files w !! CONFIG_FILE) as [f|]; [|reflexivity].
  destruct (configparser._read _ _ _); reflexivity.
Qed.

Lemma package_version_fresh :
  package_version configparser.ConfigParser = Raise (KeyError "package").
Proof. reflexivity. Qed.

(** The script is [get_version] followed by the slice and the print,
    whatever its arguments. *)
Lemma main_eq (argv : list string) (w : world) :
  main argv w =
  match get_version CONFIG_FILE w with
  | (Return version, w') =>
      print (PyStr.slice (Some 1%Z) (Some (-1)%Z) version) w'
  | (Raise err, w') => (Raise err, w')
  end.
Proof.
  unfold main, mbind, IO_bind.
  destruct (1 <? length argv)%nat;
    [rewrite (get_version_independent _ CONFIG_FILE)|]; reflexivity.
Qed.

Lemma run_returned (argv : list string) (fs : gmap string file)
    (p version : string) (w' : world) :
  get_version p (mkWorld fs "") = (Return version, w') ->
  run argv fs
  = mkCompleted (PyStr.slice (Some 1%Z) (Some (-1)%Z) version ++ nl) 0 None.
Proof.
  intros Hget. unfold run. rewrite main_eq.
  rewrite (get_version_independent _ p), Hget.
  pose proof (get_version_readonly p (mkWorld fs "")) as Hw.
  rewrite Hget in Hw. simpl in Hw. subst w'. reflexivity.
Qed.

Lemma run_raised (argv : list string) (fs : gmap string file)
    (p : string) (err : exn) (w' : world) :
  get_version p (mkWorld fs "") = (Raise err, w') ->
  run argv fs = mkCompleted "" 1 (Some err).
Proof.
  intros Hget. unfold run. rewrite main_eq.
  rewrite (get_version_independent _ p), Hget.
  pose proof (get_version_readonly p (mkWorld fs "")) as Hw.
  rewrite Hget in Hw. simpl in Hw. subst w'. reflexivity.
Qed.

Lemma find_contains (c : ascii) (s : string) :
  PyStr.contains c s = false -> PyStr.find c s = None.
Proof.
  induction s as [|d s IH]; simpl; [reflexivity|].
  destruct (Ascii.eqb c d); simpl; [discriminate|].
  intros H. rewrite (IH H). reflexivity.
Qed.

Lemma get_raw_returns (i : configparser.Interpolation)
    (parser : configparser.RawConfigParser string) (section opt rest : string) :
  exists rawval,
    configparser.get i parser section opt true (Some rest) = Return rawval.
Proof.
  unfold configparser.get, configparser._unify_values.
  destruct (configparser._sections parser !! section) as [d|].
  - destruct ((d ∪ _) !! _); eauto.
  - destruct (negb _); [eauto|].
    destruct ((∅ ∪ _) !! _); eauto.
Qed.

Lemma while_body_no_percent (opt section rawval : string)
    (map : gmap string string)
    (deeper : list string -> string -> result (list string))
    (accum : list string) (rest : string) :
  PyStr.contains "%"%char rest = false ->
  configparser.while_body opt section rawval map deeper accum rest
  = Return (configparser.returned (accum ++ [rest])%list).
Proof.
  intros Hno. unfold configparser.while_body.
  rewrite (find_contains _ _ Hno). reflexivity.
Qed.

Lemma while_rest_no_percent (opt section rawval : string)
    (map : gmap string string)
    (deeper : list string -> string -> result (list string))
    (accum : list string) (rest : string) :
  PyStr.contains "%"%char rest = false ->
  configparser.while_rest opt section rawval map deeper accum rest
  = Return (if configparser.truthy rest then (accum ++ [rest])%list else accum).
Proof.
  intros Hno.
  funelim (configparser.while_rest opt section rawval map deeper accum rest).
  - rewrite Heq. reflexivity.
  - pose proof (while_body_no_percent opt section rawval map deeper accum
                  rest Hno) as Hbody.
    congruence.
  - pose proof (while_body_no_percent opt section rawval map deeper accum
                  rest Hno) as Hbody.
    rewrite Heq. congruence.
  - pose proof (while_body_no_percent opt section rawval map deeper accum
                  rest Hno) as Hbody.
    congruence.
Qed.

(** A value without percent sign is returned as it is. *)
Lemma interpolate_no_percent (parser : configparser.RawConfigParser string)
    (section opt value : string) (d : gmap string string) :
  PyStr.contains "%"%char value = false ->
  configparser.before_get configparser.BasicInterpolation parser section opt
    value d = Return value.
Proof.
  intros Hno.
  unfold configparser.before_get, configparser.BasicInterpolation.
  change (configparser._interpolate_some configparser.MAX_INTERPOLATION_DEPTH
            parser opt [] value section d)
    with (rawval ← configparser.get configparser.Interpolation_base parser
                     section opt true (Some value);
          configparser.while_rest opt section rawval d
            (fun accum v =>
               configparser._interpolate_some 9 parser opt accum v section d)
            [] value).
  destruct (get_raw_returns configparser.Interpolation_base parser section opt value)
    as [rawval ->].
  unfold mbind, result_bind.
  rewrite while_rest_no_percent by assumption.
  destruct value; reflexivity.
Qed.

(** ** What [config["package"]["version"]] gives *)

Lemma package_version_no_section
    (config : configparser.RawConfigParser string) :
  configparser._sections config !! "package" = None ->
  package_version config = Raise (KeyError "package").
Proof.
  intros Hsec. unfold package_version, configparser.__getitem__,
    configparser.has_section.
  rewrite Hsec. reflexivity.
Qed.

Lemma package_version_section
    (config : configparser.RawConfigParser string) (opts : gmap string string) :
  configparser._sections config !! "package" = Some opts ->
  package_version config =
  match (opts ∪ configparser._defaults config) !! "version" with
  | Some value =>
      configparser.before_get configparser.BasicInterpolation config
        "package" "version" value (opts ∪ configparser._defaults config)
  | None => Raise (KeyError "version")
  end.
Proof.
  intros Hsec. unfold package_version, configparser.__getitem__,
    configparser.has_section.
  rewrite Hsec.
  change (negb ("package" =? configparser.default_section)%string
          && negb (bool_decide (is_Some (Some opts)))) with false.
  cbv iota. unfold mbind, result_bind.
  unfold configparser.SectionProxy__getitem__, configparser.has_option.
  cbn [configparser._parser configparser._name].
  change (negb (configparser.truthy "package")
          || ("package" =? configparser.default_section)%string) with false.
  cbv iota. rewrite Hsec.
  change (negb (bool_decide (is_Some (Some opts)))) with false.
  cbv iota. change (configparser.optionxform "version") with "version".
  cbn [default]. unfold id.
  unfold configparser.get, configparser._unify_values. rewrite Hsec.
  change (configparser.optionxform "version") with "version".
  rewrite lookup_union.
  destruct (opts !! "version") as [v|] eqn:Hv.
  - destruct (configparser._defaults config !! "version"); reflexivity.
  - destruct (configparser._defaults config !! "version"); reflexivity.
Qed.

(** ** What [_read] can raise *)

Lemma deref_setitem {V : Type} (self : configparser.RawConfigParser V)
    (cur : configparser.dict_ref) (o : string) (v : V) :
  configparser.deref (configparser.setitem self cur o v) cur !! o = Some v.
Proof.
  destruct cur as [|name]; unfold configparser.setitem; simpl.
  - apply lookup_insert_eq.
  - rewrite lookup_insert_eq. simpl. apply lookup_insert_eq.
Qed.

Lemma append_found (self : configparser.RawConfigParser configparser.str_or_list)
    (cur : configparser.dict_ref) (o line : string) (l : list string) :
  configparser.deref self cur !! o = Some (configparser.List l) ->
  configparser.append self cur o line
  = Return (configparser.setitem self cur o (configparser.List (l ++ [line]))).
Proof. intros H. unfold configparser.append. rewrite H. reflexivity. Qed.

Lemma read_header_raises (fpname : string) (lineno : nat) (line value : string)
    (lvl : nat) self loc (err : exn) :
  configparser._read_header fpname lineno line value lvl self loc = Raise err ->
  parse_error err = true.
Proof.
  unfold configparser._read_header.
  destruct (configparser.SECTCRE_match value) as [header|].
  - destruct (configparser.has_section self header).
    + destruct (bool_decide _); [|discriminate]. intros [= <-]. reflexivity.
    + destruct (String.eqb _ _); discriminate.
  - destruct (configparser.cursect loc) as [cur|].
    + destruct (configparser.OPTCRE_match value) as [[o v]|]; [|discriminate].
      destruct (bool_decide _); [|discriminate]. intros [= <-]. reflexivity.
    + intros [= <-]. reflexivity.
Qed.

Lemma read_header_ok (fpname : string) (lineno : nat) (line value : string)
    (lvl : nat) self loc st' :
  reader_ok (self, loc) ->
  configparser._read_header fpname lineno line value lvl self loc = Return st' ->
  reader_ok st'.
Proof.
  intros Hok. unfold configparser._read_header.
  destruct (configparser.SECTCRE_match value) as [header|].
  - destruct (configparser.has_section self header).
    + destruct (bool_decide _); [discriminate|].
      intros [= <-] o Ho. discriminate.
    + destruct (String.eqb _ _); intros [= <-] o Ho; discriminate.
  - destruct (configparser.cursect loc) as [cur|] eqn:Hcur; [|discriminate].
    destruct (configparser.OPTCRE_match value) as [[o v]|].
    + destruct (bool_decide _); [discriminate|].
      intros [= <-] o' Ho' _. simpl in Ho'. injection Ho' as <-.
      exists cur, [PyStr.strip v]. simpl. split; [reflexivity|].
      apply deref_setitem.
    + intros [= <-] o Ho Ht. simpl in *.
      destruct (Hok o Ho Ht) as (cur' & l & Hc & Hl). simpl in *.
      exists cur', l. split; [congruence|assumption].
Qed.

Lemma append_step self loc (cur : configparser.dict_ref) (line : string) :
  reader_ok (self, loc) ->
  configparser.cursect loc = Some cur ->
  configparser.truthy_opt (configparser.optname loc) = true ->
  exists self',
    configparser.append self cur (default "" (configparser.optname loc)) line
    = Return self'
    /\ reader_ok (self', loc).
Proof.
  intros Hok Hcur Ht.
  destruct (configparser.optname loc) as [o|] eqn:Ho; [|discriminate].
  simpl in Ht. destruct (Hok o Ho Ht) as (cur' & l & Hc & Hl). simpl in *.
  assert (cur' = cur) as -> by congruence.
  eexists. split; [apply (append_found _ _ _ _ _ Hl)|].
  intros o' Ho' _. simpl in *. assert (o' = o) as -> by congruence.
  exists cur, (l ++ [line])%list. split; [assumption|apply deref_setitem].
Qed.

Lemma read_line_raises (fpname : string) st (item : nat * string) (err : exn) :
  reader_ok st ->
  configparser._read_line fpname st item = Raise err ->
  parse_error err = true.
Proof.
  destruct st as [self loc], item as [lineno line]. intros Hok.
  unfold configparser._read_line.
  set (comment_start := if existsb _ _ then Some 0%Z else None).
  set (value := PyStr.strip _).
  destruct (negb (configparser.truthy value)).
  - destruct comment_start; [discriminate|].
    destruct (configparser.cursect loc) as [cur|] eqn:Hcur; [|discriminate].
    destruct (configparser.truthy_opt _) eqn:Ht; [|discriminate].
    destruct (append_step self loc cur "" Hok Hcur Ht) as (self' & -> & _).
    discriminate.
  - destruct (configparser.cursect loc) as [cur|] eqn:Hcur.
    + destruct (configparser.truthy_opt _) eqn:Ht; simpl.
      * destruct (_ <? _)%nat.
        -- destruct (append_step self loc cur value Hok Hcur Ht)
             as (self' & -> & _).
           discriminate.
        -- apply read_header_raises.
      * apply read_header_raises.
    + apply read_header_raises.
Qed.

Lemma read_line_ok (fpname : string) st (item : nat * string) st' :
  reader_ok st ->
  configparser._read_line fpname st item = Return st' ->
  reader_ok st'.
Proof.
  destruct st as [self loc], item as [lineno line]. intros Hok.
  unfold configparser._read_line.
  set (comment_start := if existsb _ _ then Some 0%Z else None).
  set (value := PyStr.strip _).
  destruct (negb (configparser.truthy value)).
  - destruct comment_start; [intros [= <-]; assumption|].
    destruct (configparser.cursect loc) as [cur|] eqn:Hcur;
      [|intros [= <-]; assumption].
    destruct (configparser.truthy_opt _) eqn:Ht; [|intros [= <-]; assumption].
    destruct (append_step self loc cur "" Hok Hcur Ht) as (self' & -> & Hok').
    intros [= <-]. assumption.
  - destruct (configparser.cursect loc) as [cur|] eqn:Hcur.
    + destruct (configparser.truthy_opt _) eqn:Ht; simpl.
      * destruct (_ <? _)%nat.
        -- destruct (append_step self loc cur value Hok Hcur Ht)
             as (self' & -> & Hok').
           intros [= <-]. assumption.
        -- apply read_header_ok. assumption.
      * apply read_header_ok. assumption.
    + apply read_header_ok. assumption.
Qed.

Lemma for_each_read_line (fpname : string) (items : list (nat * string)) st :
  reader_ok st ->
  match configparser.for_each (configparser._read_line fpname) items st with
  | Return st' => reader_ok st'
  | Raise err => parse_error err = true
  end.
Proof.
  revert st. induction items as [|item items IH]; intros st Hok; simpl.
  - assumption.
  - destruct (configparser._read_line fpname st item) as [st1|err] eqn:Hline;
      simpl.
    + apply IH. eapply read_line_ok; eassumption.
    + eapply read_line_raises; eassumption.
Qed.

(** [_read] raises nothing but the exceptions of a file that it cannot
    parse and the exception on which the iteration over the file
    ends; in particular no [OSError]. *)
Lemma _read_raises (self : configparser.RawConfigParser string)
    (fp : TextIO) (fpname : string) (err : exn) :
  configparser._read self fp fpname = Raise err ->
  parse_error err = true \/ io_error fp = Some err.
Proof.
  unfold configparser._read.
  set (st0 := (_, configparser.mkLocals ∅ None None None 0 None)).
  assert (Hok : reader_ok st0) by (intros o Ho; discriminate).
  pose proof (for_each_read_line fpname (enumerate (io_lines fp) 1) st0 Hok)
    as H.
  destruct (configparser.for_each _ _ st0) as [st|err']; simpl.
  - destruct (io_error fp) as [err'|]; [intros [= <-]; right; reflexivity|].
    destruct (configparser.e st.2); [|discriminate].
    intros [= <-]. left. reflexivity.
  - intros [= <-]. left. assumption.
Qed.

(** A file that is read to its end fails to parse with nothing but
    the exceptions of the parser. *)
Lemma parse_raises (text : string) (err : exn) :
  parse text = Raise err -> parse_error err = true.
Proof.
  intros Hparse. apply _read_raises in Hparse.
  destruct Hparse as [Herr|Hio]; [exact Herr|discriminate].
Qed.

(** ** The slice [version[1:-1]] *)

Lemma substring_app (s t : string) :
  substring 0 (String.length s) (s ++ t) = s.
Proof.
  induction s as [|c s IH]; simpl.
  - destruct t; reflexivity.
  - rewrite IH. reflexivity.
Qed.

Lemma string_length_app (s t : string) :
  String.length (s ++ t) = String.length s + String.length t.
Proof. induction s as [|c s IH]; simpl; [reflexivity|]. rewrite IH. reflexivity. Qed.

Lemma slice_ends (a b : ascii) (s : string) :
  PyStr.slice (Some 1%Z) (Some (-1)%Z) (String a (s ++ String b "")) = s.
Proof.
  unfold PyStr.slice, PyStr.adjust.
  change (String.length (String a (s ++ String b "")))
    with (S (String.length (s ++ String b ""))).
  rewrite string_length_app. simpl String.length.
  destruct (Z.ltb_spec 1 0); [lia|].
  destruct (Z.leb_spec (Z.of_nat (S (String.length s + 1))) 1); [lia|].
  change (-1 <? 0)%Z with true. cbv iota.
  destruct (Z.ltb_spec (-1 + Z.of_nat (S (String.length s + 1))) 0); [lia|].
  change (Z.to_nat 1) with 1.
  replace (Z.to_nat (-1 + Z.of_nat (S (String.length s + 1)) - 1))
    with (String.length s) by lia.
  simpl. apply substring_app.
Qed.

Lemma slice_short (v : string) :
  String.length v <= 1 -> PyStr.slice (Some 1%Z) (Some (-1)%Z) v = "".
Proof.
  destruct v as [|a [|b v]]; simpl; intros H; [reflexivity|reflexivity|lia].
Qed.

(** ** The value [get_version] returns, from what the file parses to *)

Lemma get_version_parsed (p : string) (w : world) (text : string)
    (config : configparser.RawConfigParser string) :
  files w !! CONFIG_FILE = Some (text_file text) ->
  parse text = Return config ->
  get_version p w = (package_version config, w).
Proof.
  intros Hf Hp. rewrite get_version_eq, Hf. fold (parse text).
  rewrite Hp. reflexivity.
Qed.

Lemma package_version_raw (config : configparser.RawConfigParser string)
    (options : gmap string string) (raw : string) :
  configparser._sections config !! "package" = Some options ->
  options !! "version" = Some raw ->
  PyStr.contains "%"%char raw = false ->
  package_version config = Return raw.
Proof.
  intros Hsec Hopt Hno.
  rewrite (package_version_section config options Hsec).
  rewrite lookup_union, Hopt, union_Some_l.
  apply interpolate_no_percent. assumption.
Qed.

Lemma get_version_raw (p : string) (w : world)
    (text : string) (config : configparser.RawConfigParser string)
    (options : gmap string string) (raw : string) :
  files w !! CONFIG_FILE = Some (text_file text) ->
  parse text = Return config ->
  configparser._sections config !! "package" = Some options ->
  options !! "version" = Some raw ->
  PyStr.contains "%"%char raw = false ->
  get_version p w = (Return raw, w).
Proof.
  intros Hf Hp Hsec Hopt Hno.
  rewrite (get_version_parsed p w text config Hf Hp).
  rewrite (package_version_raw config options raw Hsec Hopt Hno).
  reflexivity.
Qed.


(** * The parser and the interpolation, in general *)

(** ** The loop of [_interpolate_some], one turn at a time *)

Lemma while_rest_unfold (opt section rawval : string)
    (map : gmap string string)
    (deeper : list string -> string -> result (list string))
    (accum : list string) (rest : string) :
  configparser.while_rest opt section rawval map deeper accum rest
  = if configparser.truthy rest then
      match configparser.while_body opt section rawval map deeper accum rest with
      | Raise err => Raise err
      | Return (configparser.returned accum') => Return accum'
      | Return (configparser.next_turn accum' rest') =>
          configparser.while_rest opt section rawval map deeper accum' rest'
      end
    else Return accum.
Proof.
  funelim (configparser.while_rest opt section rawval map deeper accum rest);
    rewrite Heq; [reflexivity|..];
    match goal with
    | Hbody : configparser.while_body _ _ _ _ _ _ _ = _ |- _ =>
        generalize Hbody; clear; intros ->; reflexivity
    end.
Qed.

Lemma interpolate_some_unfold (left : nat)
    (parser : configparser.RawConfigParser string)
    (opt : string) (accum : list string) (rest section : string)
    (map : gmap string string) :
  configparser._interpolate_some left parser opt accum rest section map
  = (rawval ← configparser.get configparser.Interpolation_base parser section
                opt true (Some rest);
     match left with
     | O => Raise (InterpolationDepthError opt section rawval)
     | S left' =>
         configparser.while_rest opt section rawval map
           (fun accum v =>
              configparser._interpolate_some left' parser opt accum v section
                map)
           accum rest
     end).
Proof. destruct left; reflexivity. Qed.

(** ** What the interpolation can raise *)

Lemma while_body_raises (opt section rawval : string)
    (map : gmap string string)
    (deeper : list string -> string -> result (list string))
    (accum : list string) (rest : string) (err : exn) :
  (forall accum v err, deeper accum v = Raise err ->
                       interpolation_error err = true) ->
  configparser.while_body opt section rawval map deeper accum rest = Raise err ->
  interpolation_error err = true.
Proof.
  intros Hdeeper. unfold configparser.while_body.
  destruct (PyStr.find "%"%char rest) as [p|]; [|discriminate].
  cbv zeta.
  destruct (String.eqb _ "%"); [discriminate|].
  destruct (String.eqb _ "("); [|intros [= <-]; reflexivity].
  destruct (configparser._KEYCRE_match _) as [[group1 m_end]|];
    [|intros [= <-]; reflexivity].
  destruct (map !! _) as [v|]; [|intros [= <-]; reflexivity].
  destruct (PyStr.contains _ v); [|discriminate].
  destruct (deeper _ v) as [a|err'] eqn:Hd; simpl; [discriminate|].
  intros [= <-]. eapply Hdeeper. eassumption.
Qed.

Lemma while_rest_raises (opt section rawval : string)
    (map : gmap string string)
    (deeper : list string -> string -> result (list string))
    (accum : list string) (rest : string) (err : exn) :
  (forall accum v err, deeper accum v = Raise err ->
                       interpolation_error err = true) ->
  configparser.while_rest opt section rawval map deeper accum rest = Raise err ->
  interpolation_error err = true.
Proof.
  intros Hdeeper.
  remember (String.length rest) as n eqn:Hn.
  revert accum rest Hn.
  induction n as [n IH] using lt_wf_ind. intros accum rest Hn.
  rewrite while_rest_unfold.
  destruct (configparser.truthy rest); [|discriminate].
  destruct (configparser.while_body opt section rawval map deeper accum rest)
    as [[accum' rest'|accum']|err'] eqn:Hbody.
  - apply configparser.while_body_shorter in Hbody.
    apply (IH (String.length rest')); [lia|reflexivity].
  - discriminate.
  - intros [= <-]. eapply while_body_raises; eassumption.
Qed.

Lemma interpolate_some_raises (left : nat)
    (parser : configparser.RawConfigParser string)
    (opt : string) (accum : list string) (rest section : string)
    (map : gmap string string) (err : exn) :
  configparser._interpolate_some left parser opt accum rest section map
  = Raise err ->
  interpolation_error err = true.
Proof.
  revert accum rest err.
  induction left as [|left IH]; intros accum rest err;
    rewrite interpolate_some_unfold;
    destruct (get_raw_returns configparser.Interpolation_base parser section
                opt rest) as [rawval ->];
    unfold mbind, result_bind.
  - intros [= <-]. reflexivity.
  - apply while_rest_raises. intros a v err'. apply IH.
Qed.

Lemma before_get_raises (parser : configparser.RawConfigParser string)
    (section opt value : string) (d : gmap string string) (err : exn) :
  configparser.before_get configparser.BasicInterpolation parser section opt
    value d = Raise err ->
  interpolation_error err = true.
Proof.
  unfold configparser.before_get, configparser.BasicInterpolation.
  destruct (configparser._interpolate_some _ parser opt [] value section d)
    as [L|err'] eqn:HL; simpl; [discriminate|].
  intros [= <-]. eapply interpolate_some_raises. eassumption.
Qed.

(** ** What a run can end with *)

Lemma package_version_raises (config : configparser.RawConfigParser string)
    (err : exn) :
  package_version config = Raise err -> script_error err = true.
Proof.
  destruct (configparser._sections config !! "package") as [opts|] eqn:Hsec.
  - rewrite (package_version_section config opts Hsec).
    destruct (_ !! "version") as [value|].
    + intros Hraise. apply before_get_raises in Hraise.
      destruct err; simpl in *; try discriminate; reflexivity.
    + intros [= <-]. reflexivity.
  - rewrite (package_version_no_section config Hsec).
    intros [= <-]. reflexivity.
Qed.

Lemma get_version_raises (p : string) (w w' : world) (err : exn) :
  get_version p w = (Raise err, w') -> script_error err = true.
Proof.
  rewrite get_version_eq.
  destruct (files w !! CONFIG_FILE) as [f|].
  - destruct (configparser._read _ (reader f) _) as [config|err'] eqn:Hread.
    + intros [= Hraise _]. eapply package_version_raises. eassumption.
    + intros [= <- _]. apply _read_raises in Hread.
      destruct Hread as [Herr|Hio].
      * destruct err'; simpl in *; try discriminate; reflexivity.
      * destruct f; cbn in Hio; [discriminate|].
        injection Hio as <-. reflexivity.
  - rewrite package_version_fresh. intros [= <- _]. reflexivity.
Qed.

(** ** Strings *)

(** Appending to a text that starts with known characters. *)
Ltac app_cons :=
  repeat first
    [ progress change (String ?c ?s ++ ?t) with (String c (s ++ t))
    | progress change (EmptyString ++ ?t) with t ].

Lemma string_app_assoc (s t u : string) : (s ++ t) ++ u = s ++ t ++ u.
Proof. induction s as [|c s IH]; app_cons; [reflexivity|]. rewrite IH. reflexivity. Qed.

Lemma string_app_nil_r (s : string) : s ++ "" = s.
Proof. induction s as [|c s IH]; app_cons; [reflexivity|]. rewrite IH. reflexivity. Qed.

Lemma substring_all (s : string) : substring 0 (String.length s) s = s.
Proof.
  rewrite <- (string_app_nil_r s) at 2. apply substring_app.
Qed.

Lemma drop_app (s t : string) : PyStr.drop (String.length s) (s ++ t) = t.
Proof. induction s as [|c s IH]; app_cons; simpl; [reflexivity|exact IH]. Qed.

Lemma take_app (s t : string) : PyStr.take (String.length s) (s ++ t) = s.
Proof. apply substring_app. Qed.

Lemma slice_all (s : string) : PyStr.slice None None s = s.
Proof.
  unfold PyStr.slice, PyStr.adjust. simpl.
  rewrite Z.sub_0_r, Nat2Z.id. apply substring_all.
Qed.

Lemma slice_none (s : string) : PyStr.slice None (Some 0%Z) s = "".
Proof.
  unfold PyStr.slice, PyStr.adjust. simpl.
  destruct (Z.leb_spec (Z.of_nat (String.length s)) 0) as [Hle|Hlt].
  - assert (String.length s = 0) as Hlen by lia.
    destruct s; [reflexivity|discriminate].
  - destruct s; reflexivity.
Qed.

Lemma rstrip_app (s t : string) :
  PyStr.rstrip (s ++ t)
  = match PyStr.rstrip t with
    | EmptyString => PyStr.rstrip s
    | r => s ++ r
    end.
Proof.
  induction s as [|c s IH]; app_cons; simpl.
  - destruct (PyStr.rstrip t); reflexivity.
  - rewrite IH. destruct (PyStr.rstrip t) as [|a r]; [reflexivity|].
    destruct s; reflexivity.
Qed.

Lemma rstrip_idem (s : string) : PyStr.rstrip (PyStr.rstrip s) = PyStr.rstrip s.
Proof.
  induction s as [|c s IH]; simpl; [reflexivity|].
  destruct (PyStr.rstrip s) as [|a r] eqn:Hr.
  - destruct (PyStr.isspace c) eqn:Hc; simpl; [reflexivity|].
    rewrite Hc. reflexivity.
  - change (PyStr.rstrip (String c (String a r)))
      with (match PyStr.rstrip (String a r) with
            | EmptyString =>
                if PyStr.isspace c then EmptyString else String c EmptyString
            | r' => String c r'
            end).
    rewrite IH. reflexivity.
Qed.

Lemma lstrip_idem (s : string) : PyStr.lstrip (PyStr.lstrip s) = PyStr.lstrip s.
Proof.
  induction s as [|c s IH]; simpl; [reflexivity|].
  destruct (PyStr.isspace c) eqn:Hc; [exact IH|].
  simpl. rewrite Hc. reflexivity.
Qed.

Lemma lstrip_rstrip (s : string) :
  PyStr.lstrip (PyStr.rstrip s) = PyStr.rstrip (PyStr.lstrip s).
Proof.
  induction s as [|c s IH]; [reflexivity|].
  change (PyStr.rstrip (String c s))
    with (match PyStr.rstrip s with
          | EmptyString =>
              if PyStr.isspace c then EmptyString else String c EmptyString
          | r => String c r
          end).
  change (PyStr.lstrip (String c s))
    with (if PyStr.isspace c then PyStr.lstrip s else String c s).
  destruct (PyStr.isspace c) eqn:Hc.
  - rewrite <- IH. destruct (PyStr.rstrip s) as [|a r]; [reflexivity|].
    simpl. rewrite Hc. reflexivity.
  - change (PyStr.rstrip (String c s))
      with (match PyStr.rstrip s with
            | EmptyString =>
                if PyStr.isspace c then EmptyString else String c EmptyString
            | r => String c r
            end).
    rewrite Hc.
    destruct (PyStr.rstrip s) as [|a r]; simpl; rewrite Hc; reflexivity.
Qed.

Lemma strip_idem (s : string) : PyStr.strip (PyStr.strip s) = PyStr.strip s.
Proof.
  unfold PyStr.strip.
  rewrite lstrip_rstrip, lstrip_idem, rstrip_idem. reflexivity.
Qed.

Lemma rstrip_strip (s : string) : PyStr.rstrip (PyStr.strip s) = PyStr.strip s.
Proof. apply rstrip_idem. Qed.

(** The line feed that ends a line does not count. *)
Lemma strip_app_nl (s : string) : PyStr.strip (s ++ nl) = PyStr.strip s.
Proof.
  unfold PyStr.strip. rewrite lstrip_app.
  destruct (PyStr.lstrip s) as [|c s'] eqn:Hl; [reflexivity|].
  apply rstrip_app_nl.
Qed.

Lemma rstrip_all_nonspace (s : string) :
  all_chars (fun c => negb (PyStr.isspace c)) s = true -> PyStr.rstrip s = s.
Proof.
  induction s as [|c s IH]; simpl; [reflexivity|].
  intros H. apply andb_prop in H. destruct H as [Hc Hs].
  rewrite (IH Hs). apply negb_true_iff in Hc. rewrite Hc.
  destruct s; reflexivity.
Qed.

Lemma rfind_last (c : ascii) (s : string) :
  PyStr.rfind c (s ++ String c "") = Some (String.length s).
Proof.
  induction s as [|d s IH]; app_cons; simpl.
  - rewrite Ascii.eqb_refl. reflexivity.
  - rewrite IH. reflexivity.
Qed.

(** ** The lines of a text *)

Lemma one_line_contains (s : string) :
  one_line s = true ->
  PyStr.contains LF s = false /\ PyStr.contains CR s = false.
Proof.
  unfold one_line. intros H. apply andb_prop in H. destruct H as [H1 H2].
  apply negb_true_iff in H1, H2. split; assumption.
Qed.

Lemma contains_cons (c d : ascii) (s : string) :
  PyStr.contains c (String d s) = false ->
  Ascii.eqb d c = false /\ PyStr.contains c s = false.
Proof.
  change (PyStr.contains c (String d s))
    with (Ascii.eqb c d || PyStr.contains c s).
  intros H. apply orb_false_elim in H. rewrite Ascii.eqb_sym. exact H.
Qed.

Lemma readlines_from_cons (cur : string) (c : ascii) (rest : string) :
  Ascii.eqb c LF = false -> Ascii.eqb c CR = false ->
  readlines_from cur (String c rest)
  = readlines_from (cur ++ String c "") rest.
Proof. intros HLF HCR. cbn [readlines_from]. rewrite HLF, HCR. reflexivity. Qed.

(** The rest of a line, up to what ends it. *)
Lemma readlines_from_body (cur line rest : string) :
  one_line line = true ->
  readlines_from cur (line ++ rest) = readlines_from (cur ++ line) rest.
Proof.
  intros Hline. apply one_line_contains in Hline. destruct Hline as [HLF HCR].
  revert cur. induction line as [|c line IH]; intros cur; app_cons.
  - rewrite string_app_nil_r. reflexivity.
  - apply contains_cons in HLF, HCR.
    destruct HLF as [HLF1 HLF2], HCR as [HCR1 HCR2].
    rewrite (readlines_from_cons _ _ _ HLF1 HCR1), (IH HLF2 HCR2).
    rewrite (string_app_assoc cur (String c "") line). reflexivity.
Qed.

Lemma readlines_from_line (cur line rest : string) :
  one_line line = true ->
  readlines_from cur (line ++ nl ++ rest)
  = ((cur ++ line) ++ nl) :: readlines_from "" rest.
Proof. intros Hline. rewrite (readlines_from_body _ _ _ Hline). reflexivity. Qed.

Lemma readlines_unlines (l : list string) :
  forallb one_line l = true ->
  readlines (unlines l) = map (fun line => line ++ nl) l.
Proof.
  unfold readlines. induction l as [|line l IH]; simpl; [reflexivity|].
  intros H. apply andb_prop in H. destruct H as [Hline Hl].
  rewrite (readlines_from_line "" line _ Hline). rewrite (IH Hl). reflexivity.
Qed.

Lemma startswith_char (c d : ascii) (s : string) :
  PyStr.startswith (String c s) (String d "") = Ascii.eqb c d.
Proof.
  unfold PyStr.startswith. cbn [String.prefix].
  destruct (ascii_dec d c) as [->|Hne].
  - rewrite Ascii.eqb_refl. destruct s; reflexivity.
  - symmetry. apply Ascii.eqb_neq. congruence.
Qed.

Lemma readlines_from_line_crlf (cur line rest : string) :
  one_line line = true ->
  readlines_from cur (line ++ String CR nl ++ rest)
  = ((cur ++ line) ++ nl) :: readlines_from "" rest.
Proof. intros Hline. rewrite (readlines_from_body _ _ _ Hline). reflexivity. Qed.

Lemma readlines_from_line_cr (cur line rest : string) :
  one_line line = true ->
  PyStr.startswith rest nl = false ->
  readlines_from cur (line ++ String CR "" ++ rest)
  = ((cur ++ line) ++ nl) :: readlines_from "" rest.
Proof.
  intros Hline Hrest. rewrite (readlines_from_body _ _ _ Hline). app_cons.
  destruct rest as [|d rest']; [reflexivity|].
  cbn [readlines_from].
  change (Ascii.eqb CR LF) with false. change (Ascii.eqb CR CR) with true.
  cbv iota.
  unfold nl in Hrest. rewrite startswith_char in Hrest. rewrite Hrest.
  reflexivity.
Qed.

Lemma lines_with_cr_start (l : list string) :
  forallb one_line l = true ->
  PyStr.startswith (lines_with (String CR "") l) nl = false.
Proof.
  destruct l as [|line l]; [reflexivity|]. simpl.
  intros H. apply andb_prop in H. destruct H as [Hline _].
  apply one_line_contains in Hline. destruct Hline as [HLF _].
  destruct line as [|c line]; [reflexivity|]. app_cons.
  apply contains_cons in HLF. destruct HLF as [HLF _].
  unfold nl. rewrite startswith_char. exact HLF.
Qed.

(** Whatever ends the lines of the file, a line feed, a carriage return
    or both, the parser is given the same lines. *)
Lemma readlines_lines_with (eol : string) (l : list string) :
  forallb one_line l = true ->
  eol = nl \/ eol = String CR nl \/ eol = String CR "" ->
  readlines (lines_with eol l) = map (fun line => line ++ nl) l.
Proof.
  intros Hl Heol. unfold readlines.
  induction l as [|line l IH]; [reflexivity|].
  simpl in Hl. apply andb_prop in Hl. destruct Hl as [Hline Hl].
  simpl. destruct Heol as [->|[->| ->]].
  - rewrite (readlines_from_line "" line _ Hline).
    rewrite (IH Hl) by (left; reflexivity). reflexivity.
  - rewrite (readlines_from_line_crlf "" line _ Hline).
    rewrite (IH Hl) by (right; left; reflexivity). reflexivity.
  - rewrite (readlines_from_line_cr "" line _ Hline)
      by (apply lines_with_cr_start; assumption).
    rewrite (IH Hl) by (right; right; reflexivity). reflexivity.
Qed.

Lemma get_version_readlines (p : string) (w1 w2 : world) (t1 t2 : string) :
  files w1 !! CONFIG_FILE = Some (text_file t1) ->
  files w2 !! CONFIG_FILE = Some (text_file t2) ->
  readlines t1 = readlines t2 ->
  (get_version p w1).1 = (get_version p w2).1.
Proof.
  intros H1 H2 Hlines. rewrite !get_version_eq, H1, H2.
  cbn [reader]. rewrite Hlines.
  destruct (configparser._read _ _ _); reflexivity.
Qed.

Lemma run_get_version (argv : list string) (fs1 fs2 : gmap string file) :
  (get_version CONFIG_FILE (mkWorld fs1 "")).1
  = (get_version CONFIG_FILE (mkWorld fs2 "")).1 ->
  run argv fs1 = run argv fs2.
Proof.
  intros Hget. unfold run. rewrite !main_eq.
  pose proof (get_version_readonly CONFIG_FILE (mkWorld fs1 "")) as Hw1.
  pose proof (get_version_readonly CONFIG_FILE (mkWorld fs2 "")) as Hw2.
  destruct (get_version CONFIG_FILE (mkWorld fs1 "")) as [r1 w1].
  destruct (get_version CONFIG_FILE (mkWorld fs2 "")) as [r2 w2].
  simpl in *. subst. destruct r2; reflexivity.
Qed.

(** ** Lines at the margin *)

Lemma ltb_0_r (n : nat) : (n <? 0)%nat = false.
Proof. destruct n; reflexivity. Qed.

(** A line that is neither empty nor a comment and that starts at the
    margin is a header of some kind: it does not continue a value. *)
Lemma read_line_margin (fpname : string) self loc (lineno : nat)
    (line : string) :
  is_comment line = false ->
  configparser.truthy (PyStr.strip line) = true ->
  configparser.NONSPACECRE_search line = Some 0 ->
  configparser._read_line fpname (self, loc) (lineno, line)
  = configparser._read_header fpname lineno line (PyStr.strip line) 0 self loc.
Proof.
  intros Hcomment Htruthy Hindent.
  unfold configparser._read_line. fold (is_comment line).
  rewrite Hcomment, slice_all, Htruthy, Hindent.
  cbn [negb default]. unfold id. rewrite ltb_0_r, andb_false_r.
  destruct (configparser.cursect loc); reflexivity.
Qed.

(** A comment changes nothing. *)
Lemma read_line_comment (fpname : string) st (lineno : nat) (line : string) :
  is_comment line = true ->
  configparser._read_line fpname st (lineno, line) = Return st.
Proof.
  intros Hcomment. destruct st as [self loc].
  unfold configparser._read_line. fold (is_comment line).
  rewrite Hcomment, slice_none. reflexivity.
Qed.

(** An empty line is added to the value that is being read, if there
    is one. *)
Lemma read_line_blank (fpname : string) self loc (lineno : nat)
    (line : string) :
  is_comment line = false ->
  configparser.truthy (PyStr.strip line) = false ->
  configparser._read_line fpname (self, loc) (lineno, line)
  = match configparser.cursect loc with
    | Some cur =>
        if configparser.truthy_opt (configparser.optname loc) then
          self ← configparser.append self cur
                   (default "" (configparser.optname loc)) "";
          Return (self, loc)
        else Return (self, loc)
    | None => Return (self, loc)
    end.
Proof.
  intros Hcomment Htruthy.
  unfold configparser._read_line. fold (is_comment line).
  rewrite Hcomment, slice_all, Htruthy. reflexivity.
Qed.

Lemma rstrip_cons_nonspace (c : ascii) (s : string) :
  PyStr.isspace c = false -> exists r, PyStr.rstrip (String c s) = String c r.
Proof.
  intros Hc. cbn [PyStr.rstrip]. rewrite Hc.
  destruct (PyStr.rstrip s); eauto.
Qed.

(** What [_read] sees of a line whose first character is neither
    white space nor a comment prefix. *)
Lemma margin_line (c : ascii) (s : string) :
  PyStr.isspace c = false ->
  Ascii.eqb c "#" = false -> Ascii.eqb c ";" = false ->
  let line := String c s ++ nl in
  PyStr.strip line = PyStr.rstrip (String c s)
  /\ is_comment line = false
  /\ configparser.truthy (PyStr.strip line) = true
  /\ configparser.NONSPACECRE_search line = Some 0.
Proof.
  intros Hc Hhash Hsemi line.
  assert (Hstrip : PyStr.strip line = PyStr.rstrip (String c s)).
  { unfold line. rewrite strip_app_nl. unfold PyStr.strip.
    cbn [PyStr.lstrip]. rewrite Hc. reflexivity. }
  destruct (rstrip_cons_nonspace c s Hc) as [r Hr].
  split; [exact Hstrip|].
  unfold is_comment. rewrite Hstrip, Hr.
  unfold configparser._comment_prefixes. cbn [existsb].
  rewrite !startswith_char, Hhash, Hsemi.
  split; [reflexivity|]. split; [reflexivity|].
  unfold line. app_cons. cbn [configparser.NONSPACECRE_search].
  rewrite Hc. reflexivity.
Qed.

Lemma SECTCRE_no_bracket (c : ascii) (s : string) :
  Ascii.eqb c "[" = false -> configparser.SECTCRE_match (String c s) = None.
Proof.
  destruct c as [[] [] [] [] [] [] [] []]; try reflexivity; discriminate.
Qed.

(** *** The header of a section *)

Lemma header_line (name : string) :
  configparser.truthy name = true ->
  let line := ("[" ++ name ++ "]") ++ nl in
  PyStr.strip line = "[" ++ name ++ "]"
  /\ is_comment line = false
  /\ configparser.truthy (PyStr.strip line) = true
  /\ configparser.NONSPACECRE_search line = Some 0
  /\ configparser.SECTCRE_match ("[" ++ name ++ "]") = Some name.
Proof.
  intros Hname line.
  destruct (margin_line "[" (name ++ "]") eq_refl eq_refl eq_refl)
    as (Hstrip & Hcomment & Htruthy & Hindent).
  assert (Hr : PyStr.rstrip (String "[" (name ++ "]")) = "[" ++ name ++ "]").
  { change (String "[" (name ++ "]")) with (String "[" name ++ "]").
    rewrite rstrip_app. reflexivity. }
  rewrite Hr in Hstrip.
  repeat split; try assumption.
  change ("[" ++ name ++ "]") with (String "[" (name ++ "]")).
  unfold configparser.SECTCRE_match. rewrite rfind_last.
  destruct name as [|a name']; [discriminate|].
  cbn [String.length]. rewrite <- (take_app (String a name') "]") at 2.
  reflexivity.
Qed.

(** *** A line that sets an option *)

Lemma all_chars_impl (p q : ascii -> bool) (s : string) :
  (forall c, p c = true -> q c = true) ->
  all_chars p s = true -> all_chars q s = true.
Proof.
  intros Hpq. induction s as [|c s IH]; simpl; [reflexivity|].
  intros H. apply andb_prop in H. destruct H as [Hc Hs].
  rewrite (Hpq c Hc), (IH Hs). reflexivity.
Qed.

Lemma key_char_nonspace (c : ascii) :
  key_char c = true -> negb (PyStr.isspace c) = true.
Proof.
  unfold key_char. intros H. apply andb_prop in H. destruct H as [H _].
  apply andb_prop in H. apply H.
Qed.

Lemma find_delimiter_key (key rest : string) :
  all_chars key_char key = true ->
  configparser.find_delimiter (key ++ rest)
  = (fun d => String.length key + d) <$> configparser.find_delimiter rest.
Proof.
  induction key as [|c key IH]; app_cons.
  - intros _. destruct (configparser.find_delimiter rest); reflexivity.
  - intros H. cbn [all_chars] in H. apply andb_prop in H.
    destruct H as [Hc Hkey].
    unfold key_char in Hc. apply andb_prop in Hc. destruct Hc as [Hc Hcolon].
    apply andb_prop in Hc. destruct Hc as [_ Hequal].
    apply negb_true_iff in Hcolon, Hequal.
    cbn [configparser.find_delimiter]. rewrite Hequal, Hcolon, (IH Hkey).
    destruct (configparser.find_delimiter rest); reflexivity.
Qed.

Lemma rstrip_separator (value : string) :
  PyStr.rstrip (" = " ++ value) = " =" ++ PyStr.rstrip (" " ++ value).
Proof.
  app_cons. cbn [PyStr.rstrip].
  destruct (PyStr.rstrip value); reflexivity.
Qed.

Lemma lstrip_rstrip_space (value : string) :
  PyStr.lstrip (PyStr.rstrip (" " ++ value)) = PyStr.strip value.
Proof. rewrite lstrip_rstrip. reflexivity. Qed.

Lemma assign_line (key value : string) :
  key_ok key = true ->
  let line := (key ++ " = " ++ value) ++ nl in
  is_comment line = false
  /\ configparser.truthy (PyStr.strip line) = true
  /\ configparser.NONSPACECRE_search line = Some 0
  /\ configparser.SECTCRE_match (PyStr.strip line) = None
  /\ configparser.OPTCRE_match (PyStr.strip line)
     = Some (key, PyStr.strip value).
Proof.
  intros Hkey line. destruct key as [|c key']; [discriminate|].
  set (key := String c key') in *.
  unfold key_ok in Hkey. fold key in Hkey.
  apply andb_prop in Hkey. destruct Hkey as [Hkey Hsemi].
  apply andb_prop in Hkey. destruct Hkey as [Hkey Hhash].
  apply andb_prop in Hkey. destruct Hkey as [Hchars Hbracket].
  apply negb_true_iff in Hsemi, Hhash, Hbracket.
  assert (Hc : PyStr.isspace c = false).
  { unfold key in Hchars. cbn [all_chars] in Hchars.
    apply andb_prop in Hchars. destruct Hchars as [Hc _].
    apply key_char_nonspace, negb_true_iff in Hc. exact Hc. }
  destruct (margin_line c (key' ++ " = " ++ value) Hc Hhash Hsemi)
    as (Hstrip & Hcomment & Htruthy & Hindent).
  change (String c (key' ++ " = " ++ value) ++ nl) with line in *.
  assert (Hvalue : PyStr.strip line
                   = key ++ " =" ++ PyStr.rstrip (" " ++ value)).
  { rewrite Hstrip.
    change (String c (key' ++ " = " ++ value)) with (key ++ " = " ++ value).
    rewrite rstrip_app, rstrip_separator. reflexivity. }
  repeat split; try assumption.
  - rewrite Hvalue. apply SECTCRE_no_bracket. exact Hbracket.
  - rewrite Hvalue. unfold configparser.OPTCRE_match.
    rewrite (find_delimiter_key key _ Hchars).
    change (configparser.find_delimiter (" =" ++ PyStr.rstrip (" " ++ value)))
      with (Some 1).
    cbn [fmap option_fmap option_map].
    f_equal. f_equal.
    + replace (key ++ " =" ++ PyStr.rstrip (" " ++ value))
        with ((key ++ " ") ++ "=" ++ PyStr.rstrip (" " ++ value))
        by (rewrite string_app_assoc; reflexivity).
      replace (String.length key + 1) with (String.length (key ++ " "))
        by (rewrite string_length_app; reflexivity).
      rewrite take_app, rstrip_app. cbn [PyStr.rstrip].
      apply rstrip_all_nonspace.
      eapply all_chars_impl; [apply key_char_nonspace|exact Hchars].
    + replace (key ++ " =" ++ PyStr.rstrip (" " ++ value))
        with ((key ++ " =") ++ PyStr.rstrip (" " ++ value))
        by (rewrite string_app_assoc; reflexivity).
      replace (S (String.length key + 1)) with (String.length (key ++ " ="))
        by (rewrite string_length_app; simpl; lia).
      rewrite drop_app. apply lstrip_rstrip_space.
Qed.

(** ** The values after [_join_multiline_values] *)

Lemma join_eq (self : configparser.RawConfigParser configparser.str_or_list) :
  configparser._join_multiline_values self
  = configparser.mkParser
      ((fun options : gmap string configparser.str_or_list =>
          joined <$> options) <$> configparser._sections self)
      (joined <$> configparser._defaults self).
Proof. reflexivity. Qed.

Lemma join_snoc (sep : string) (l : list string) (x y : string) :
  PyStr.join sep ((x :: l) ++ [y]) = PyStr.join sep (x :: l) ++ sep ++ y.
Proof.
  revert x. induction l as [|z l IH]; intros x; [reflexivity|].
  change (PyStr.join sep ((x :: z :: l) ++ [y]))
    with (x ++ sep ++ PyStr.join sep ((z :: l) ++ [y])).
  rewrite IH.
  change (PyStr.join sep (x :: z :: l)) with (x ++ sep ++ PyStr.join sep (z :: l)).
  rewrite !string_app_assoc. reflexivity.
Qed.

(** The empty lines after a value are dropped when the value is
    joined. *)
Lemma joined_blank (l : list string) :
  joined (configparser.List (l ++ [""])) = joined (configparser.List l).
Proof.
  unfold joined. destruct l as [|x l]; [reflexivity|].
  rewrite join_snoc, string_app_nil_r. apply rstrip_app_nl.
Qed.

Lemma join_deref self (cur : configparser.dict_ref) :
  configparser.deref (configparser._join_multiline_values self) cur
  = joined <$> configparser.deref self cur.
Proof.
  destruct cur as [|name]; [reflexivity|].
  rewrite join_eq. cbn [configparser.deref configparser._sections].
  rewrite lookup_fmap.
  destruct (configparser._sections self !! name); simpl; [reflexivity|].
  rewrite fmap_empty. reflexivity.
Qed.

Lemma join_setitem self (cur : configparser.dict_ref) (o : string)
    (v : configparser.str_or_list) :
  configparser._join_multiline_values (configparser.setitem self cur o v)
  = configparser.setitem (configparser._join_multiline_values self) cur o
      (joined v).
Proof.
  unfold configparser.setitem. rewrite join_deref.
  destruct cur as [|name]; rewrite !join_eq;
    cbn [configparser.assign configparser._sections configparser._defaults];
    rewrite !fmap_insert; reflexivity.
Qed.

Lemma setitem_same {V : Type} (self : configparser.RawConfigParser V)
    (cur : configparser.dict_ref) (o : string) (v : V) :
  configparser.deref self cur !! o = Some v ->
  configparser.setitem self cur o v = self.
Proof.
  intros Hv. unfold configparser.setitem. rewrite (insert_id _ _ _ Hv).
  destruct self as [S D], cur as [|name]; cbn in *; [reflexivity|].
  destruct (S !! name) as [d|] eqn:Hd; cbn in *.
  - rewrite (insert_id _ _ _ Hd). reflexivity.
  - rewrite lookup_empty in Hv. discriminate.
Qed.

Lemma join_append self (cur : configparser.dict_ref) (o : string)
    (l : list string) :
  configparser.deref self cur !! o = Some (configparser.List l) ->
  configparser._join_multiline_values
    (configparser.setitem self cur o (configparser.List (l ++ [""])))
  = configparser._join_multiline_values self.
Proof.
  intros Hl. rewrite join_setitem, joined_blank.
  apply setitem_same. rewrite join_deref, lookup_fmap, Hl. reflexivity.
Qed.

Lemma join_has_section self (name : string) :
  configparser.has_section self name
  = configparser.has_section (configparser._join_multiline_values self) name.
Proof.
  unfold configparser.has_section. rewrite join_eq.
  cbn [configparser._sections]. rewrite lookup_fmap.
  destruct (configparser._sections self !! name); reflexivity.
Qed.

(** ** The manifest, one line after the other *)

Lemma is_comment_nl (line : string) : is_comment (line ++ nl) = is_comment line.
Proof. unfold is_comment. rewrite strip_app_nl. reflexivity. Qed.

Lemma step_ignorable (fpname : string) sections st (lineno : nat)
    (line : string) :
  reads_as sections st ->
  ignorable line = true ->
  exists st',
    configparser._read_line fpname st (lineno, line ++ nl) = Return st'
    /\ reads_as sections st'.
Proof.
  intros Hst Hline. unfold ignorable in Hline.
  apply andb_prop in Hline. destruct Hline as [_ Hline].
  destruct (is_comment line) eqn:Hcomment.
  - exists st. split; [|assumption].
    apply read_line_comment. rewrite is_comment_nl. assumption.
  - rewrite orb_false_r in Hline. apply negb_true_iff in Hline.
    destruct st as [self loc].
    rewrite read_line_blank
      by (rewrite ?is_comment_nl, ?strip_app_nl; assumption).
    destruct (configparser.cursect loc) as [cur|] eqn:Hcur; [|eauto].
    destruct (configparser.truthy_opt (configparser.optname loc)) eqn:Ht;
      [|eauto].
    destruct Hst as (Hview & Hok & Hrest).
    destruct (configparser.optname loc) as [o|] eqn:Ho; [|discriminate].
    destruct (Hok o Ho Ht) as (cur' & l & Hcur' & Hl).
    cbn [fst snd] in Hcur', Hl.
    assert (cur' = cur) as -> by congruence.
    cbn [default]. unfold id. rewrite (append_found _ _ _ "" _ Hl).
    eexists. split; [reflexivity|].
    split; [|split].
    + cbn [fst]. rewrite (join_append _ _ _ _ Hl). exact Hview.
    + intros o' Ho' _. cbn [fst snd] in *.
      assert (o' = o) as -> by congruence.
      exists cur, (l ++ [""])%list. split; [assumption|apply deref_setitem].
    + exact Hrest.
Qed.

Lemma existsb_eqb_elem_of (x : string) (l : list string) :
  existsb (String.eqb x) l = false -> x ∉ l.
Proof.
  induction l as [|y l IH]; simpl; intros H.
  - apply not_elem_of_nil.
  - apply orb_false_elim in H. destruct H as [Hy Hl].
    apply not_elem_of_cons. split; [|apply IH; exact Hl].
    intros ->. rewrite String.eqb_refl in Hy. discriminate.
Qed.

Lemma distinct_NoDup (l : list string) : distinct l = true -> NoDup l.
Proof.
  induction l as [|x l IH]; simpl; intros H; [constructor|].
  apply andb_prop in H. destruct H as [Hx Hl].
  apply negb_true_iff in Hx.
  constructor; [apply existsb_eqb_elem_of; exact Hx|apply IH; exact Hl].
Qed.

Lemma assignments_app (es es' : list entry) :
  assignments (es ++ es') = (assignments es ++ assignments es')%list.
Proof. apply flat_map_app. Qed.

Lemma config_of_names (sections : list (string * list entry)) :
  (map (fun s : string * list entry => (s.1, options_of s.2)) sections).*1
  = sections.*1.
Proof.
  induction sections as [|s sections IH]; simpl; [reflexivity|].
  f_equal. exact IH.
Qed.

Lemma config_of_snoc (sections : list (string * list entry)) (name : string)
    (es : list entry) :
  name ∉ sections.*1 ->
  config_of (sections ++ [(name, es)])
  = configparser.mkParser
      (<[name := options_of es]> (configparser._sections (config_of sections)))
      ∅.
Proof.
  intros Hname. unfold config_of. rewrite map_app. cbn [map fst snd].
  rewrite list_to_map_snoc by (rewrite config_of_names; exact Hname).
  reflexivity.
Qed.

Lemma config_of_fresh (sections : list (string * list entry)) (name : string) :
  name ∉ sections.*1 ->
  configparser._sections (config_of sections) !! name = None.
Proof.
  intros Hname. unfold config_of. cbn [configparser._sections].
  apply not_elem_of_list_to_map_1. rewrite config_of_names. exact Hname.
Qed.

Lemma added_snoc (sections : list (string * list entry)) (name : string)
    (es : list entry) :
  added (sections ++ [(name, es)])
  = added sections
    ∪ ({[inl name]}
       ∪ list_to_set (map (fun kv : string * string => inr (Some name, kv.1))
                        (assignments es))).
Proof.
  unfold added. rewrite flat_map_app, list_to_set_app_L.
  cbn [flat_map fst snd]. rewrite app_nil_r. reflexivity.
Qed.

(** An option is recorded under the name of its section. *)
Lemma added_option (sections : list (string * list entry))
    (name key : string) :
  inr (Some name, key) ∈ added sections -> name ∈ sections.*1.
Proof.
  induction sections as [|s sections IH] using rev_ind.
  - unfold added. simpl. intros H. apply elem_of_empty in H. destruct H.
  - destruct s as [name' es]. rewrite added_snoc, fmap_app.
    rewrite !elem_of_union, elem_of_app, elem_of_singleton.
    intros [H|[H|H]].
    + left. apply IH. exact H.
    + discriminate.
    + right. apply elem_of_list_to_set, list_elem_of_fmap in H.
      destruct H as (kv & [= -> _] & _). apply list_elem_of_singleton.
      reflexivity.
Qed.

Lemma added_snoc_option (sections : list (string * list entry))
    (name key : string) (es : list entry) :
  name ∉ sections.*1 ->
  key ∉ (assignments es).*1 ->
  inr (Some name, key) ∉ added (sections ++ [(name, es)]).
Proof.
  intros Hname Hkey. rewrite added_snoc.
  rewrite !not_elem_of_union. split; [|split].
  - intros H. apply Hname. eapply added_option. exact H.
  - intros H. apply elem_of_singleton in H. discriminate.
  - intros H. apply elem_of_list_to_set, list_elem_of_fmap in H.
    destruct H as (kv & [= ->] & Hkv). apply Hkey.
    apply list_elem_of_fmap. exists kv. split; [reflexivity|exact Hkv].
Qed.

Lemma step_header (fpname : string) sections st (lineno : nat)
    (name : string) :
  reads_as sections st ->
  name_ok name = true ->
  name ∉ sections.*1 ->
  exists st',
    configparser._read_line fpname st (lineno, ("[" ++ name ++ "]") ++ nl)
    = Return st'
    /\ reads_as (sections ++ [(name, [])]) st'.
Proof.
  intros Hst Hok Hname. destruct st as [self loc].
  unfold name_ok in Hok. apply andb_prop in Hok. destruct Hok as [Hok Hdefault].
  apply andb_prop in Hok. destruct Hok as [Htruthy _].
  apply negb_true_iff in Hdefault.
  destruct (header_line name Htruthy)
    as (Hstrip & Hcomment & Hvalue & Hindent & Hsect).
  rewrite (read_line_margin _ _ _ _ _ Hcomment Hvalue Hindent), Hstrip.
  destruct Hst as (Hview & Hreader & Hadded & Hcur & Hsectname & He).
  cbn [fst snd] in *.
  unfold configparser._read_header. rewrite Hsect. cbv zeta.
  rewrite join_has_section, Hview. unfold configparser.has_section.
  rewrite (config_of_fresh _ _ Hname).
  change (bool_decide (is_Some None)) with false. cbv iota.
  unfold configparser.default_section. rewrite Hdefault.
  eexists. split; [reflexivity|].
  unfold reads_as. cbn [fst snd configparser.elements_added
    configparser.cursect configparser.sectname configparser.e
    configparser.optname].
  rewrite last_snoc. cbn [fmap option_fmap option_map fst].
  split; [|split; [|split; [|split; [|split]]]]; try reflexivity.
  - rewrite (config_of_snoc _ _ _ Hname), <- Hview, !join_eq.
    cbn [configparser._sections configparser._defaults].
    rewrite fmap_insert, fmap_empty.
    rewrite join_eq in Hview. unfold config_of in Hview.
    injection Hview as _ Hdefaults. rewrite Hdefaults. reflexivity.
  - intros o Ho. discriminate.
  - rewrite added_snoc, Hadded. cbn [assignments flat_map map list_to_set].
    rewrite (right_id_L ∅ (∪)). apply (comm_L (∪)).
  - exact He.
Qed.

Lemma step_assign (fpname : string) sections (name : string)
    (es : list entry) st (lineno : nat) (key value : string) :
  reads_as (sections ++ [(name, es)]) st ->
  name ∉ sections.*1 ->
  key_ok key = true ->
  configparser.optionxform key ∉ (assignments es).*1 ->
  exists st',
    configparser._read_line fpname st (lineno, (key ++ " = " ++ value) ++ nl)
    = Return st'
    /\ reads_as (sections ++ [(name, (es ++ [assign key value])%list)]) st'.
Proof.
  intros Hst Hname Hkey Hfresh. destruct st as [self loc].
  destruct (assign_line key value Hkey)
    as (Hcomment & Hvalue & Hindent & Hsect & Hopt).
  rewrite (read_line_margin _ _ _ _ _ Hcomment Hvalue Hindent).
  destruct Hst as (Hview & Hreader & Hadded & Hcur & Hsectname & He).
  cbn [fst snd] in *. rewrite last_snoc in Hcur, Hsectname.
  cbn [fmap option_fmap option_map fst] in Hcur, Hsectname.
  unfold configparser._read_header. rewrite Hsect, Hcur, Hopt. cbv zeta.
  assert (Hchars : all_chars key_char key = true).
  { destruct key; [discriminate|]. unfold key_ok in Hkey.
    apply andb_prop in Hkey. destruct Hkey as [Hkey _].
    apply andb_prop in Hkey. destruct Hkey as [Hkey _].
    apply andb_prop in Hkey. apply Hkey. }
  assert (Htruthy : configparser.truthy key = true)
    by (destruct key; [discriminate|reflexivity]).
  rewrite Htruthy. cbn [negb].
  rewrite (rstrip_all_nonspace key)
    by (eapply all_chars_impl; [apply key_char_nonspace|exact Hchars]).
  rewrite Hsectname, Hadded.
  rewrite bool_decide_eq_false_2
    by (apply added_snoc_option; assumption).
  rewrite strip_idem.
  eexists. split; [reflexivity|].
  unfold reads_as. cbn [fst snd configparser.elements_added
    configparser.cursect configparser.sectname configparser.e
    configparser.optname].
  rewrite last_snoc. cbn [fmap option_fmap option_map fst].
  split; [|split; [|split; [|split; [|split]]]]; try assumption;
    try reflexivity.
  - rewrite join_setitem, Hview.
    rewrite !(config_of_snoc _ _ _ Hname).
    unfold configparser.setitem.
    cbn [configparser.deref configparser.assign configparser._sections
         configparser._defaults].
    rewrite lookup_insert_eq. cbn [default]. unfold id.
    rewrite insert_insert_eq.
    unfold options_of at 2. rewrite assignments_app.
    cbn [assignments flat_map]. rewrite app_nil_r.
    rewrite (list_to_map_snoc _ _ _ Hfresh).
    unfold joined. cbn [PyStr.join]. rewrite rstrip_strip. reflexivity.
  - intros o Ho _. cbn [snd configparser.optname] in Ho.
    injection Ho as <-. cbn [fst snd configparser.cursect].
    eexists _, _. split; [reflexivity|apply deref_setitem].
  - rewrite !added_snoc, assignments_app. cbn [assignments flat_map].
    rewrite app_nil_r, map_app, list_to_set_app_L.
    cbn [map list_to_set fst]. rewrite (right_id_L ∅ (∪)).
    rewrite (comm_L (∪) {[inr (Some name, configparser.optionxform key)]}).
    rewrite <- !(assoc_L (∪)). reflexivity.
Qed.

Lemma reads_as_ignored sections (name : string) (es : list entry) st
    (line : string) :
  reads_as (sections ++ [(name, es)]) st ->
  reads_as (sections ++ [(name, (es ++ [ignored line])%list)]) st.
Proof.
  unfold reads_as, config_of, added.
  rewrite !map_app, !flat_map_app, !last_snoc.
  cbn [map flat_map fst snd]. unfold options_of.
  rewrite assignments_app. cbn [assignments flat_map].
  rewrite !app_nil_r. tauto.
Qed.

Lemma for_each_app {S A : Type} (body : S -> A -> result S) (l1 l2 : list A)
    (s : S) :
  configparser.for_each body (l1 ++ l2) s
  = (s' ← configparser.for_each body l1 s; configparser.for_each body l2 s').
Proof.
  revert s. induction l1 as [|x l1 IH]; intros s; [reflexivity|].
  cbn [app configparser.for_each].
  destruct (body s x) as [s1|err]; [apply IH|reflexivity].
Qed.

Lemma numbered_app (start : nat) (l1 l2 : list string) :
  numbered start (l1 ++ l2)
  = (numbered start l1 ++ numbered (start + length l1) l2)%list.
Proof.
  unfold numbered. revert start.
  induction l1 as [|x l1 IH]; intros start; cbn [map app enumerate length].
  - rewrite Nat.add_0_r. reflexivity.
  - rewrite IH. rewrite <- Nat.add_succ_comm. reflexivity.
Qed.

Lemma numbered_cons (start : nat) (line : string) (lines : list string) :
  numbered start (line :: lines)
  = (start, line ++ nl) :: numbered (S start) lines.
Proof. reflexivity. Qed.

Lemma read_ignorable (fpname : string) (lines : list string) sections st
    (start : nat) :
  reads_as sections st ->
  forallb ignorable lines = true ->
  exists st',
    configparser.for_each (configparser._read_line fpname)
      (numbered start lines) st = Return st'
    /\ reads_as sections st'.
Proof.
  revert st start. induction lines as [|line lines IH]; intros st start Hst Hok.
  - exists st. split; [reflexivity|assumption].
  - cbn [forallb] in Hok. apply andb_prop in Hok. destruct Hok as [Hline Hok].
    destruct (step_ignorable fpname sections st start line Hst Hline)
      as (st1 & Hstep & Hst1).
    destruct (IH st1 (S start) Hst1 Hok) as (st' & Hloop & Hst').
    exists st'. split; [|assumption].
    unfold numbered in *. cbn [map enumerate configparser.for_each].
    rewrite Hstep. exact Hloop.
Qed.

Lemma read_entries (fpname : string) sections (name : string)
    (es' es : list entry) st (start : nat) :
  reads_as (sections ++ [(name, es)]) st ->
  name ∉ sections.*1 ->
  forallb entry_ok es' = true ->
  NoDup (assignments (es ++ es')).*1 ->
  exists st',
    configparser.for_each (configparser._read_line fpname)
      (numbered start (map entry_line es')) st = Return st'
    /\ reads_as (sections ++ [(name, (es ++ es')%list)]) st'.
Proof.
  revert es st start.
  induction es' as [|en es' IH]; intros es st start Hst Hname Hok Hkeys.
  - exists st. split; [reflexivity|]. rewrite app_nil_r. assumption.
  - cbn [forallb] in Hok. apply andb_prop in Hok. destruct Hok as [Hen Hok].
    replace (es ++ en :: es')%list with ((es ++ [en]) ++ es')%list in *
      by (rewrite <- app_assoc; reflexivity).
    assert (exists st1,
               configparser._read_line fpname st (start, entry_line en ++ nl)
               = Return st1
               /\ reads_as (sections ++ [(name, (es ++ [en])%list)]) st1)
      as (st1 & Hstep & Hst1).
    { destruct en as [key value|line]; cbn [entry_ok entry_line] in *.
      - apply andb_prop in Hen. destruct Hen as [Hkey _].
        apply step_assign; try assumption.
        rewrite !assignments_app, !fmap_app in Hkeys.
        apply NoDup_app in Hkeys. destruct Hkeys as (Hkeys & _ & _).
        apply NoDup_app in Hkeys. destruct Hkeys as (_ & Hkeys & _).
        intros Hin. apply (Hkeys _ Hin). cbn. apply list_elem_of_here.
      - destruct (step_ignorable fpname _ st start line Hst Hen)
          as (st1 & Hstep & Hst1).
        exists st1. split; [assumption|].
        apply reads_as_ignored. assumption. }
    destruct (IH _ st1 (S start) Hst1 Hname Hok Hkeys) as (st' & Hloop & Hst').
    exists st'. split; [|assumption].
    unfold numbered in *. cbn [map enumerate configparser.for_each].
    rewrite Hstep. exact Hloop.
Qed.

Lemma section_ok_parts (s : string * list entry) :
  section_ok s = true ->
  name_ok s.1 = true /\ forallb entry_ok s.2 = true
  /\ NoDup (assignments s.2).*1.
Proof.
  unfold section_ok. intros H.
  apply andb_prop in H. destruct H as [H Hkeys].
  apply andb_prop in H. destruct H as [Hname Hentries].
  auto using distinct_NoDup.
Qed.

Lemma read_sections (fpname : string) (rest sections : list (string * list entry))
    st (start : nat) :
  reads_as sections st ->
  forallb section_ok rest = true ->
  NoDup ((sections ++ rest)%list).*1 ->
  exists st',
    configparser.for_each (configparser._read_line fpname)
      (numbered start (flat_map section_lines rest)) st = Return st'
    /\ reads_as (sections ++ rest) st'.
Proof.
  revert sections st start.
  induction rest as [|[name es] rest IH]; intros sections st start Hst Hok Hnames.
  - exists st. split; [reflexivity|]. rewrite app_nil_r. assumption.
  - cbn [forallb] in Hok. apply andb_prop in Hok. destruct Hok as [Hs Hok].
    apply section_ok_parts in Hs. cbn [fst snd] in Hs.
    destruct Hs as (Hname & Hentries & Hkeys).
    replace (sections ++ (name, es) :: rest)%list
      with ((sections ++ [(name, es)]) ++ rest)%list in *
      by (rewrite <- app_assoc; reflexivity).
    assert (Hfresh : name ∉ sections.*1).
    { rewrite !fmap_app in Hnames.
      apply NoDup_app in Hnames. destruct Hnames as (Hnames & _ & _).
      apply NoDup_app in Hnames. destruct Hnames as (_ & Hnames & _).
      intros Hin. apply (Hnames _ Hin). cbn. apply list_elem_of_here. }
    destruct (step_header fpname sections st start name Hst Hname Hfresh)
      as (st1 & Hstep & Hst1).
    destruct (read_entries fpname sections name es [] st1 (S start) Hst1 Hfresh
                Hentries Hkeys) as (st2 & Hbody & Hst2).
    cbn [app] in Hst2.
    destruct (IH _ st2 (S start + length (map entry_line es)) Hst2 Hok Hnames)
      as (st' & Hloop & Hst').
    exists st'. split; [|assumption].
    change (flat_map section_lines ((name, es) :: rest))
      with ((("[" ++ name ++ "]")%string :: map entry_line es)
            ++ flat_map section_lines rest)%list.
    rewrite <- app_comm_cons, numbered_cons.
    cbn [configparser.for_each]. rewrite Hstep.
    unfold mbind at 1, result_bind.
    rewrite numbered_app, for_each_app, Hbody. exact Hloop.
Qed.

Lemma reads_as_fresh : reads_as [] fresh_reader.
Proof.
  unfold reads_as, fresh_reader.
  split; [|split; [|repeat split]].
  - cbn [fst]. rewrite join_eq.
    cbn [configparser._sections configparser._defaults].
    rewrite !fmap_empty. reflexivity.
  - intros o Ho. discriminate.
Qed.

Lemma manifest_ok_parts (preamble : list string)
    (sections : list (string * list entry)) :
  manifest_ok preamble sections = true ->
  forallb ignorable preamble = true /\ forallb section_ok sections = true
  /\ NoDup sections.*1.
Proof.
  unfold manifest_ok. intros H.
  apply andb_prop in H. destruct H as [H Hnames].
  apply andb_prop in H. destruct H as [Hpre Hsections].
  auto using distinct_NoDup.
Qed.

(** The lines of a manifest bring [_read] from its first state to the
    state that holds what the manifest means. *)
Lemma read_manifest_lines (fpname : string) (preamble : list string)
    (sections : list (string * list entry)) :
  manifest_ok preamble sections = true ->
  exists st',
    configparser.for_each (configparser._read_line fpname)
      (numbered 1 (manifest_lines preamble sections)) fresh_reader
    = Return st'
    /\ reads_as sections st'.
Proof.
  intros Hok. apply manifest_ok_parts in Hok.
  destruct Hok as (Hpre & Hsections & Hnames).
  destruct (read_ignorable fpname preamble [] fresh_reader 1 reads_as_fresh Hpre)
    as (st1 & Hloop1 & Hst1).
  destruct (read_sections fpname sections [] st1 (1 + length preamble) Hst1
              Hsections Hnames) as (st' & Hloop2 & Hst').
  exists st'. split; [|assumption].
  unfold manifest_lines. rewrite numbered_app, for_each_app, Hloop1.
  exact Hloop2.
Qed.

(** ** The text of a manifest, read *)

Lemma one_line_app (s t : string) :
  one_line (s ++ t) = one_line s && one_line t.
Proof.
  unfold one_line. rewrite !contains_app.
  destruct (PyStr.contains LF s), (PyStr.contains LF t),
    (PyStr.contains CR s), (PyStr.contains CR t); reflexivity.
Qed.

Lemma key_char_one_line (c : ascii) :
  key_char c = true -> one_line (String c "") = true.
Proof.
  destruct c as [[] [] [] [] [] [] [] []]; try reflexivity; discriminate.
Qed.

Lemma key_one_line (key : string) :
  all_chars key_char key = true -> one_line key = true.
Proof.
  induction key as [|c key IH]; [reflexivity|].
  cbn [all_chars]. intros H. apply andb_prop in H. destruct H as [Hc Hkey].
  change (String c key) with (String c "" ++ key).
  rewrite one_line_app, (key_char_one_line c Hc), (IH Hkey). reflexivity.
Qed.

Lemma entry_one_line (en : entry) :
  entry_ok en = true -> one_line (entry_line en) = true.
Proof.
  destruct en as [key value|line]; cbn [entry_ok entry_line].
  - intros H. apply andb_prop in H. destruct H as [Hkey Hvalue].
    rewrite !one_line_app, Hvalue.
    destruct key as [|c key']; [discriminate|]. unfold key_ok in Hkey.
    apply andb_prop in Hkey. destruct Hkey as [Hkey _].
    apply andb_prop in Hkey. destruct Hkey as [Hkey _].
    apply andb_prop in Hkey. destruct Hkey as [Hkey _].
    rewrite (key_one_line _ Hkey). reflexivity.
  - unfold ignorable. intros H. apply andb_prop in H. apply H.
Qed.

Lemma header_one_line (name : string) :
  name_ok name = true -> one_line ("[" ++ name ++ "]") = true.
Proof.
  unfold name_ok. intros H. apply andb_prop in H. destruct H as [H _].
  apply andb_prop in H. destruct H as [_ H].
  rewrite !one_line_app, H. reflexivity.
Qed.

Lemma section_one_line (s : string * list entry) :
  section_ok s = true -> forallb one_line (section_lines s) = true.
Proof.
  intros H. apply section_ok_parts in H. destruct H as (Hname & Hentries & _).
  unfold section_lines. cbn [forallb].
  rewrite (header_one_line _ Hname). cbn [andb].
  induction (s.2) as [|en es IH]; [reflexivity|].
  cbn [forallb map] in *. apply andb_prop in Hentries.
  destruct Hentries as [Hen Hes].
  rewrite (entry_one_line _ Hen), (IH Hes). reflexivity.
Qed.

Lemma manifest_one_line (preamble : list string)
    (sections : list (string * list entry)) :
  manifest_ok preamble sections = true ->
  forallb one_line (manifest_lines preamble sections) = true.
Proof.
  unfold manifest_ok, manifest_lines. intros H.
  apply andb_prop in H. destruct H as [H _].
  apply andb_prop in H. destruct H as [Hpre Hsections].
  rewrite forallb_app. apply andb_true_intro. split.
  - clear Hsections. induction preamble as [|line preamble IH]; [reflexivity|].
    cbn [forallb] in *. apply andb_prop in Hpre. destruct Hpre as [Hline Hpre].
    rewrite (IH Hpre), andb_true_r.
    unfold ignorable in Hline. apply andb_prop in Hline. apply Hline.
  - clear Hpre. induction sections as [|s sections IH]; [reflexivity|].
    cbn [forallb flat_map] in *. apply andb_prop in Hsections.
    destruct Hsections as [Hs Hsections].
    rewrite forallb_app, (section_one_line _ Hs), (IH Hsections). reflexivity.
Qed.

(** [_read] on the parser of [get_version], by the loop over the
    lines. *)
Lemma parse_unlines (lines : list string) :
  forallb one_line lines = true ->
  parse (unlines lines)
  = (st ← configparser.for_each (configparser._read_line CONFIG_FILE)
            (numbered 1 lines) fresh_reader;
     match configparser.e st.2 with
     | Some errors => Raise (ParsingError CONFIG_FILE errors)
     | None => Return (configparser._join_multiline_values st.1)
     end).
Proof.
  intros Hlines. unfold parse. cbn [reader].
  rewrite (readlines_unlines _ Hlines).
  unfold configparser._read, configparser.ConfigParser.
  cbn [configparser._sections configparser._defaults io_lines io_error].
  rewrite !fmap_empty. reflexivity.
Qed.

Lemma parse_render (preamble : list string)
    (sections : list (string * list entry)) :
  manifest_ok preamble sections = true ->
  parse (render preamble sections) = Return (config_of sections).
Proof.
  intros Hok. unfold render.
  rewrite (parse_unlines _ (manifest_one_line _ _ Hok)).
  destruct (read_manifest_lines CONFIG_FILE preamble sections Hok)
    as (st' & -> & Hview & _ & _ & _ & _ & He).
  unfold mbind, result_bind. rewrite He, Hview. reflexivity.
Qed.

Lemma get_version_text (p : string) (w : world) (text : string) :
  files w !! CONFIG_FILE = Some (text_file text) ->
  get_version p w
  = (match parse text with
     | Return config => package_version config
     | Raise err => Raise err
     end, w).
Proof.
  intros Hfile. rewrite get_version_eq, Hfile. fold (parse text).
  destruct (parse text); reflexivity.
Qed.

Lemma section_ok_In (sections : list (string * list entry))
    (s : string * list entry) :
  forallb section_ok sections = true -> In s sections -> section_ok s = true.
Proof. intros Hok Hin. eapply forallb_forall in Hok; eassumption. Qed.

Lemma assignments_In (es : list entry) (key value : string) :
  In (assign key value) es ->
  (configparser.optionxform key, PyStr.strip value) ∈ assignments es.
Proof.
  intros Hin. apply list_elem_of_In. unfold assignments.
  apply in_flat_map. exists (assign key value). split; [assumption|].
  left. reflexivity.
Qed.

(** The options of a section of the manifest, in what the manifest
    means. *)
Lemma config_of_In (sections : list (string * list entry)) (name : string)
    (es : list entry) :
  NoDup sections.*1 ->
  In (name, es) sections ->
  configparser._sections (config_of sections) !! name = Some (options_of es).
Proof.
  intros Hnames Hin. unfold config_of. cbn [configparser._sections].
  apply elem_of_list_to_map_1; [rewrite config_of_names; assumption|].
  apply list_elem_of_In, in_map_iff. exists (name, es). auto.
Qed.

Lemma contains_strip (c : ascii) (s : string) :
  PyStr.contains c s = false -> PyStr.contains c (PyStr.strip s) = false.
Proof. intros H. apply contains_rstrip, contains_lstrip, H. Qed.

Lemma get_version_rendered (p : string) (w : world)
    (preamble : list string) (sections : list (string * list entry))
    (es : list entry) (key value : string) :
  manifest_ok preamble sections = true ->
  files w !! CONFIG_FILE = Some (text_file (render preamble sections)) ->
  In ("package", es) sections ->
  In (assign key value) es ->
  PyStr.lower key = "version" ->
  PyStr.contains "%" value = false ->
  get_version p w = (Return (PyStr.strip value), w).
Proof.
  intros Hok Hfile Hsection Hentry Hkey Hpercent.
  rewrite (get_version_text p w _ Hfile), (parse_render _ _ Hok).
  f_equal.
  apply manifest_ok_parts in Hok. destruct Hok as (_ & Hsections & Hnames).
  apply (package_version_raw _ (options_of es)).
  - apply config_of_In; assumption.
  - unfold options_of. apply elem_of_list_to_map_1.
    + pose proof (section_ok_In _ _ Hsections Hsection) as Hs.
      apply section_ok_parts in Hs. apply Hs.
    + rewrite <- Hkey. apply assignments_In. assumption.
  - apply contains_strip. assumption.
Qed.

(** ** A section or an option that comes twice *)

Lemma added_name (sections : list (string * list entry)) (name : string) :
  name ∈ sections.*1 -> inl name ∈ added sections.
Proof.
  induction sections as [|[name' es] sections IH] using rev_ind.
  - intros H. apply elem_of_nil in H. destruct H.
  - rewrite added_snoc, fmap_app, elem_of_app, !elem_of_union.
    intros [H|H]; [left; apply IH; exact H|].
    right. left. apply list_elem_of_singleton in H. subst.
    apply elem_of_singleton. reflexivity.
Qed.

Lemma added_key (sections : list (string * list entry)) (name key : string)
    (es : list entry) :
  key ∈ (assignments es).*1 ->
  inr (Some name, key) ∈ added (sections ++ [(name, es)]).
Proof.
  intros Hkey. rewrite added_snoc, !elem_of_union. right. right.
  apply elem_of_list_to_set. apply list_elem_of_fmap in Hkey.
  destruct Hkey as (kv & -> & Hkv).
  apply list_elem_of_fmap. exists kv. split; [reflexivity|exact Hkv].
Qed.

Lemma config_of_has_section (sections : list (string * list entry))
    (name : string) :
  name ∈ sections.*1 ->
  configparser.has_section (config_of sections) name = true.
Proof.
  intros Hname. unfold configparser.has_section, config_of.
  cbn [configparser._sections]. apply bool_decide_eq_true_2.
  apply not_eq_None_Some. intros Hnone.
  apply not_elem_of_list_to_map in Hnone.
  rewrite config_of_names in Hnone. contradiction.
Qed.

Lemma step_header_twice (fpname : string) sections st (lineno : nat)
    (name : string) :
  reads_as sections st ->
  configparser.truthy name = true ->
  name ∈ sections.*1 ->
  configparser._read_line fpname st (lineno, ("[" ++ name ++ "]") ++ nl)
  = Raise (DuplicateSectionError name fpname lineno).
Proof.
  intros Hst Htruthy Hname. destruct st as [self loc].
  destruct (header_line name Htruthy)
    as (Hstrip & Hcomment & Hvalue & Hindent & Hsect).
  rewrite (read_line_margin _ _ _ _ _ Hcomment Hvalue Hindent), Hstrip.
  destruct Hst as (Hview & _ & Hadded & _). cbn [fst snd] in *.
  unfold configparser._read_header. rewrite Hsect. cbv zeta.
  rewrite join_has_section, Hview, (config_of_has_section _ _ Hname), Hadded.
  rewrite bool_decide_eq_true_2 by (apply added_name; exact Hname).
  reflexivity.
Qed.

Lemma step_assign_twice (fpname : string) sections (name : string)
    (es : list entry) st (lineno : nat) (key value : string) :
  reads_as (sections ++ [(name, es)]) st ->
  key_ok key = true ->
  configparser.optionxform key ∈ (assignments es).*1 ->
  configparser._read_line fpname st (lineno, (key ++ " = " ++ value) ++ nl)
  = Raise (DuplicateOptionError (Some name) (configparser.optionxform key)
             fpname lineno).
Proof.
  intros Hst Hkey Hin. destruct st as [self loc].
  destruct (assign_line key value Hkey)
    as (Hcomment & Hvalue & Hindent & Hsect & Hopt).
  rewrite (read_line_margin _ _ _ _ _ Hcomment Hvalue Hindent).
  destruct Hst as (_ & _ & Hadded & Hcur & Hsectname & _).
  cbn [fst snd] in *. rewrite last_snoc in Hcur, Hsectname.
  cbn [fmap option_fmap option_map fst] in Hcur, Hsectname.
  unfold configparser._read_header. rewrite Hsect, Hcur, Hopt. cbv zeta.
  assert (Hchars : all_chars key_char key = true).
  { destruct key; [discriminate|]. unfold key_ok in Hkey.
    apply andb_prop in Hkey. destruct Hkey as [Hkey _].
    apply andb_prop in Hkey. destruct Hkey as [Hkey _].
    apply andb_prop in Hkey. apply Hkey. }
  rewrite (rstrip_all_nonspace key)
    by (eapply all_chars_impl; [apply key_char_nonspace|exact Hchars]).
  rewrite Hsectname, Hadded.
  rewrite bool_decide_eq_true_2 by (apply added_key; exact Hin).
  reflexivity.
Qed.

(** The parser stops at the line that raises: what follows is not
    read. *)
Lemma parse_raises_at (before after : list string) (line : string)
    (st : configparser.RawConfigParser configparser.str_or_list
          * configparser.locals) (err : exn) :
  forallb one_line (before ++ line :: after) = true ->
  configparser.for_each (configparser._read_line CONFIG_FILE)
    (numbered 1 before) fresh_reader = Return st ->
  configparser._read_line CONFIG_FILE st (S (length before), line ++ nl)
  = Raise err ->
  parse (unlines (before ++ line :: after)) = Raise err.
Proof.
  intros Hlines Hbefore Hline.
  rewrite (parse_unlines _ Hlines), numbered_app, for_each_app, Hbefore.
  unfold mbind at 2, result_bind. rewrite numbered_cons.
  cbn [configparser.for_each]. change (1 + length before) with (S (length before)).
  rewrite Hline. reflexivity.
Qed.

Lemma name_ok_In (sections : list (string * list entry)) (name : string) :
  forallb section_ok sections = true -> In name sections.*1 ->
  name_ok name = true.
Proof.
  intros Hok Hin. apply in_map_iff in Hin. destruct Hin as (s & <- & Hin).
  pose proof (section_ok_In _ _ Hok Hin) as Hs.
  apply section_ok_parts in Hs. apply Hs.
Qed.

(** ** What [_read] does not look at

    The number of a line and the characters after its last character
    that is not white space go into the messages of the exceptions and
    nowhere else. *)

Lemma handle_error_Some exc (lineno : nat) (line : string) :
  configparser._handle_error exc lineno line <> None.
Proof. destruct exc; discriminate. Qed.

Lemma read_header_agree (fpname : string) (lineno1 lineno2 : nat)
    (line1 line2 value : string) (lvl : nat) self loc1 loc2 :
  same_but_errors (self, loc1) (self, loc2) ->
  agree same_but_errors
    (configparser._read_header fpname lineno1 line1 value lvl self loc1)
    (configparser._read_header fpname lineno2 line2 value lvl self loc2).
Proof.
  intros (_ & Hadded & Hcur & Hsect & Hopt & Hlvl & He). cbn [fst snd] in *.
  unfold configparser._read_header.
  rewrite <- Hadded, <- Hcur, <- Hsect, <- Hopt.
  destruct (configparser.SECTCRE_match value) as [header|].
  - destruct (configparser.has_section self header).
    + destruct (bool_decide _); [exact I|].
      repeat split; cbn; tauto.
    + destruct (String.eqb _ _); repeat split; cbn; tauto.
  - destruct (configparser.cursect loc1) as [cur|]; [|exact I].
    destruct (configparser.OPTCRE_match value) as [[o v]|].
    + cbv zeta. destruct (bool_decide _); [exact I|].
      repeat split; cbn [fst snd configparser.e];
        destruct (negb (configparser.truthy o)); try tauto;
        intros H; exfalso; eapply handle_error_Some; exact H.
    + repeat split; cbn [fst snd configparser.e];
        intros H; exfalso; eapply handle_error_Some; exact H.
Qed.

Lemma same_but_errors_self self self' loc1 loc2 :
  same_but_errors (self, loc1) (self, loc2) ->
  same_but_errors (self', loc1) (self', loc2).
Proof. intros (_ & H). split; [reflexivity|exact H]. Qed.

Lemma read_line_agree (fpname : string) st1 st2 (lineno1 lineno2 : nat)
    (line1 line2 : string) :
  same_but_errors st1 st2 ->
  same_line line1 line2 ->
  agree same_but_errors
    (configparser._read_line fpname st1 (lineno1, line1))
    (configparser._read_line fpname st2 (lineno2, line2)).
Proof.
  intros Hst [Hstrip Hindent].
  destruct st1 as [self loc1], st2 as [self2 loc2].
  pose proof Hst as (Hself & Hadded & Hcur & Hsect & Hopt & Hlvl & He).
  cbn [fst snd] in *. subst self2.
  unfold configparser._read_line.
  rewrite <- Hstrip, <- Hcur, <- Hopt, <- Hlvl.
  destruct (existsb _ _).
  - rewrite !slice_none. exact Hst.
  - rewrite !slice_all, <- Hstrip.
    destruct (configparser.truthy (PyStr.strip line1)) eqn:Hvalue; cbn [negb].
    + rewrite <- (Hindent eq_refl).
      destruct (configparser.cursect loc1) as [cur|].
      * destruct (_ && _).
        -- destruct (configparser.append _ _ _ _); [|exact I].
           exact (same_but_errors_self _ _ _ _ Hst).
        -- apply read_header_agree. exact Hst.
      * apply read_header_agree. exact Hst.
    + destruct (configparser.cursect loc1) as [cur|]; [|exact Hst].
      destruct (configparser.truthy_opt _); [|exact Hst].
      destruct (configparser.append _ _ _ _); [|exact I].
      exact (same_but_errors_self _ _ _ _ Hst).
Qed.

Lemma same_line_refl (line : string) : same_line line line.
Proof. split; reflexivity. Qed.

Lemma same_but_errors_refl st : same_but_errors st st.
Proof. repeat split; auto. Qed.

Lemma for_each_agree (fpname : string) (lines1 lines2 : list string) :
  Forall2 same_line lines1 lines2 ->
  forall (start1 start2 : nat) st1 st2,
    same_but_errors st1 st2 ->
    agree same_but_errors
      (configparser.for_each (configparser._read_line fpname)
         (enumerate lines1 start1) st1)
      (configparser.for_each (configparser._read_line fpname)
         (enumerate lines2 start2) st2).
Proof.
  induction 1 as [|line1 line2 lines1 lines2 Hline _ IH];
    intros start1 start2 st1 st2 Hst.
  - exact Hst.
  - cbn [enumerate configparser.for_each].
    pose proof (read_line_agree fpname st1 st2 start1 start2 line1 line2 Hst
                  Hline) as Hstep.
    destruct (configparser._read_line fpname st1 (start1, line1)) as [st1'|],
      (configparser._read_line fpname st2 (start2, line2)) as [st2'|];
      try contradiction; [|exact I].
    apply IH. exact Hstep.
Qed.

Lemma parse_lines (text : string) :
  parse text
  = (st ← configparser.for_each (configparser._read_line CONFIG_FILE)
            (enumerate (readlines text) 1) fresh_reader;
     end_of_read CONFIG_FILE st).
Proof.
  unfold parse, configparser._read, configparser.ConfigParser.
  cbn [configparser._sections configparser._defaults reader io_lines
       io_error].
  rewrite !fmap_empty. reflexivity.
Qed.

Lemma end_of_read_agree (fpname : string)
    (r1 r2 : result (configparser.RawConfigParser configparser.str_or_list
                     * configparser.locals)) :
  agree same_but_errors r1 r2 ->
  agree eq (st ← r1; end_of_read fpname st) (st ← r2; end_of_read fpname st).
Proof.
  destruct r1 as [st1|], r2 as [st2|]; try contradiction; [|intros; exact I].
  intros (Hself & _ & _ & _ & _ & _ & He).
  unfold mbind, result_bind, end_of_read. rewrite Hself.
  destruct (configparser.e st1.2), (configparser.e st2.2); try exact I.
  - destruct He as [_ He]. discriminate (He eq_refl).
  - destruct He as [He _]. discriminate (He eq_refl).
  - reflexivity.
Qed.

(** Two manifests that parse alike make the script print and end
    alike. *)
Lemma run_agree (argv : list string) (fs1 fs2 : gmap string file)
    (text1 text2 : string) :
  fs1 !! CONFIG_FILE = Some (text_file text1) ->
  fs2 !! CONFIG_FILE = Some (text_file text2) ->
  agree eq (parse text1) (parse text2) ->
  output (run argv fs1) = output (run argv fs2)
  /\ returncode (run argv fs1) = returncode (run argv fs2).
Proof.
  intros Hfile1 Hfile2 Hparse.
  pose proof (get_version_text CONFIG_FILE (mkWorld fs1 "") _ Hfile1) as Hget1.
  pose proof (get_version_text CONFIG_FILE (mkWorld fs2 "") _ Hfile2) as Hget2.
  destruct (parse text1) as [config1|err1], (parse text2) as [config2|err2];
    try contradiction.
  - cbn in Hparse. subst config2.
    destruct (package_version config1) as [version|err].
    + rewrite (run_returned argv fs1 _ _ _ Hget1),
        (run_returned argv fs2 _ _ _ Hget2).
      split; reflexivity.
    + rewrite (run_raised argv fs1 _ _ _ Hget1),
        (run_raised argv fs2 _ _ _ Hget2).
      split; reflexivity.
  - rewrite (run_raised argv fs1 _ _ _ Hget1),
      (run_raised argv fs2 _ _ _ Hget2).
    split; reflexivity.
Qed.

Lemma search_None_lstrip (line : string) :
  configparser.NONSPACECRE_search line = None -> PyStr.lstrip line = "".
Proof.
  induction line as [|c line IH]; [reflexivity|].
  cbn [configparser.NONSPACECRE_search PyStr.lstrip].
  destruct (PyStr.isspace c); [|discriminate].
  destruct (configparser.NONSPACECRE_search line); [discriminate|].
  intros _. apply IH. reflexivity.
Qed.

Lemma search_app (line rest : string) (k : nat) :
  configparser.NONSPACECRE_search line = Some k ->
  configparser.NONSPACECRE_search (line ++ rest) = Some k.
Proof.
  revert k. induction line as [|c line IH]; intros k; [discriminate|].
  app_cons. cbn [configparser.NONSPACECRE_search].
  destruct (PyStr.isspace c); [|trivial].
  destruct (configparser.NONSPACECRE_search line) as [j|]; [|discriminate].
  rewrite (IH j eq_refl). trivial.
Qed.

(** A line with and without the line feed that ends it. *)
Lemma same_line_nl (line : string) : same_line line (line ++ nl).
Proof.
  split; [symmetry; apply strip_app_nl|]. intros Hvalue.
  destruct (configparser.NONSPACECRE_search line) as [k|] eqn:Hsearch.
  - symmetry. apply search_app. exact Hsearch.
  - apply search_None_lstrip in Hsearch. unfold PyStr.strip in Hvalue.
    rewrite Hsearch in Hvalue. discriminate.
Qed.

Lemma readlines_from_unfinished (lines : list string) (last : string) :
  forallb one_line (lines ++ [last]) = true ->
  configparser.truthy last = true ->
  readlines (unlines lines ++ last)
  = (map (fun line => (line ++ nl)%string) lines ++ [last])%list.
Proof.
  intros Hlines Hlast. unfold readlines.
  induction lines as [|line lines IH].
  - cbn [app forallb] in *. apply andb_prop in Hlines.
    destruct Hlines as [Hline _].
    change (unlines [] ++ last) with last.
    rewrite <- (string_app_nil_r last) at 1.
    rewrite (readlines_from_body _ _ _ Hline).
    destruct last; [discriminate|reflexivity].
  - cbn [app forallb] in Hlines. apply andb_prop in Hlines.
    destruct Hlines as [Hline Hlines].
    change (unlines (line :: lines)) with (line ++ nl ++ unlines lines).
    rewrite !string_app_assoc, (readlines_from_line _ _ _ Hline), (IH Hlines).
    reflexivity.
Qed.

(** ** The first percent sign of a value *)

Lemma find_app (c : ascii) (a t : string) :
  PyStr.contains c a = false ->
  PyStr.find c (a ++ String c t) = Some (String.length a).
Proof.
  induction a as [|d a IH]; app_cons; cbn [PyStr.find String.length].
  - intros _. rewrite Ascii.eqb_refl. reflexivity.
  - intros H. apply contains_cons in H. destruct H as [Hd Ha].
    rewrite Ascii.eqb_sym, Hd, (IH Ha). reflexivity.
Qed.

Lemma find_split (c : ascii) (s : string) (p : nat) :
  PyStr.find c s = Some p ->
  exists a t, s = a ++ String c t /\ PyStr.contains c a = false.
Proof.
  revert p. induction s as [|d s IH]; intros p; [discriminate|].
  cbn [PyStr.find]. destruct (Ascii.eqb_spec c d) as [<-|Hne].
  - intros _. exists "", s. split; reflexivity.
  - destruct (PyStr.find c s) as [q|]; [|discriminate]. intros _.
    destruct (IH q eq_refl) as (a & t & -> & Ha).
    exists (String d a), t. split; [reflexivity|].
    change (PyStr.contains c (String d a))
      with (Ascii.eqb c d || PyStr.contains c a).
    rewrite Ha, orb_false_r. apply Ascii.eqb_neq. exact Hne.
Qed.

Lemma find_None_contains (c : ascii) (s : string) :
  PyStr.find c s = None -> PyStr.contains c s = false.
Proof.
  induction s as [|d s IH]; [reflexivity|].
  cbn [PyStr.find].
  change (PyStr.contains c (String d s))
    with (Ascii.eqb c d || PyStr.contains c s).
  destruct (Ascii.eqb c d); [discriminate|].
  destruct (PyStr.find c s); [discriminate|]. intros _. apply IH. reflexivity.
Qed.

Lemma join_empty_snoc (l : list string) (x : string) :
  PyStr.join "" (l ++ [x]) = PyStr.join "" l ++ x.
Proof. destruct l as [|y l]; [reflexivity|]. apply join_snoc. Qed.

Lemma slice_1_2 (c : ascii) (t : string) :
  PyStr.slice (Some 1%Z) (Some 2%Z) (String c t)
  = match t with EmptyString => "" | String d _ => String d "" end.
Proof.
  unfold PyStr.slice, PyStr.adjust. cbn [String.length].
  destruct t as [|d t]; [reflexivity|]. cbn [String.length].
  change (1 <? 0)%Z with false. change (2 <? 0)%Z with false. cbv iota.
  destruct (Z.leb_spec (Z.of_nat (S (S (String.length t)))) 1); [lia|].
  destruct (Z.leb_spec (Z.of_nat (S (S (String.length t)))) 2) as [Hle|Hlt].
  - replace (Z.of_nat (S (S (String.length t)))) with 2%Z by lia.
    destruct t; reflexivity.
  - destruct t; reflexivity.
Qed.

(** One turn of the loop on a value whose first percent sign comes
    after [a]: [a] is added to the pieces, and the character after the
    percent sign decides. *)
Lemma while_body_percent (opt section rawval : string)
    (map : gmap string string)
    (deeper : list string -> string -> result (list string))
    (accum : list string) (a t : string) :
  PyStr.contains "%" a = false ->
  exists accum1,
    PyStr.join "" accum1 = PyStr.join "" accum ++ a
    /\ configparser.while_body opt section rawval map deeper accum
         (a ++ String "%" t)
       = let rest := String "%" t in
         let c := match t with EmptyString => "" | String d _ => String d "" end in
         if String.eqb c "%" then
           Return (configparser.next_turn (accum1 ++ ["%"]) (PyStr.drop 2 rest))
         else if String.eqb c "(" then
           match configparser._KEYCRE_match rest with
           | None => Raise (InterpolationSyntaxError opt section rest)
           | Some (group1, m_end) =>
               let var := configparser.optionxform group1 in
               let rest := PyStr.drop m_end rest in
               match map !! var with
               | None =>
                   Raise (InterpolationMissingOptionError opt section rawval
                            var)
               | Some v =>
                   if PyStr.contains "%" v then
                     accum ← deeper accum1 v;
                     Return (configparser.next_turn accum rest)
                   else Return (configparser.next_turn (accum1 ++ [v]) rest)
               end
           end
         else Raise (InterpolationSyntaxError opt section rest).
Proof.
  intros Ha. unfold configparser.while_body. rewrite (find_app _ _ _ Ha).
  destruct a as [|d a'].
  - exists accum. split; [rewrite string_app_nil_r; reflexivity|].
    cbn [String.length Nat.ltb Nat.leb]. app_cons. cbv zeta.
    rewrite slice_1_2. reflexivity.
  - set (a := String d a') in *.
    exists (accum ++ [a])%list. split; [apply join_empty_snoc|].
    change (0 <? String.length a)%nat with true. cbv iota zeta.
    rewrite drop_app, take_app, slice_1_2. reflexivity.
Qed.

(** ** Doubled percent signs *)

Lemma escape_app (a t : string) :
  PyStr.contains "%" a = false -> escape (a ++ t) = a ++ escape t.
Proof.
  induction a as [|d a IH]; app_cons; [reflexivity|].
  intros H. apply contains_cons in H. destruct H as [Hd Ha].
  cbn [escape]. rewrite Hd, (IH Ha). reflexivity.
Qed.

Lemma escape_no_percent (v : string) :
  PyStr.contains "%" v = false -> escape v = v.
Proof.
  intros Hv. rewrite <- (string_app_nil_r v) at 1.
  rewrite (escape_app _ _ Hv). apply string_app_nil_r.
Qed.

Lemma escape_percent (t : string) :
  escape (String "%" t) = String "%" (String "%" (escape t)).
Proof. reflexivity. Qed.

Lemma while_rest_escape (opt section rawval : string)
    (map : gmap string string)
    (deeper : list string -> string -> result (list string))
    (v : string) (accum : list string) :
  exists L,
    configparser.while_rest opt section rawval map deeper accum (escape v)
    = Return L
    /\ PyStr.join "" L = PyStr.join "" accum ++ v.
Proof.
  remember (String.length v) as n eqn:Hn. revert v accum Hn.
  induction n as [n IH] using lt_wf_ind. intros v accum Hn.
  rewrite while_rest_unfold.
  destruct (PyStr.find "%" v) as [p|] eqn:Hfind.
  - destruct (find_split _ _ _ Hfind) as (a & t & -> & Ha).
    rewrite (escape_app _ _ Ha), escape_percent.
    assert (Htruthy : configparser.truthy (a ++ String "%" (String "%" (escape t)))
                      = true) by (destruct a; reflexivity).
    rewrite Htruthy.
    destruct (while_body_percent opt section rawval map deeper accum a
                (String "%" (escape t)) Ha) as (accum1 & Hjoin & ->).
    cbv zeta. cbn [String.eqb Ascii.eqb Bool.eqb PyStr.drop]. cbv iota.
    destruct (IH (String.length t)) with (v := t) (accum := (accum1 ++ ["%"])%list)
      as (L & HL & HjoinL).
    + rewrite Hn, string_length_app. cbn [String.length]. lia.
    + reflexivity.
    + exists L. split; [exact HL|].
      rewrite HjoinL, join_empty_snoc, Hjoin, !string_app_assoc. reflexivity.
  - apply find_None_contains in Hfind.
    rewrite (escape_no_percent _ Hfind).
    rewrite (while_body_no_percent _ _ _ _ _ _ _ Hfind).
    destruct v as [|c v'].
    + exists accum. split; [reflexivity|]. rewrite string_app_nil_r. reflexivity.
    + eexists. split; [reflexivity|]. apply join_empty_snoc.
Qed.

Lemma before_get_unfold (parser : configparser.RawConfigParser string)
    (section opt value : string) (d : gmap string string) :
  exists rawval,
    configparser.before_get configparser.BasicInterpolation parser section opt
      value d
    = (L ← configparser.while_rest opt section rawval d
             (fun accum v =>
                configparser._interpolate_some 9 parser opt accum v section d)
             [] value;
       Return (PyStr.join "" L)).
Proof.
  destruct (get_raw_returns configparser.Interpolation_base parser section opt
              value) as [rawval Hraw].
  exists rawval.
  unfold configparser.before_get, configparser.BasicInterpolation,
    configparser.MAX_INTERPOLATION_DEPTH.
  rewrite interpolate_some_unfold, Hraw. reflexivity.
Qed.

Lemma interpolate_escape (parser : configparser.RawConfigParser string)
    (section opt v : string) (d : gmap string string) :
  configparser.before_get configparser.BasicInterpolation parser section opt
    (escape v) d = Return v.
Proof.
  destruct (before_get_unfold parser section opt (escape v) d) as [rawval ->].
  destruct (while_rest_escape opt section rawval d
              (fun accum v =>
                 configparser._interpolate_some 9 parser opt accum v section d)
              v []) as (L & -> & HL).
  unfold mbind, result_bind. rewrite HL. reflexivity.
Qed.

Lemma package_version_interpolated
    (config : configparser.RawConfigParser string)
    (options : gmap string string) (raw : string) :
  configparser._sections config !! "package" = Some options ->
  options !! "version" = Some raw ->
  package_version config
  = configparser.before_get configparser.BasicInterpolation config "package"
      "version" raw (options ∪ configparser._defaults config).
Proof.
  intros Hsec Hopt. rewrite (package_version_section config options Hsec).
  rewrite lookup_union, Hopt, union_Some_l. reflexivity.
Qed.

(** ** A percent sign that opens nothing *)

Lemma interpolate_lone_percent (parser : configparser.RawConfigParser string)
    (section opt a t : string) (d : gmap string string) :
  PyStr.contains "%" a = false ->
  PyStr.startswith t "%" = false ->
  PyStr.startswith t "(" = false ->
  configparser.before_get configparser.BasicInterpolation parser section opt
    (a ++ String "%" t) d
  = Raise (InterpolationSyntaxError opt section (String "%" t)).
Proof.
  intros Ha Hpercent Hparen.
  destruct (before_get_unfold parser section opt (a ++ String "%" t) d)
    as [rawval ->].
  rewrite while_rest_unfold.
  assert (Htruthy : configparser.truthy (a ++ String "%" t) = true)
    by (destruct a; reflexivity).
  rewrite Htruthy.
  destruct (while_body_percent opt section rawval d
              (fun accum v =>
                 configparser._interpolate_some 9 parser opt accum v section d)
              [] a t Ha) as (accum1 & _ & ->).
  cbv zeta. destruct t as [|c t']; [reflexivity|].
  rewrite startswith_char in Hpercent, Hparen.
  cbn [String.eqb]. rewrite Hpercent, Hparen. reflexivity.
Qed.

(** ** A reference to another option *)

Lemma drop_app_S (s : string) (c : ascii) (t : string) :
  PyStr.drop (S (String.length s)) (s ++ String c t) = t.
Proof. induction s as [|d s IH]; app_cons; [reflexivity|exact IH]. Qed.

Lemma KEYCRE_reference (name rest : string) :
  configparser.truthy name = true ->
  PyStr.contains ")" name = false ->
  configparser._KEYCRE_match ("%(" ++ name ++ ")s" ++ rest)
  = Some (name, String.length name + 4).
Proof.
  intros Htruthy Hname.
  change ("%(" ++ name ++ ")s" ++ rest)
    with (String "%" (String "(" (name ++ String ")" (String "s" rest)))).
  unfold configparser._KEYCRE_match. rewrite (find_app _ _ _ Hname).
  assert (exists k, String.length name = S k) as [k Hk]
    by (destruct name; [discriminate|eauto]).
  rewrite Hk. cbv iota. rewrite <- Hk.
  rewrite drop_app_S, take_app. reflexivity.
Qed.

Lemma drop_reference (name b : string) :
  PyStr.drop (String.length name + 4) ("%(" ++ name ++ ")s" ++ b) = b.
Proof.
  replace ("%(" ++ name ++ ")s" ++ b) with (("%(" ++ name ++ ")s") ++ b)
    by (app_cons; rewrite string_app_assoc; reflexivity).
  replace (String.length name + 4) with (String.length ("%(" ++ name ++ ")s"))
    by (app_cons; cbn [String.length]; rewrite string_length_app;
        cbn [String.length]; lia).
  apply drop_app.
Qed.

Lemma interpolate_reference (parser : configparser.RawConfigParser string)
    (section opt a name b referred : string) (d : gmap string string) :
  PyStr.contains "%" a = false ->
  configparser.truthy name = true ->
  PyStr.contains ")" name = false ->
  PyStr.contains "%" b = false ->
  d !! PyStr.lower name = Some referred ->
  PyStr.contains "%" referred = false ->
  configparser.before_get configparser.BasicInterpolation parser section opt
    (a ++ "%(" ++ name ++ ")s" ++ b) d
  = Return (a ++ referred ++ b).
Proof.
  intros Ha Htruthy Hname Hb Hd Hreferred.
  destruct (before_get_unfold parser section opt
              (a ++ "%(" ++ name ++ ")s" ++ b) d) as [rawval ->].
  rewrite while_rest_unfold.
  assert (Hvalue : configparser.truthy (a ++ "%(" ++ name ++ ")s" ++ b) = true)
    by (destruct a; reflexivity).
  rewrite Hvalue.
  change (a ++ "%(" ++ name ++ ")s" ++ b)
    with (a ++ String "%" ("(" ++ name ++ ")s" ++ b)).
  destruct (while_body_percent opt section rawval d
              (fun accum v =>
                 configparser._interpolate_some 9 parser opt accum v section d)
              [] a ("(" ++ name ++ ")s" ++ b) Ha) as (accum1 & Hjoin & ->).
  change (String "%" ("(" ++ name ++ ")s" ++ b))
    with ("%(" ++ name ++ ")s" ++ b).
  change ("(" ++ name ++ ")s" ++ b) with (String "(" (name ++ ")s" ++ b)).
  cbv zeta. cbn [String.eqb Ascii.eqb Bool.eqb]. cbv iota.
  rewrite (KEYCRE_reference _ _ Htruthy Hname).
  unfold configparser.optionxform. rewrite Hd, Hreferred.
  replace (PyStr.drop (String.length name + 4) ("%(" ++ name ++ ")s" ++ b))
    with b.
  - rewrite (while_rest_no_percent _ _ _ _ _ _ _ Hb).
    unfold mbind, result_bind. f_equal.
    destruct b as [|c b'].
    + cbn [configparser.truthy]. rewrite join_empty_snoc, Hjoin.
      rewrite string_app_nil_r. reflexivity.
    + cbn [configparser.truthy]. rewrite !join_empty_snoc, Hjoin.
      rewrite !string_app_assoc. reflexivity.
  - symmetry. apply drop_reference.
Qed.

(** ** Lines that the parser cannot read *)

Lemma read_header_keeps_errors (fpname : string) (lineno : nat)
    (line value : string) (lvl : nat) self loc st' :
  configparser.e loc <> None ->
  configparser._read_header fpname lineno line value lvl self loc = Return st' ->
  configparser.e st'.2 <> None.
Proof.
  intros He. unfold configparser._read_header.
  destruct (configparser.SECTCRE_match value) as [header|].
  - destruct (configparser.has_section self header).
    + destruct (bool_decide _); [discriminate|]. intros [= <-]. exact He.
    + destruct (String.eqb _ _); intros [= <-]; exact He.
  - destruct (configparser.cursect loc) as [cur|]; [|discriminate].
    destruct (configparser.OPTCRE_match value) as [[o v]|].
    + cbv zeta. destruct (bool_decide _); [discriminate|]. intros [= <-].
      cbn [snd configparser.e].
      destruct (negb (configparser.truthy o));
        [apply handle_error_Some|exact He].
    + intros [= <-]. apply handle_error_Some.
Qed.

(** An error, once recorded, stays. *)
Lemma read_line_keeps_errors (fpname : string) st (item : nat * string) st' :
  configparser.e st.2 <> None ->
  configparser._read_line fpname st item = Return st' ->
  configparser.e st'.2 <> None.
Proof.
  destruct st as [self loc], item as [lineno line]. cbn [snd]. intros He.
  unfold configparser._read_line.
  set (comment_start := if existsb _ _ then Some 0%Z else None).
  set (value := PyStr.strip _).
  destruct (negb (configparser.truthy value)).
  - destruct comment_start; [intros [= <-]; exact He|].
    destruct (configparser.cursect loc) as [cur|]; [|intros [= <-]; exact He].
    destruct (configparser.truthy_opt _); [|intros [= <-]; exact He].
    destruct (configparser.append _ _ _ _); [|discriminate].
    intros [= <-]. exact He.
  - destruct (configparser.cursect loc) as [cur|].
    + destruct (_ && _).
      * destruct (configparser.append _ _ _ _); [|discriminate].
        intros [= <-]. exact He.
      * apply read_header_keeps_errors. exact He.
    + apply read_header_keeps_errors. exact He.
Qed.

Lemma for_each_keeps_errors (fpname : string) (items : list (nat * string))
    st st' :
  configparser.e st.2 <> None ->
  configparser.for_each (configparser._read_line fpname) items st = Return st' ->
  configparser.e st'.2 <> None.
Proof.
  revert st. induction items as [|item items IH]; intros st He.
  - intros [= <-]. exact He.
  - cbn [configparser.for_each].
    destruct (configparser._read_line fpname st item) as [st1|] eqn:Hstep;
      [|discriminate].
    apply IH. eapply read_line_keeps_errors; eassumption.
Qed.

(** A line at the margin that is no header and holds no delimiter is
    recorded as an error, or raises at once when no section is
    open. *)
Lemma step_no_delimiter (fpname : string) st (lineno : nat) (c : ascii)
    (s : string) :
  PyStr.isspace c = false ->
  Ascii.eqb c "#" = false -> Ascii.eqb c ";" = false ->
  Ascii.eqb c "[" = false ->
  configparser.find_delimiter (String c s) = None ->
  match configparser._read_line fpname st (lineno, String c s ++ nl) with
  | Return st' => configparser.e st'.2 <> None
  | Raise _ => True
  end.
Proof.
  intros Hc Hhash Hsemi Hbracket Hdelim. destruct st as [self loc].
  destruct (margin_line c s Hc Hhash Hsemi)
    as (Hstrip & Hcomment & Hvalue & Hindent).
  rewrite (read_line_margin _ _ _ _ _ Hcomment Hvalue Hindent), Hstrip.
  destruct (rstrip_cons_nonspace c s Hc) as [r Hr]. rewrite Hr.
  unfold configparser._read_header.
  rewrite (SECTCRE_no_bracket _ _ Hbracket).
  destruct (configparser.cursect loc) as [cur|]; [|exact I].
  unfold configparser.OPTCRE_match.
  assert (Hnone : configparser.find_delimiter (String c r) = None).
  { rewrite <- Hr. clear -Hdelim. revert Hdelim.
    generalize (String c s). intros line.
    induction line as [|d line IH]; [reflexivity|].
    cbn [configparser.find_delimiter PyStr.rstrip].
    destruct (Ascii.eqb d "=" || Ascii.eqb d ":") eqn:Hd; [discriminate|].
    destruct (configparser.find_delimiter line); [discriminate|].
    intros _. specialize (IH eq_refl).
    destruct (PyStr.rstrip line) as [|e r'].
    - destruct (PyStr.isspace d); [reflexivity|].
      cbn [configparser.find_delimiter]. rewrite Hd. reflexivity.
    - cbn [configparser.find_delimiter]. rewrite Hd.
      cbn [configparser.find_delimiter] in IH. rewrite IH. reflexivity. }
  rewrite Hnone. cbn [snd configparser.e]. apply handle_error_Some.
Qed.

Lemma parse_fails_from (before after : list string) (line : string) :
  forallb one_line (before ++ line :: after) = true ->
  (forall st,
      match configparser._read_line CONFIG_FILE st
              (S (length before), line ++ nl) with
      | Return st' => configparser.e st'.2 <> None
      | Raise _ => True
      end) ->
  exists err,
    parse (unlines (before ++ line :: after)) = Raise err
    /\ parse_error err = true.
Proof.
  intros Hlines Hstep.
  assert (exists err, parse (unlines (before ++ line :: after)) = Raise err)
    as [err Herr].
  { rewrite (parse_unlines _ Hlines), numbered_app, for_each_app.
    destruct (configparser.for_each _ (numbered 1 before) fresh_reader)
      as [st|err]; [|eauto].
    unfold mbind at 2, result_bind. rewrite numbered_cons.
    cbn [configparser.for_each]. specialize (Hstep st).
    change (1 + length before) with (S (length before)).
    destruct (configparser._read_line CONFIG_FILE st _) as [st1|err];
      [|eauto].
    unfold mbind at 2, result_bind.
    destruct (configparser.for_each _ _ st1) as [st2|err] eqn:Hloop; [|eauto].
    apply for_each_keeps_errors in Hloop; [|exact Hstep].
    unfold mbind, result_bind.
    destruct (configparser.e st2.2) as [errors|]; [eauto|contradiction]. }
  exists err. split; [exact Herr|]. eapply parse_raises. exact Herr.
Qed.

(** A line that is not a header, before any header. *)
Lemma parse_headless (preamble after : list string) (line : string) :
  forallb ignorable preamble = true ->
  forallb one_line (line :: after) = true ->
  ignorable line = false ->
  configparser.SECTCRE_match (PyStr.strip line) = None ->
  parse (unlines (preamble ++ line :: after))
  = Raise (MissingSectionHeaderError CONFIG_FILE (S (length preamble))
             (line ++ nl)).
Proof.
  intros Hpre Hlines Hline Hsect.
  destruct (read_ignorable CONFIG_FILE preamble [] fresh_reader 1
              reads_as_fresh Hpre) as (st & Hloop & Hst).
  apply (parse_raises_at _ _ _ st).
  - rewrite forallb_app, Hlines, andb_true_r.
    clear -Hpre. induction preamble as [|l preamble IH]; [reflexivity|].
    cbn [forallb] in *. apply andb_prop in Hpre. destruct Hpre as [Hl Hpre].
    rewrite (IH Hpre), andb_true_r.
    unfold ignorable in Hl. apply andb_prop in Hl. apply Hl.
  - exact Hloop.
  - destruct st as [self loc].
    destruct Hst as (_ & _ & _ & Hcur & _). cbn [fst snd last] in Hcur.
    cbn [forallb] in Hlines. apply andb_prop in Hlines.
    destruct Hlines as [Hone _].
    unfold ignorable in Hline. rewrite Hone in Hline. cbn [andb] in Hline.
    apply orb_false_elim in Hline. destruct Hline as [Hvalue Hcomment].
    apply negb_false_iff in Hvalue.
    unfold configparser._read_line. fold (is_comment (line ++ nl)).
    rewrite is_comment_nl, Hcomment, slice_all, strip_app_nl, Hvalue, Hcur.
    cbn [negb]. unfold configparser._read_header. rewrite Hsect, Hcur.
    reflexivity.
Qed.

(** Where a manifest that no header opens goes wrong. *)
Lemma headless_split (lines : list string) :
  headless lines = true ->
  exists preamble line after,
    lines = (preamble ++ line :: after)%list
    /\ forallb ignorable preamble = true
    /\ ignorable line = false
    /\ configparser.SECTCRE_match (PyStr.strip line) = None.
Proof.
  induction lines as [|l lines IH]; [discriminate|].
  cbn [headless]. destruct (ignorable l) eqn:Hl.
  - intros H. destruct (IH H) as (pre & line & after & -> & Hpre & Hline & Hs).
    exists (l :: pre), line, after. cbn [forallb]. rewrite Hl, Hpre. auto.
  - intros H. exists [], l, lines. repeat split; try assumption.
    destruct (configparser.SECTCRE_match (PyStr.strip l)); [discriminate|].
    reflexivity.
Qed.

Lemma unreadable_parts (line : string) :
  unreadable line = true ->
  exists c s,
    line = String c s /\ PyStr.isspace c = false
    /\ Ascii.eqb c "#" = false /\ Ascii.eqb c ";" = false
    /\ Ascii.eqb c "[" = false
    /\ configparser.find_delimiter (String c s) = None.
Proof.
  destruct line as [|c s]; [discriminate|]. unfold unreadable.
  intros H. apply andb_prop in H. destruct H as [H Hdelim].
  apply andb_prop in H. destruct H as [H Hbracket].
  apply andb_prop in H. destruct H as [H Hsemi].
  apply andb_prop in H. destruct H as [Hspace Hhash].
  apply negb_true_iff in Hspace, Hhash, Hsemi, Hbracket, Hdelim.
  exists c, s. repeat split; try assumption.
  destruct (configparser.find_delimiter (String c s)); [discriminate|].
  reflexivity.
Qed.

(** A malformed manifest does not parse. *)
Lemma parse_malformed (lines : list string) :
  forallb one_line lines = true ->
  malformed lines = true ->
  exists err,
    parse (unlines lines) = Raise err /\ parse_error err = true.
Proof.
  intros Hlines Hbad. unfold malformed in Hbad.
  apply orb_prop in Hbad. destruct Hbad as [Hbad|Hbad].
  - apply existsb_exists in Hbad. destruct Hbad as (line & Hin & Hline).
    apply in_split in Hin. destruct Hin as (before & after & ->).
    apply unreadable_parts in Hline.
    destruct Hline as (c & s & -> & Hc & Hhash & Hsemi & Hbracket & Hdelim).
    apply (parse_fails_from before after (String c s) Hlines).
    intros st. apply step_no_delimiter; assumption.
  - apply headless_split in Hbad.
    destruct Hbad as (pre & line & after & -> & Hpre & Hline & Hsect).
    eexists. split.
    + apply parse_headless; try assumption.
      rewrite forallb_app in Hlines. apply andb_prop in Hlines. apply Hlines.
    + reflexivity.
Qed.

(** ** A file that cannot be decoded *)


(** * The claims *)

(** C1, which the code breaks: the path given as argument does not
    decide which file is read. With a manifest of version 0.0.1-alpha
    at the path given and another one, of version 1.0.0, in
    [Cargo.toml], the script prints 1.0.0; with no [Cargo.toml], it
    ends with status 1 on the [KeyError] of the section, though the
    file at the path given is in order. *)
Theorem explicit_path_is_not_read :
  let here := manifest (quoted "1.0.0") in
  let there := manifest (quoted "0.0.1-alpha") in
  run ["get_version.py"; "crate/Cargo.toml"]
    {[ "Cargo.toml" := text_file here;
       "crate/Cargo.toml" := text_file there ]}
  = mkCompleted ("1.0.0" ++ nl) 0 None
  /\ run ["get_version.py"; "crate/Cargo.toml"]
       {[ "crate/Cargo.toml" := text_file there ]}
     = mkCompleted "" 1 (Some (KeyError "package")).
Proof. split; vm_compute; reflexivity. Qed.

(** C2, as stated, fails: where no file can be opened at all,
    [get_version] does not raise an [OSError]; [read] has skipped the
    file, and the lookup of the section raises a [KeyError]. *)
Lemma missing_file_is_skipped :
  (∅ : gmap string file) !! "missing.toml" = None
  /\ (get_version "missing.toml" (mkWorld ∅ "")).1 = Raise (KeyError "package")
  /\ ~ (exists filename,
          (get_version "missing.toml" (mkWorld ∅ "")).1
          = Raise (OSError filename)).
Proof.
  split; [reflexivity|]. split; [reflexivity|].
  intros [filename H]. vm_compute in H. discriminate.
Qed.

(** C2, amended: when the path is the one that [get_version] opens and
    no file can be opened there, [get_version] raises the [KeyError]
    of the section [package]; the script, called with that path or
    with no argument, ends with status 1 and has printed nothing. *)
Theorem missing_manifest_KeyError (fs : gmap string file) (p : string) :
  fs !! p = None ->
  p = CONFIG_FILE ->
  get_version p (mkWorld fs "") = (Raise (KeyError "package"), mkWorld fs "")
  /\ forall prog : string,
       run [prog; p] fs = mkCompleted "" 1 (Some (KeyError "package"))
       /\ run [prog] fs = mkCompleted "" 1 (Some (KeyError "package")).
Proof.
  intros Hnone ->.
  assert (Hget : get_version CONFIG_FILE (mkWorld fs "")
                 = (Raise (KeyError "package"), mkWorld fs "")).
  { rewrite get_version_eq. simpl files. rewrite Hnone.
    rewrite package_version_fresh. reflexivity. }
  split; [exact Hget|].
  intros prog. split; eapply run_raised; exact Hget.
Qed.

Lemma missing_manifest_KeyError_witness :
  (∅ : gmap string file) !! "Cargo.toml" = None
  /\ "Cargo.toml" = CONFIG_FILE
  /\ (get_version "Cargo.toml" (mkWorld ∅ "")
      = (Raise (KeyError "package"), mkWorld ∅ "")
      /\ forall prog : string,
           run [prog; "Cargo.toml"] ∅
           = mkCompleted "" 1 (Some (KeyError "package"))
           /\ run [prog] ∅ = mkCompleted "" 1 (Some (KeyError "package"))).
Proof.
  split; [reflexivity|]. split; [reflexivity|].
  apply (missing_manifest_KeyError ∅ "Cargo.toml"); reflexivity.
Defined.

(** C3: what [get_version] returns, and the world it leaves, do not
    depend on its argument [config_file]. *)
Theorem get_version_ignores_config_file (p q : string) (w : world) :
  get_version p w = get_version q w.
Proof. apply get_version_independent. Qed.

(** C4, as stated, fails: a manifest parses, its section [package]
    holds the key [version] with the raw value "1.0%%" between quotes,
    and [get_version] returns "1.0%" between quotes, the value after
    interpolation, not the raw value. *)
Lemma percent_is_interpolated :
  let raw := quoted "1.0%%" in
  let fs : gmap string file :=
    {[ CONFIG_FILE := text_file (manifest raw) ]} in
  (exists config options,
      parse (manifest raw) = Return config
      /\ configparser._sections config !! "package" = Some options
      /\ options !! "version" = Some raw)
  /\ (get_version CONFIG_FILE (mkWorld fs "")).1 = Return (quoted "1.0%")
  /\ quoted "1.0%" <> raw.
Proof.
  cbv zeta. split; [|split].
  - exists (configparser.mkParser
              {[ "package" := {[ "name" := quoted "cifra";
                                 "version" := quoted "1.0%%" ]} ]} ∅).
    eexists. split; [vm_compute; reflexivity|].
    split; [reflexivity|]. vm_compute. reflexivity.
  - vm_compute. reflexivity.
  - vm_compute. discriminate.
Qed.

(** C4, amended: when the manifest that [get_version] reads parses and
    its section [package] holds the key [version], with a raw value in
    which there is no percent sign, [get_version] returns that raw
    value as it is, quotes included. *)
Theorem get_version_returns_raw_value (p : string) (w : world)
    (text : string) (config : configparser.RawConfigParser string)
    (options : gmap string string) (raw : string) :
  files w !! CONFIG_FILE = Some (text_file text) ->
  parse text = Return config ->
  configparser._sections config !! "package" = Some options ->
  options !! "version" = Some raw ->
  PyStr.contains "%"%char raw = false ->
  get_version p w = (Return raw, w).
Proof. apply get_version_raw. Qed.

Lemma get_version_returns_raw_value_witness :
  let raw := quoted "0.0.1-alpha" in
  let options : gmap string string :=
    {[ "name" := quoted "cifra"; "version" := raw ]} in
  let w := mkWorld {[ CONFIG_FILE := text_file (manifest raw) ]} "" in
  files w !! CONFIG_FILE = Some (text_file (manifest raw))
  /\ parse (manifest raw) = Return (parsed_manifest raw)
  /\ configparser._sections (parsed_manifest raw) !! "package" = Some options
  /\ options !! "version" = Some raw
  /\ PyStr.contains "%"%char raw = false
  /\ get_version "crate/Cargo.toml" w = (Return raw, w).
Proof.
  cbv zeta.
  assert (H1 : files (mkWorld {[ CONFIG_FILE :=
                                   text_file (manifest (quoted "0.0.1-alpha")) ]}
                        "")
               !! CONFIG_FILE
               = Some (text_file (manifest (quoted "0.0.1-alpha"))))
    by reflexivity.
  assert (H2 : parse (manifest (quoted "0.0.1-alpha"))
               = Return (parsed_manifest (quoted "0.0.1-alpha")))
    by (vm_compute; reflexivity).
  assert (H3 : configparser._sections (parsed_manifest (quoted "0.0.1-alpha"))
               !! "package"
               = Some ({[ "name" := quoted "cifra";
                          "version" := quoted "0.0.1-alpha" ]}
                       : gmap string string))
    by reflexivity.
  assert (H4 : ({[ "name" := quoted "cifra";
                   "version" := quoted "0.0.1-alpha" ]} : gmap string string)
               !! "version" = Some (quoted "0.0.1-alpha"))
    by (vm_compute; reflexivity).
  assert (H5 : PyStr.contains "%"%char (quoted "0.0.1-alpha") = false)
    by (vm_compute; reflexivity).
  repeat (split; [assumption|]).
  exact (get_version_returns_raw_value "crate/Cargo.toml" _ _ _ _ _
           H1 H2 H3 H4 H5).
Defined.

(** C5, as stated, fails: the file [Cargo.toml] has a section
    [package] whose key [version] has the raw value 1.0.0 between
    quotes, and after it two tables of the array [bin]. Cut after the
    section [package], the manifest makes the script print 1.0.0; in
    full, it makes the script end with status 1 on the
    [DuplicateSectionError] of the second table, and print nothing. *)
Lemma array_of_tables_stops_the_script :
  let package := ["[package]"; "version = " ++ quoted "1.0.0"] in
  let bins := ["[[bin]]"; "name = " ++ quoted "cifra";
               "[[bin]]"; "name = " ++ quoted "tool"] in
  parse (unlines package)
  = Return (configparser.mkParser
              {[ "package" := {[ "version" := quoted "1.0.0" ]} ]} ∅)
  /\ run ["get_version.py"] {[ "Cargo.toml" := text_file (unlines package) ]}
     = mkCompleted ("1.0.0" ++ nl) 0 None
  /\ run ["get_version.py"]
       {[ "Cargo.toml" := text_file (unlines (package ++ bins)) ]}
     = mkCompleted "" 1 (Some (DuplicateSectionError "[bin]" "Cargo.toml" 5)).
Proof. cbv zeta. repeat split; vm_compute; reflexivity. Qed.

(** C5, amended: when the file [Cargo.toml] of the working directory
    parses and its section [package] holds the key [version] with the
    raw value 1.0.0 between quotes, the script called with no argument
    prints 1.0.0 and a newline, and ends with status 0. *)
Theorem no_argument_prints_version (prog : string) (fs : gmap string file)
    (text : string) (config : configparser.RawConfigParser string)
    (options : gmap string string) :
  fs !! "Cargo.toml" = Some (text_file text) ->
  parse text = Return config ->
  configparser._sections config !! "package" = Some options ->
  options !! "version" = Some (quoted "1.0.0") ->
  run [prog] fs = mkCompleted ("1.0.0" ++ nl) 0 None.
Proof.
  intros Hf Hp Hsec Hopt.
  apply (run_returned [prog] fs CONFIG_FILE (quoted "1.0.0") (mkWorld fs "")).
  apply (get_version_raw CONFIG_FILE (mkWorld fs "") text config
           options (quoted "1.0.0") Hf Hp Hsec Hopt).
  reflexivity.
Qed.

Lemma no_argument_prints_version_witness :
  let fs : gmap string file :=
    {[ "Cargo.toml" := text_file (manifest (quoted "1.0.0"));
       "README.md" := text_file "cifra" ]} in
  let options : gmap string string :=
    {[ "name" := quoted "cifra"; "version" := quoted "1.0.0" ]} in
  fs !! "Cargo.toml" = Some (text_file (manifest (quoted "1.0.0")))
  /\ parse (manifest (quoted "1.0.0")) = Return (parsed_manifest (quoted "1.0.0"))
  /\ configparser._sections (parsed_manifest (quoted "1.0.0")) !! "package"
     = Some options
  /\ options !! "version" = Some (quoted "1.0.0")
  /\ run ["get_version.py"] fs = mkCompleted ("1.0.0" ++ nl) 0 None.
Proof.
  cbv zeta.
  assert (H1 : ({[ "Cargo.toml" := text_file (manifest (quoted "1.0.0"));
                   "README.md" := text_file "cifra" ]} : gmap string file)
               !! "Cargo.toml" = Some (text_file (manifest (quoted "1.0.0"))))
    by (vm_compute; reflexivity).
  assert (H2 : parse (manifest (quoted "1.0.0"))
               = Return (parsed_manifest (quoted "1.0.0")))
    by (vm_compute; reflexivity).
  assert (H3 : configparser._sections (parsed_manifest (quoted "1.0.0"))
               !! "package"
               = Some ({[ "name" := quoted "cifra";
                          "version" := quoted "1.0.0" ]}
                       : gmap string string))
    by reflexivity.
  assert (H4 : ({[ "name" := quoted "cifra"; "version" := quoted "1.0.0" ]}
                : gmap string string) !! "version" = Some (quoted "1.0.0"))
    by (vm_compute; reflexivity).
  repeat (split; [assumption|]).
  exact (no_argument_prints_version "get_version.py" _ _ _ _ H1 H2 H3 H4).
Defined.

(** C6: whatever the value that [get_version] returns, the script
    prints the slice [version[1:-1]] of it and a newline, and ends with
    status 0; the slice of a value of two characters or more is the
    value without its first and its last character. So a value of two
    quotes prints an empty line and the value 1.0.0 without quotes
    prints .0. and a newline. *)
Theorem prints_value_without_its_ends (argv : list string)
    (fs : gmap string file) (p version : string) (w' : world) :
  get_version p (mkWorld fs "") = (Return version, w') ->
  run argv fs
  = mkCompleted (PyStr.slice (Some 1%Z) (Some (-1)%Z) version ++ nl) 0 None
  /\ (forall (a b : ascii) (s : string),
        PyStr.slice (Some 1%Z) (Some (-1)%Z) (String a (s ++ String b "")) = s)
  /\ run argv {[ CONFIG_FILE := text_file (manifest (dq ++ dq)) ]}
     = mkCompleted nl 0 None
  /\ run argv {[ CONFIG_FILE := text_file (manifest "1.0.0") ]}
     = mkCompleted (".0." ++ nl) 0 None.
Proof.
  intros Hget. split; [|split; [|split]].
  - eapply run_returned. exact Hget.
  - apply slice_ends.
  - apply (run_returned argv _ CONFIG_FILE (dq ++ dq)
             (mkWorld {[ CONFIG_FILE := text_file (manifest (dq ++ dq)) ]} "")).
    vm_compute. reflexivity.
  - apply (run_returned argv _ CONFIG_FILE "1.0.0"
             (mkWorld {[ CONFIG_FILE := text_file (manifest "1.0.0") ]} "")).
    vm_compute. reflexivity.
Qed.

Lemma prints_value_without_its_ends_witness :
  let fs : gmap string file :=
    {[ CONFIG_FILE := text_file (manifest "'2.1.0'") ]} in
  get_version "Cargo.toml" (mkWorld fs "") = (Return "'2.1.0'", mkWorld fs "")
  /\ run ["get_version.py"; "Cargo.toml"] fs = mkCompleted ("2.1.0" ++ nl) 0 None.
Proof.
  cbv zeta.
  assert (H : get_version "Cargo.toml"
                (mkWorld {[ CONFIG_FILE := text_file (manifest "'2.1.0'") ]} "")
              = (Return "'2.1.0'",
                 mkWorld {[ CONFIG_FILE := text_file (manifest "'2.1.0'") ]} ""))
    by (vm_compute; reflexivity).
  split; [assumption|].
  exact (proj1 (prints_value_without_its_ends
                  ["get_version.py"; "Cargo.toml"] _ _ _ _ H)).
Defined.

(** C10, as stated, fails: the raw value of [version] is one percent
    sign, a value of length 1; the interpolation of the value raises
    [InterpolationSyntaxError], so the script never comes to the slice:
    it prints nothing and ends with status 1. *)
Lemma percent_sign_alone_raises :
  let raw := "%" in
  let fs : gmap string file :=
    {[ CONFIG_FILE := text_file (manifest raw) ]} in
  String.length raw <= 1
  /\ (exists config options,
        parse (manifest raw) = Return config
        /\ configparser._sections config !! "package" = Some options
        /\ options !! "version" = Some raw)
  /\ run ["get_version.py"] fs
     = mkCompleted "" 1
         (Some (InterpolationSyntaxError "version" "package" "%")).
Proof.
  cbv zeta. split; [simpl; lia|]. split.
  - exists (parsed_manifest "%"). eexists.
    split; [vm_compute; reflexivity|].
    split; [reflexivity|]. vm_compute. reflexivity.
  - vm_compute. reflexivity.
Qed.

(** C10, amended: when the manifest that the script reads parses and
    the raw value of the key [version] of its section [package] has no
    character, or one character that is not the percent sign, the slice
    of the value is the empty text and raises nothing: the script
    prints an empty line and ends with status 0. *)
Theorem short_value_prints_empty_line (argv : list string)
    (fs : gmap string file) (text : string)
    (config : configparser.RawConfigParser string)
    (options : gmap string string) (raw : string) :
  fs !! CONFIG_FILE = Some (text_file text) ->
  parse text = Return config ->
  configparser._sections config !! "package" = Some options ->
  options !! "version" = Some raw ->
  String.length raw <= 1 ->
  raw <> "%" ->
  PyStr.slice (Some 1%Z) (Some (-1)%Z) raw = ""
  /\ run argv fs = mkCompleted nl 0 None.
Proof.
  intros Hf Hp Hsec Hopt Hlen Hraw.
  assert (Hpercent : PyStr.contains "%"%char raw = false).
  { destruct raw as [|c [|d raw']]; [reflexivity| |simpl in Hlen; lia].
    change (PyStr.contains "%" (String c ""))
      with (Ascii.eqb "%" c || false).
    rewrite orb_false_r. apply Ascii.eqb_neq. congruence. }
  split; [apply slice_short; exact Hlen|].
  rewrite (run_returned argv fs CONFIG_FILE raw (mkWorld fs "")).
  - rewrite (slice_short raw Hlen). reflexivity.
  - apply (get_version_raw CONFIG_FILE (mkWorld fs "") text config options raw
             Hf Hp Hsec Hopt Hpercent).
Qed.

Lemma short_value_prints_empty_line_witness :
  let fs0 : gmap string file := {[ CONFIG_FILE := text_file (manifest "") ]} in
  let fs1 : gmap string file := {[ CONFIG_FILE := text_file (manifest "7") ]} in
  (PyStr.slice (Some 1%Z) (Some (-1)%Z) "" = ""
   /\ run ["get_version.py"] fs0 = mkCompleted nl 0 None)
  /\ (PyStr.slice (Some 1%Z) (Some (-1)%Z) "7" = ""
      /\ run ["get_version.py"] fs1 = mkCompleted nl 0 None).
Proof.
  cbv zeta. split.
  - apply (short_value_prints_empty_line ["get_version.py"]
             {[ CONFIG_FILE := text_file (manifest "") ]} (manifest "")
             (parsed_manifest "")
             {[ "name" := quoted "cifra"; "version" := "" ]} "").
    + reflexivity.
    + vm_compute. reflexivity.
    + reflexivity.
    + vm_compute. reflexivity.
    + simpl. lia.
    + discriminate.
  - apply (short_value_prints_empty_line ["get_version.py"]
             {[ CONFIG_FILE := text_file (manifest "7") ]} (manifest "7")
             (parsed_manifest "7")
             {[ "name" := quoted "cifra"; "version" := "7" ]} "7").
    + reflexivity.
    + vm_compute. reflexivity.
    + reflexivity.
    + vm_compute. reflexivity.
    + simpl. lia.
    + discriminate.
Defined.

(** C7, as stated, fails: a manifest parses, its section [package]
    holds no key [version], and yet [get_version] returns a value, the
    one of the key [version] of the section [DEFAULT]; the script
    prints it and ends with status 0. *)
Lemma default_section_supplies_version :
  let text :=
    "[DEFAULT]" ++ nl ++ "version = " ++ quoted "9.9.9" ++ nl
    ++ "[package]" ++ nl ++ "name = " ++ quoted "cifra" ++ nl in
  let fs : gmap string file := {[ CONFIG_FILE := text_file text ]} in
  (exists config options,
      parse text = Return config
      /\ configparser._sections config !! "package" = Some options
      /\ options !! "version" = None)
  /\ get_version CONFIG_FILE (mkWorld fs "")
     = (Return (quoted "9.9.9"), mkWorld fs "")
  /\ run ["get_version.py"] fs = mkCompleted ("9.9.9" ++ nl) 0 None.
Proof.
  cbv zeta. split; [|split].
  - exists (configparser.mkParser {[ "package" := {[ "name" := quoted "cifra" ]} ]}
              {[ "version" := quoted "9.9.9" ]}).
    eexists. split; [vm_compute; reflexivity|].
    split; [reflexivity|]. vm_compute. reflexivity.
  - vm_compute. reflexivity.
  - vm_compute. reflexivity.
Qed.

(** C7, amended: when the manifest that [get_version] reads parses and
    has no section [package], or has one without the key [version]
    while the section [DEFAULT] has no key [version] either,
    [get_version] raises a [KeyError], of the section or of the key;
    nothing catches it, so the script ends with status 1 and has
    printed nothing. *)
Theorem missing_section_or_key_KeyError (p : string) (fs : gmap string file)
    (text : string) (config : configparser.RawConfigParser string) :
  fs !! CONFIG_FILE = Some (text_file text) ->
  parse text = Return config ->
  (configparser._sections config !! "package" = None ->
   get_version p (mkWorld fs "") = (Raise (KeyError "package"), mkWorld fs "")
   /\ forall argv,
        run argv fs = mkCompleted "" 1 (Some (KeyError "package")))
  /\ (forall options : gmap string string,
        configparser._sections config !! "package" = Some options ->
        options !! "version" = None ->
        configparser._defaults config !! "version" = None ->
        get_version p (mkWorld fs "")
        = (Raise (KeyError "version"), mkWorld fs "")
        /\ forall argv,
             run argv fs = mkCompleted "" 1 (Some (KeyError "version"))).
Proof.
  intros Hf Hp.
  pose proof (get_version_parsed p (mkWorld fs "") text config Hf Hp) as Hget.
  split.
  - intros Hsec. rewrite (package_version_no_section config Hsec) in Hget.
    split; [exact Hget|]. intros argv. eapply run_raised. exact Hget.
  - intros options Hsec Hopt Hdef.
    rewrite (package_version_section config options Hsec) in Hget.
    rewrite lookup_union, Hopt, Hdef in Hget. simpl in Hget.
    split; [exact Hget|]. intros argv. eapply run_raised. exact Hget.
Qed.

Lemma missing_section_or_key_KeyError_witness :
  let no_section := "[workspace]" ++ nl ++ "resolver = " ++ quoted "2" ++ nl in
  let no_key := "[package]" ++ nl ++ "name = " ++ quoted "cifra" ++ nl in
  let options : gmap string string := {[ "name" := quoted "cifra" ]} in
  ((({[ CONFIG_FILE := text_file no_section ]} : gmap string file) !! CONFIG_FILE
    = Some (text_file no_section)
    /\ parse no_section
       = Return (configparser.mkParser
                   {[ "workspace" := {[ "resolver" := quoted "2" ]} ]} ∅))
   /\ run ["get_version.py"] {[ CONFIG_FILE := text_file no_section ]}
      = mkCompleted "" 1 (Some (KeyError "package")))
  /\ ((({[ CONFIG_FILE := text_file no_key ]} : gmap string file) !! CONFIG_FILE
       = Some (text_file no_key)
       /\ parse no_key
          = Return (configparser.mkParser {[ "package" := options ]} ∅))
      /\ run ["get_version.py"] {[ CONFIG_FILE := text_file no_key ]}
         = mkCompleted "" 1 (Some (KeyError "version"))).
Proof.
  cbv zeta. split.
  - assert (H1 : ({[ CONFIG_FILE :=
                       text_file ("[workspace]" ++ nl ++ "resolver = " ++ quoted "2" ++ nl) ]}
                  : gmap string file) !! CONFIG_FILE
                 = Some (text_file ("[workspace]" ++ nl ++ "resolver = " ++ quoted "2" ++ nl)))
      by (vm_compute; reflexivity).
    assert (H2 : parse ("[workspace]" ++ nl ++ "resolver = " ++ quoted "2" ++ nl)
                 = Return (configparser.mkParser
                             {[ "workspace" := {[ "resolver" := quoted "2" ]} ]}
                             ∅))
      by (vm_compute; reflexivity).
    split; [split; assumption|].
    refine (proj2 (proj1 (missing_section_or_key_KeyError CONFIG_FILE _ _ _
                            H1 H2) _) _).
    reflexivity.
  - assert (H1 : ({[ CONFIG_FILE :=
                       text_file ("[package]" ++ nl ++ "name = " ++ quoted "cifra" ++ nl) ]}
                  : gmap string file) !! CONFIG_FILE
                 = Some (text_file ("[package]" ++ nl ++ "name = " ++ quoted "cifra" ++ nl)))
      by (vm_compute; reflexivity).
    assert (H2 : parse ("[package]" ++ nl ++ "name = " ++ quoted "cifra" ++ nl)
                 = Return (configparser.mkParser
                             {[ "package" := {[ "name" := quoted "cifra" ]} ]}
                             ∅))
      by (vm_compute; reflexivity).
    split; [split; assumption|].
    refine (proj2 (proj2 (missing_section_or_key_KeyError CONFIG_FILE _ _ _
                            H1 H2) {[ "name" := quoted "cifra" ]} _ _ _) _).
    + reflexivity.
    + vm_compute. reflexivity.
    + reflexivity.
Defined.

(** C8, as stated, fails: text after the bracket that closes a header
    is no section syntax, and the parser passes over it, so that the
    script prints the version and ends with status 0; with more
    brackets the header is read as the name of another section, and
    the script ends on the [KeyError] of the section [package], which
    is no exception of the parser. A file that cannot be decoded ends
    the script on [UnicodeDecodeError], which is none either. *)
Lemma junk_after_header_is_no_parse_error :
  let accepted :=
    unlines ["[package] trailing junk"; "version = " ++ quoted "1.0.0"] in
  let misread :=
    unlines ["[package]]]garbage"; "version = " ++ quoted "1.0.0"] in
  run ["get_version.py"] {[ CONFIG_FILE := text_file accepted ]}
  = mkCompleted ("1.0.0" ++ nl) 0 None
  /\ parse misread
     = Return (configparser.mkParser
                 {[ "package]]" := {[ "version" := quoted "1.0.0" ]} ]} ∅)
  /\ run ["get_version.py"] {[ CONFIG_FILE := text_file misread ]}
     = mkCompleted "" 1 (Some (KeyError "package"))
  /\ parse_error (KeyError "package") = false
  /\ run ["get_version.py"] {[ CONFIG_FILE := undecodable "" ]}
     = mkCompleted "" 1 (Some UnicodeDecodeError)
  /\ parse_error UnicodeDecodeError = false.
Proof. cbv zeta. repeat split; vm_compute; reflexivity. Qed.

(** C8, amended: when the manifest that [get_version] reads is a text
    with a line that the parser cannot read, be it a line at the margin
    that opens neither a header nor a comment and holds no delimiter,
    or a first line, comments and empty lines apart, that is not the
    header of a section, [get_version] raises an exception of the
    parser, which is a [ParsingError], a [MissingSectionHeaderError],
    a [DuplicateSectionError] or a [DuplicateOptionError]; nothing
    catches it, so the script ends with status 1 and has printed
    nothing. *)
Theorem malformed_manifest_parse_error (p : string) (fs : gmap string file)
    (lines : list string) :
  forallb one_line lines = true ->
  malformed lines = true ->
  fs !! CONFIG_FILE = Some (text_file (unlines lines)) ->
  exists err,
    parse_error err = true
    /\ get_version p (mkWorld fs "") = (Raise err, mkWorld fs "")
    /\ forall argv, run argv fs = mkCompleted "" 1 (Some err).
Proof.
  intros Hlines Hbad Hf.
  destruct (parse_malformed lines Hlines Hbad) as (err & Hp & Herr).
  exists err.
  assert (Hget : get_version p (mkWorld fs "") = (Raise err, mkWorld fs "")).
  { rewrite (get_version_text p (mkWorld fs "") _ Hf), Hp. reflexivity. }
  split; [exact Herr|]. split; [exact Hget|].
  intros argv. eapply run_raised. exact Hget.
Qed.

Lemma malformed_manifest_parse_error_witness :
  let lines := ["[package]"; "version = " ++ quoted "1.0.0"; "authors = [";
                "    " ++ quoted "Dante" ++ ","; "]"] in
  let fs : gmap string file := {[ CONFIG_FILE := text_file (unlines lines) ]} in
  exists err,
    parse_error err = true
    /\ get_version "Cargo.toml" (mkWorld fs "") = (Raise err, mkWorld fs "")
    /\ forall argv, run argv fs = mkCompleted "" 1 (Some err).
Proof.
  cbv zeta.
  apply (malformed_manifest_parse_error "Cargo.toml" _
           ["[package]"; "version = " ++ quoted "1.0.0"; "authors = [";
            "    " ++ quoted "Dante" ++ ","; "]"]); reflexivity.
Defined.

(** C9: two runs of the script with the same arguments, in two states
    of the file system in which the manifest that the script reads is
    the same, write the same text to the standard output and end with
    the same status; and a run leaves every file as it was, so that
    the run after it finds the manifest unchanged. *)
Theorem run_is_deterministic (argv : list string)
    (fs1 fs2 : gmap string file) :
  fs1 !! CONFIG_FILE = fs2 !! CONFIG_FILE ->
  output (run argv fs1) = output (run argv fs2)
  /\ returncode (run argv fs1) = returncode (run argv fs2)
  /\ files (main argv (mkWorld fs1 "")).2 = fs1.
Proof.
  intros Hsame.
  assert (Hrun : run argv fs1 = run argv fs2).
  { unfold run. rewrite !main_eq, !get_version_eq. simpl files.
    rewrite Hsame.
    destruct (fs2 !! CONFIG_FILE) as [f|].
    - destruct (configparser._read _ (reader f) _) as [config|err];
        [|reflexivity].
      destruct (package_version config); reflexivity.
    - destruct (package_version configparser.ConfigParser); reflexivity. }
  rewrite Hrun. split; [reflexivity|]. split; [reflexivity|].
  rewrite main_eq.
  pose proof (get_version_readonly CONFIG_FILE (mkWorld fs1 "")) as Hro.
  destruct (get_version CONFIG_FILE (mkWorld fs1 "")) as [[version|err] w'];
    simpl in Hro; subst w'; reflexivity.
Qed.

Lemma run_is_deterministic_witness :
  let fs1 : gmap string file :=
    {[ CONFIG_FILE := text_file (manifest (quoted "1.0.0")) ]} in
  let fs2 : gmap string file :=
    {[ CONFIG_FILE := text_file (manifest (quoted "1.0.0"));
       "Cargo.lock" := text_file "# lock" ]} in
  fs1 !! CONFIG_FILE = fs2 !! CONFIG_FILE
  /\ output (run ["get_version.py"] fs1) = output (run ["get_version.py"] fs2)
  /\ returncode (run ["get_version.py"] fs1)
     = returncode (run ["get_version.py"] fs2)
  /\ files (main ["get_version.py"] (mkWorld fs1 "")).2 = fs1.
Proof.
  cbv zeta.
  assert (H : ({[ CONFIG_FILE := text_file (manifest (quoted "1.0.0")) ]}
               : gmap string file) !! CONFIG_FILE
              = ({[ CONFIG_FILE := text_file (manifest (quoted "1.0.0"));
                    "Cargo.lock" := text_file "# lock" ]} : gmap string file)
                !! CONFIG_FILE)
    by (vm_compute; reflexivity).
  split; [assumption|].
  exact (run_is_deterministic ["get_version.py"] _ _ H).
Defined.


(** * Further properties of the script *)

(** X1. The command line has no part in a run: whatever the arguments, and
    however many, the script prints the same text and ends in the same
    way, with the same exception if it fails. *)
Theorem run_ignores_arguments (argv argv' : list string)
    (fs : gmap string file) :
  run argv fs = run argv' fs.
Proof. unfold run. rewrite !main_eq. reflexivity. Qed.

(** X2. A run ends in one of two ways. Either [get_version] returns a
    value and the script prints the value without its ends, and a line
    feed, with status 0; or the script prints nothing and ends with
    status 1 on an exception, which is the [KeyError] of [package] or of
    [version], an exception of the parser, the [UnicodeDecodeError] of
    a file that cannot be decoded or an exception of the
    interpolation, and no [OSError]. *)
Theorem run_prints_or_fails (argv : list string) (fs : gmap string file) :
  (exists version,
      get_version CONFIG_FILE (mkWorld fs "")
      = (Return version, mkWorld fs "")
      /\ run argv fs
         = mkCompleted (PyStr.slice (Some 1%Z) (Some (-1)%Z) version ++ nl)
             0 None)
  \/ (exists err,
         run argv fs = mkCompleted "" 1 (Some err)
         /\ script_error err = true
         /\ forall filename, err <> OSError filename).
Proof.
  destruct (get_version CONFIG_FILE (mkWorld fs "")) as [[version|err] w']
    eqn:Hget.
  - left. exists version.
    pose proof (get_version_readonly CONFIG_FILE (mkWorld fs "")) as Hw.
    rewrite Hget in Hw. simpl in Hw. subst w'.
    split; [reflexivity|]. eapply run_returned. eassumption.
  - right. exists err. split; [eapply run_raised; eassumption|].
    pose proof (get_version_raises _ _ _ _ Hget) as Herr.
    split; [assumption|]. intros filename ->. discriminate.
Qed.

(** X3. The three ways of ending a line give one result: a manifest whose
    lines end in a carriage return and a line feed, or in a carriage
    return alone, makes the script print and end as the manifest of the
    same lines ended by a line feed does. *)
Theorem line_ends_do_not_matter (argv : list string)
    (fs : gmap string file) (lines : list string) (eol : string) :
  forallb one_line lines = true ->
  eol = nl \/ eol = String CR nl \/ eol = String CR "" ->
  run argv (<[CONFIG_FILE := text_file (lines_with eol lines)]> fs)
  = run argv (<[CONFIG_FILE := text_file (lines_with nl lines)]> fs).
Proof.
  intros Hlines Heol. apply run_get_version.
  eapply get_version_readlines.
  - apply lookup_insert_eq.
  - apply lookup_insert_eq.
  - rewrite !readlines_lines_with; auto.
Qed.

Lemma line_ends_do_not_matter_witness :
  run ["get_version.py"]
    (<[CONFIG_FILE :=
         text_file (lines_with (String CR nl)
                      ["[package]"; "version = " ++ quoted "1.0.0"])]>
       ∅)
  = run ["get_version.py"]
      (<[CONFIG_FILE :=
           text_file (lines_with nl
                        ["[package]"; "version = " ++ quoted "1.0.0"])]> ∅).
Proof.
  apply line_ends_do_not_matter; [reflexivity|].
  right; left; reflexivity.
Defined.

(** X4. A manifest made of sections whose lines are [key = value], empty
    or comments, in which no section and no option of a section comes
    twice, is read in full: [config.read] returns with the file in its
    list, and the parser holds every section with every option, the
    key in lower case and the value stripped. *)
Theorem read_rendered_manifest (w : world) (preamble : list string)
    (sections : list (string * list entry)) :
  manifest_ok preamble sections = true ->
  files w !! CONFIG_FILE = Some (text_file (render preamble sections)) ->
  configparser.read configparser.ConfigParser CONFIG_FILE w
  = (Return (config_of sections, [CONFIG_FILE]), w).
Proof.
  intros Hok Hfile. unfold configparser.read, open. rewrite Hfile.
  fold (parse (render preamble sections)). rewrite (parse_render _ _ Hok).
  reflexivity.
Qed.

Lemma read_rendered_manifest_witness :
  let sections :=
    [("package", [assign "name" (quoted "cifra"); ignored "";
                  assign "Version" (quoted "1.0.0")]);
     ("dependencies", [ignored "# none"])] in
  let w :=
    mkWorld {[ CONFIG_FILE := text_file (render ["# a manifest"] sections) ]}
      "" in
  configparser.read configparser.ConfigParser CONFIG_FILE w
  = (Return
       (configparser.mkParser
          {[ "package" := {[ "name" := quoted "cifra";
                             "version" := quoted "1.0.0" ]};
             "dependencies" := ∅ ]} ∅, [CONFIG_FILE]), w).
Proof.
  intros sections w.
  rewrite (read_rendered_manifest w ["# a manifest"] sections);
    [|reflexivity|reflexivity].
  reflexivity.
Defined.

(** X5. From such a manifest, whose section [package] sets [version], in
    whatever case the key is written, to a value without percent sign,
    [get_version] returns the value without the white space around it,
    and the script prints it without its first and its last character
    and ends with status 0. *)
Theorem prints_version_of_manifest (argv : list string)
    (fs : gmap string file) (preamble : list string)
    (sections : list (string * list entry)) (es : list entry)
    (key value : string) :
  manifest_ok preamble sections = true ->
  fs !! CONFIG_FILE = Some (text_file (render preamble sections)) ->
  In ("package", es) sections ->
  In (assign key value) es ->
  PyStr.lower key = "version" ->
  PyStr.contains "%" value = false ->
  get_version CONFIG_FILE (mkWorld fs "")
  = (Return (PyStr.strip value), mkWorld fs "")
  /\ run argv fs
     = mkCompleted
         (PyStr.slice (Some 1%Z) (Some (-1)%Z) (PyStr.strip value) ++ nl)
         0 None.
Proof.
  intros Hok Hfile Hsection Hentry Hkey Hpercent.
  pose proof (get_version_rendered CONFIG_FILE (mkWorld fs "") preamble
                sections es key value Hok Hfile Hsection Hentry Hkey Hpercent)
    as Hget.
  split; [exact Hget|]. eapply run_returned. exact Hget.
Qed.

Lemma prints_version_of_manifest_witness :
  let package :=
    [assign "name" (quoted "cifra"); assign "VERSION" (quoted "0.9.2");
     assign "edition" (quoted "2018"); ignored ""] in
  let sections :=
    [("package", package);
     ("dependencies", [ignored "# none yet"; assign "clap" (quoted "2.33")])] in
  let fs : gmap string file :=
    {[ CONFIG_FILE :=
         text_file (render ["# the manifest of the crate"; ""] sections) ]} in
  get_version CONFIG_FILE (mkWorld fs "")
  = (Return (quoted "0.9.2"), mkWorld fs "")
  /\ run ["get_version.py"] fs = mkCompleted ("0.9.2" ++ nl) 0 None.
Proof.
  intros package sections fs.
  apply (prints_version_of_manifest ["get_version.py"] fs
           ["# the manifest of the crate"; ""] sections package
           "VERSION" (quoted "0.9.2")).
  - reflexivity.
  - reflexivity.
  - left. reflexivity.
  - right. left. reflexivity.
  - reflexivity.
  - reflexivity.
Defined.

(** X6. A manifest in which a section is opened a second time, as the
    tables of an array of tables are, is not read: the script ends
    with status 1 on [DuplicateSectionError], which names the section
    and the line, whatever follows that line, and prints nothing. *)
Theorem section_twice_is_an_error (argv : list string)
    (fs : gmap string file) (preamble : list string)
    (sections : list (string * list entry)) (name : string)
    (more : list string) :
  manifest_ok preamble sections = true ->
  In name sections.*1 ->
  forallb one_line more = true ->
  fs !! CONFIG_FILE
  = Some (text_file (unlines (manifest_lines preamble sections
                   ++ ("[" ++ name ++ "]")%string :: more))) ->
  run argv fs
  = mkCompleted "" 1
      (Some (DuplicateSectionError name CONFIG_FILE
               (S (length (manifest_lines preamble sections))))).
Proof.
  intros Hok Hname Hmore Hfile.
  destruct (read_manifest_lines CONFIG_FILE preamble sections Hok)
    as (st & Hloop & Hst).
  pose proof (manifest_one_line _ _ Hok) as Hlines.
  apply manifest_ok_parts in Hok. destruct Hok as (_ & Hsections & _).
  pose proof (name_ok_In _ _ Hsections Hname) as Hname_ok.
  pose proof (header_one_line _ Hname_ok) as Hheader.
  unfold name_ok in Hname_ok. apply andb_prop in Hname_ok.
  destruct Hname_ok as [Hname_ok _]. apply andb_prop in Hname_ok.
  destruct Hname_ok as [Htruthy _].
  apply (run_raised argv fs CONFIG_FILE _ (mkWorld fs "")).
  rewrite (get_version_text CONFIG_FILE (mkWorld fs "") _ Hfile).
  rewrite (parse_raises_at _ _ _ st
             (DuplicateSectionError name CONFIG_FILE
                (S (length (manifest_lines preamble sections))))).
  - reflexivity.
  - rewrite forallb_app, Hlines. cbn [forallb]. rewrite Hheader, Hmore.
    reflexivity.
  - exact Hloop.
  - apply (step_header_twice _ sections); [assumption|assumption|].
    apply list_elem_of_In. exact Hname.
Qed.

Lemma section_twice_is_an_error_witness :
  let sections :=
    [("package", [assign "version" (quoted "1.0.0")]);
     ("[bin]", [assign "name" (quoted "cifra")])] in
  let fs : gmap string file :=
    {[ CONFIG_FILE :=
         text_file (unlines (manifest_lines [] sections
                  ++ "[[bin]]" :: ["name = " ++ quoted "other"])) ]} in
  run ["get_version.py"] fs
  = mkCompleted "" 1 (Some (DuplicateSectionError "[bin]" CONFIG_FILE 5)).
Proof.
  intros sections fs.
  apply (section_twice_is_an_error ["get_version.py"] fs [] sections "[bin]"
           ["name = " ++ quoted "other"]).
  - reflexivity.
  - right. left. reflexivity.
  - reflexivity.
  - reflexivity.
Defined.

(** X7. A manifest in which a section sets an option a second time, be
    it with other capitals, is not read: the script ends with status 1
    on [DuplicateOptionError], which names the section, the option in
    lower case and the line, and prints nothing. *)
Theorem option_twice_is_an_error (argv : list string)
    (fs : gmap string file) (preamble : list string)
    (sections : list (string * list entry)) (name : string)
    (es : list entry) (key value : string) (more : list string) :
  manifest_ok preamble (sections ++ [(name, es)]) = true ->
  key_ok key = true ->
  one_line value = true ->
  In (PyStr.lower key) (assignments es).*1 ->
  forallb one_line more = true ->
  fs !! CONFIG_FILE
  = Some (text_file (unlines (manifest_lines preamble (sections ++ [(name, es)])
                   ++ (key ++ " = " ++ value)%string :: more))) ->
  run argv fs
  = mkCompleted "" 1
      (Some (DuplicateOptionError (Some name) (PyStr.lower key) CONFIG_FILE
               (S (length (manifest_lines preamble
                             (sections ++ [(name, es)])))))).
Proof.
  intros Hok Hkey Hvalue Hin Hmore Hfile.
  destruct (read_manifest_lines CONFIG_FILE preamble _ Hok)
    as (st & Hloop & Hst).
  pose proof (manifest_one_line _ _ Hok) as Hlines.
  apply (run_raised argv fs CONFIG_FILE _ (mkWorld fs "")).
  rewrite (get_version_text CONFIG_FILE (mkWorld fs "") _ Hfile).
  rewrite (parse_raises_at _ _ _ st
             (DuplicateOptionError (Some name) (PyStr.lower key) CONFIG_FILE
                (S (length (manifest_lines preamble
                              (sections ++ [(name, es)])))))).
  - reflexivity.
  - rewrite forallb_app, Hlines. cbn [forallb].
    change (key ++ " = " ++ value) with (entry_line (assign key value)).
    rewrite (entry_one_line (assign key value)), Hmore; [reflexivity|].
    cbn [entry_ok]. rewrite Hkey, Hvalue. reflexivity.
  - exact Hloop.
  - apply (step_assign_twice _ sections name es); [assumption|assumption|].
    apply list_elem_of_In. exact Hin.
Qed.

Lemma option_twice_is_an_error_witness :
  let package := [assign "name" (quoted "cifra");
                  assign "version" (quoted "1.0.0")] in
  let fs : gmap string file :=
    {[ CONFIG_FILE :=
         text_file (unlines (manifest_lines [] ([] ++ [("package", package)])
                  ++ ("Version" ++ " = " ++ quoted "2.0.0")%string :: [])) ]} in
  run ["get_version.py"] fs
  = mkCompleted "" 1
      (Some (DuplicateOptionError (Some "package") "version" CONFIG_FILE 4)).
Proof.
  intros package fs.
  apply (option_twice_is_an_error ["get_version.py"] fs [] [] "package" package
           "Version" (quoted "2.0.0") []).
  - reflexivity.
  - reflexivity.
  - reflexivity.
  - right. left. reflexivity.
  - reflexivity.
  - reflexivity.
Defined.

(** X8. A comment line may be put between any two lines of a manifest,
    at its head or at its end: the script prints the same and ends
    with the same status, whatever the manifest holds. *)
Theorem comment_line_changes_nothing (argv : list string)
    (fs : gmap string file) (before after : list string)
    (comment : string) :
  forallb one_line (before ++ comment :: after) = true ->
  is_comment comment = true ->
  let commented :=
    run argv
      (<[CONFIG_FILE := text_file (unlines (before ++ comment :: after))]> fs) in
  let bare :=
    run argv (<[CONFIG_FILE := text_file (unlines (before ++ after))]> fs) in
  output commented = output bare /\ returncode commented = returncode bare.
Proof.
  intros Hlines Hcomment commented bare.
  apply (run_agree argv _ _ (unlines (before ++ comment :: after))
           (unlines (before ++ after)));
    try apply lookup_insert_eq.
  assert (Hlines' : forallb one_line (before ++ after) = true).
  { rewrite forallb_app in *. cbn [forallb] in Hlines.
    apply andb_prop in Hlines. destruct Hlines as [Hb Ha].
    apply andb_prop in Ha. destruct Ha as [_ Ha]. rewrite Hb, Ha. reflexivity. }
  rewrite !parse_lines, (readlines_unlines _ Hlines),
    (readlines_unlines _ Hlines').
  apply end_of_read_agree.
  change (enumerate (map (fun line => line ++ nl) ?l) 1) with (numbered 1 l).
  rewrite !numbered_app, !for_each_app.
  destruct (configparser.for_each _ (numbered 1 before) fresh_reader)
    as [st|err]; [|exact I].
  unfold mbind, result_bind. rewrite numbered_cons.
  cbn [configparser.for_each].
  rewrite read_line_comment by (rewrite is_comment_nl; exact Hcomment).
  unfold mbind, result_bind.
  apply for_each_agree; [|apply same_but_errors_refl].
  clear. induction after as [|line after IH]; constructor;
    [apply same_line_refl|exact IH].
Qed.

Lemma comment_line_changes_nothing_witness :
  let commented :=
    run ["get_version.py"]
      (<[CONFIG_FILE :=
           text_file (unlines (["[package]"; "authors = ["]
                    ++ "# the people" :: ["  x ]"; "version = " ++ quoted "1"]))]>
         ∅) in
  let bare :=
    run ["get_version.py"]
      (<[CONFIG_FILE :=
           text_file (unlines (["[package]"; "authors = ["]
                    ++ ["  x ]"; "version = " ++ quoted "1"]))]> ∅) in
  output commented = output bare /\ returncode commented = returncode bare.
Proof.
  apply (comment_line_changes_nothing ["get_version.py"] ∅
           ["[package]"; "authors = ["] ["  x ]"; "version = " ++ quoted "1"]
           "# the people"); reflexivity.
Defined.

(** X9. The last line of a manifest needs no line feed: with or without
    it, the script prints the same and ends with the same status. *)
Theorem final_line_feed_is_optional (argv : list string)
    (fs : gmap string file) (lines : list string) (last : string) :
  forallb one_line (lines ++ [last]) = true ->
  configparser.truthy last = true ->
  let unfinished :=
    run argv (<[CONFIG_FILE := text_file (unlines lines ++ last)]> fs) in
  let finished :=
    run argv (<[CONFIG_FILE := text_file (unlines (lines ++ [last]))]> fs) in
  output unfinished = output finished
  /\ returncode unfinished = returncode finished.
Proof.
  intros Hlines Hlast unfinished finished.
  apply (run_agree argv _ _ (unlines lines ++ last) (unlines (lines ++ [last])));
    try apply lookup_insert_eq.
  rewrite !parse_lines, (readlines_unlines _ Hlines),
    (readlines_from_unfinished _ _ Hlines Hlast).
  apply end_of_read_agree, for_each_agree; [|apply same_but_errors_refl].
  rewrite map_app. apply Forall2_app.
  - clear. induction lines as [|line lines IH]; constructor;
      [apply same_line_refl|exact IH].
  - constructor; [apply same_line_nl|constructor].
Qed.

Lemma final_line_feed_is_optional_witness :
  let unfinished :=
    run ["get_version.py"]
      (<[CONFIG_FILE :=
           text_file (unlines ["[package]"] ++ "version = " ++ quoted "1.0.0")]>
         ∅) in
  let finished :=
    run ["get_version.py"]
      (<[CONFIG_FILE :=
           text_file (unlines (["[package]"]
                               ++ ["version = " ++ quoted "1.0.0"]))]>
         ∅) in
  output unfinished = output finished
  /\ returncode unfinished = returncode finished.
Proof.
  apply (final_line_feed_is_optional ["get_version.py"] ∅ ["[package]"]
           ("version = " ++ quoted "1.0.0")); reflexivity.
Defined.

(** X10. A value in which every percent sign is doubled comes back with
    single percent signs: if the raw value of [version] is the text [v]
    with its percent signs doubled, [get_version] returns [v]. *)
Theorem doubled_percent_signs_are_halved (p : string) (w : world)
    (text : string) (config : configparser.RawConfigParser string)
    (options : gmap string string) (v : string) :
  files w !! CONFIG_FILE = Some (text_file text) ->
  parse text = Return config ->
  configparser._sections config !! "package" = Some options ->
  options !! "version" = Some (escape v) ->
  get_version p w = (Return v, w).
Proof.
  intros Hfile Hparse Hsec Hopt.
  rewrite (get_version_parsed p w text config Hfile Hparse).
  rewrite (package_version_interpolated config options _ Hsec Hopt).
  rewrite interpolate_escape. reflexivity.
Qed.

Lemma doubled_percent_signs_are_halved_witness :
  let w :=
    mkWorld {[ CONFIG_FILE := text_file (manifest (quoted "100%%-1.0%%")) ]}
      "" in
  get_version CONFIG_FILE w = (Return (quoted "100%-1.0%"), w).
Proof.
  intros w.
  apply (doubled_percent_signs_are_halved CONFIG_FILE w
           (manifest (quoted "100%%-1.0%%"))
           (parsed_manifest (quoted "100%%-1.0%%"))
           {[ "name" := quoted "cifra"; "version" := quoted "100%%-1.0%%" ]}
           (quoted "100%-1.0%")); reflexivity.
Defined.

(** X11. A percent sign that is followed neither by a percent sign nor by
    an opening parenthesis is an error: if the first percent sign of
    the raw value of [version] is such a one, [get_version] raises
    [InterpolationSyntaxError] with the value from this percent sign
    on, and the script ends with status 1 and prints nothing. *)
Theorem lone_percent_sign_is_an_error (argv : list string)
    (fs : gmap string file) (text : string)
    (config : configparser.RawConfigParser string)
    (options : gmap string string) (a t : string) :
  fs !! CONFIG_FILE = Some (text_file text) ->
  parse text = Return config ->
  configparser._sections config !! "package" = Some options ->
  options !! "version" = Some (a ++ String "%" t) ->
  PyStr.contains "%" a = false ->
  PyStr.startswith t "%" = false ->
  PyStr.startswith t "(" = false ->
  run argv fs
  = mkCompleted "" 1
      (Some (InterpolationSyntaxError "version" "package" (String "%" t))).
Proof.
  intros Hfile Hparse Hsec Hopt Ha Hpercent Hparen.
  apply (run_raised argv fs CONFIG_FILE _ (mkWorld fs "")).
  rewrite (get_version_parsed CONFIG_FILE (mkWorld fs "") text config Hfile
             Hparse).
  rewrite (package_version_interpolated config options _ Hsec Hopt).
  rewrite (interpolate_lone_percent _ _ _ _ _ _ Ha Hpercent Hparen).
  reflexivity.
Qed.

Lemma lone_percent_sign_is_an_error_witness :
  run ["get_version.py"]
    {[ CONFIG_FILE := text_file (manifest (quoted "1.0-50%")) ]}
  = mkCompleted "" 1
      (Some (InterpolationSyntaxError "version" "package" ("%" ++ dq))).
Proof.
  apply (lone_percent_sign_is_an_error ["get_version.py"]
           {[ CONFIG_FILE := text_file (manifest (quoted "1.0-50%")) ]}
           (manifest (quoted "1.0-50%")) (parsed_manifest (quoted "1.0-50%"))
           {[ "name" := quoted "cifra"; "version" := quoted "1.0-50%" ]}
           (dq ++ "1.0-50") dq); reflexivity.
Defined.

(** X12. A reference [%(name)s] in the value is replaced by the value of
    the option [name] of the section, the name taken in lower case: if
    the raw value of [version] is a text, a reference and another text,
    and neither text nor the value referred to holds a percent sign,
    [get_version] returns the three put together. *)
Theorem reference_is_replaced (p : string) (w : world) (text : string)
    (config : configparser.RawConfigParser string)
    (options : gmap string string) (a name b referred : string) :
  files w !! CONFIG_FILE = Some (text_file text) ->
  parse text = Return config ->
  configparser._sections config !! "package" = Some options ->
  options !! "version" = Some (a ++ "%(" ++ name ++ ")s" ++ b) ->
  options !! PyStr.lower name = Some referred ->
  configparser.truthy name = true ->
  PyStr.contains ")" name = false ->
  PyStr.contains "%" a = false ->
  PyStr.contains "%" b = false ->
  PyStr.contains "%" referred = false ->
  get_version p w = (Return (a ++ referred ++ b), w).
Proof.
  intros Hfile Hparse Hsec Hopt Hname Htruthy Hparen Ha Hb Hreferred.
  rewrite (get_version_parsed p w text config Hfile Hparse).
  rewrite (package_version_interpolated config options _ Hsec Hopt).
  rewrite (interpolate_reference _ _ _ a name b referred); try assumption.
  - reflexivity.
  - rewrite lookup_union, Hname, union_Some_l. reflexivity.
Qed.

Lemma reference_is_replaced_witness :
  let text := unlines ["[package]"; "Name = cifra";
                       "version = " ++ quoted "%(NAME)s-1.0"] in
  let w := mkWorld {[ CONFIG_FILE := text_file text ]} "" in
  get_version CONFIG_FILE w = (Return (quoted "cifra-1.0"), w).
Proof.
  intros text w.
  apply (reference_is_replaced CONFIG_FILE w text
           (configparser.mkParser
              {[ "package" := {[ "name" := "cifra";
                                 "version" := quoted "%(NAME)s-1.0" ]} ]} ∅)
           {[ "name" := "cifra"; "version" := quoted "%(NAME)s-1.0" ]}
           dq "NAME" ("-1.0" ++ dq) "cifra"); reflexivity.
Defined.

(** X13. What the section [package] does not set is looked up in the
    section [DEFAULT]: if [package] is there without [version] and
    [DEFAULT] sets [version] to a value without percent sign,
    [get_version] returns that value. *)
Theorem version_of_default_section (p : string) (w : world) (text : string)
    (config : configparser.RawConfigParser string)
    (options : gmap string string) (raw : string) :
  files w !! CONFIG_FILE = Some (text_file text) ->
  parse text = Return config ->
  configparser._sections config !! "package" = Some options ->
  options !! "version" = None ->
  configparser._defaults config !! "version" = Some raw ->
  PyStr.contains "%" raw = false ->
  get_version p w = (Return raw, w).
Proof.
  intros Hfile Hparse Hsec Hopt Hdefault Hraw.
  rewrite (get_version_parsed p w text config Hfile Hparse).
  rewrite (package_version_section config options Hsec).
  rewrite lookup_union, Hopt, Hdefault.
  change (None ∪ Some raw) with (Some raw). cbv iota.
  rewrite (interpolate_no_percent _ _ _ _ _ Hraw). reflexivity.
Qed.

Lemma version_of_default_section_witness :
  let text := unlines ["[DEFAULT]"; "version = " ++ quoted "9.9.9";
                       "[package]"; "name = " ++ quoted "cifra"] in
  let w := mkWorld {[ CONFIG_FILE := text_file text ]} "" in
  get_version CONFIG_FILE w = (Return (quoted "9.9.9"), w).
Proof.
  intros text w.
  apply (version_of_default_section CONFIG_FILE w text
           (configparser.mkParser
              {[ "package" := {[ "name" := quoted "cifra" ]} ]}
              {[ "version" := quoted "9.9.9" ]})
           {[ "name" := quoted "cifra" ]} (quoted "9.9.9")); reflexivity.
Defined.

(** X14. A line that starts at the margin with a character that is
    neither a bracket nor a comment prefix and that holds no [=] and no
    [:], such as the bracket that closes a list written over several
    lines, makes the script fail wherever it stands in the manifest:
    status 1, nothing printed, on an exception of the parser. *)
Theorem line_without_delimiter_is_an_error (argv : list string)
    (fs : gmap string file) (before after : list string) (c : ascii)
    (s : string) :
  forallb one_line (before ++ String c s :: after) = true ->
  PyStr.isspace c = false ->
  Ascii.eqb c "#" = false -> Ascii.eqb c ";" = false ->
  Ascii.eqb c "[" = false ->
  configparser.find_delimiter (String c s) = None ->
  fs !! CONFIG_FILE
  = Some (text_file (unlines (before ++ String c s :: after))) ->
  exists err,
    run argv fs = mkCompleted "" 1 (Some err) /\ parse_error err = true.
Proof.
  intros Hlines Hc Hhash Hsemi Hbracket Hdelim Hfile.
  destruct (parse_fails_from before after (String c s) Hlines)
    as (err & Hparse & Herr).
  { intros st. apply step_no_delimiter; assumption. }
  exists err. split; [|exact Herr].
  apply (run_raised argv fs CONFIG_FILE _ (mkWorld fs "")).
  rewrite (get_version_text CONFIG_FILE (mkWorld fs "") _ Hfile), Hparse.
  reflexivity.
Qed.

Lemma line_without_delimiter_is_an_error_witness :
  exists err,
    run ["get_version.py"]
      {[ CONFIG_FILE :=
           text_file (unlines (["[package]"; "version = " ++ quoted "1.0.0";
                     "authors = ["; "    " ++ quoted "Dante" ++ ","]
                    ++ "]" :: ["edition = " ++ quoted "2018"])) ]}
    = mkCompleted "" 1 (Some err)
    /\ parse_error err = true.
Proof.
  apply (line_without_delimiter_is_an_error ["get_version.py"] _
           ["[package]"; "version = " ++ quoted "1.0.0";
            "authors = ["; "    " ++ quoted "Dante" ++ ","]
           ["edition = " ++ quoted "2018"] "]" ""); reflexivity.
Defined.

(** X15. A manifest whose first line that is neither empty nor a comment
    is not the header of a section, such as a [cargo-features] line
    above [[package]], is not read: the script ends with status 1 on
    [MissingSectionHeaderError], which holds the number and the text of
    that line, and prints nothing. *)
Theorem line_before_first_section_is_an_error (argv : list string)
    (fs : gmap string file) (preamble after : list string)
    (line : string) :
  forallb ignorable preamble = true ->
  forallb one_line (line :: after) = true ->
  ignorable line = false ->
  configparser.SECTCRE_match (PyStr.strip line) = None ->
  fs !! CONFIG_FILE = Some (text_file (unlines (preamble ++ line :: after))) ->
  run argv fs
  = mkCompleted "" 1
      (Some (MissingSectionHeaderError CONFIG_FILE (S (length preamble))
               (line ++ nl))).
Proof.
  intros Hpre Hlines Hline Hsect Hfile.
  apply (run_raised argv fs CONFIG_FILE _ (mkWorld fs "")).
  rewrite (get_version_text CONFIG_FILE (mkWorld fs "") _ Hfile).
  rewrite (parse_headless _ _ _ Hpre Hlines Hline Hsect). reflexivity.
Qed.

Lemma line_before_first_section_is_an_error_witness :
  run ["get_version.py"]
    {[ CONFIG_FILE :=
         text_file (unlines (["# manifest"; ""]
                  ++ ("cargo-features = [" ++ quoted "edition" ++ "]")%string
                  :: ["[package]"; "version = " ++ quoted "1.0.0"])) ]}
  = mkCompleted "" 1
      (Some (MissingSectionHeaderError CONFIG_FILE 3
               (("cargo-features = [" ++ quoted "edition" ++ "]") ++ nl))).
Proof.
  apply (line_before_first_section_is_an_error ["get_version.py"] _
           ["# manifest"; ""]
           ["[package]"; "version = " ++ quoted "1.0.0"]
           ("cargo-features = [" ++ quoted "edition" ++ "]")); reflexivity.
Defined.


